(** * Telco churn ETL pipeline: transformer, batch loader, validator

    A shallow embedding of [scripts/transform.py], [scripts/load.py] and
    [scripts/validation.py].  Data frames are column oriented, as in pandas:
    a row count and an ordered list of named columns.  The remote table is
    reached through a small capability interface; the pandas routines whose
    result depends on float arithmetic or on text parsing (median, numeric
    parsing, number formatting) are an interface as well, and so is the
    dtype pandas reads text into. *)

From Stdlib Require Import String Ascii Bool Arith ZArith QArith Lqa Lia DecimalString List.
Import ListNotations.

Local Open Scope string_scope.
Local Open Scope list_scope.
Local Open Scope nat_scope.

(** ** Numbers and cells *)

(** A float64 that is not NaN, by its exact value. *)
Inductive num : Type :=
| NInf
| Fin (q : Q)
| PInf.

(** One cell of a frame read by [pd.read_csv]: NaN, a number or a string. *)
Inductive cell : Type :=
| NA
| Num (x : num)
| Str (s : string).

Definition Series := list cell.

Definition num_leb (a b : num) : bool :=
  match a, b with
  | NInf, _ => true
  | _, PInf => true
  | Fin x, Fin y => Qle_bool x y
  | _, _ => false
  end.

Definition num_ltb (a b : num) : bool := negb (num_leb b a).

Definition num_eqb (a b : num) : bool :=
  match a, b with
  | NInf, NInf => true
  | PInf, PInf => true
  | Fin x, Fin y => Qeq_bool x y
  | _, _ => false
  end.

Definition of_nat (n : nat) : num := Fin (inject_Z (Z.of_nat n)).

Definition num_le (a b : num) : Prop := num_leb a b = true.
Definition num_lt (a b : num) : Prop := num_ltb a b = true.

Definition isna (c : cell) : bool :=
  match c with NA => true | _ => false end.

Definition is_str (c : cell) : bool :=
  match c with Str _ => true | _ => false end.

(** [Series.fillna(v)] *)
Definition fillna (v : cell) (s : Series) : Series :=
  map (fun c => if isna c then v else c) s.

(** The non-missing numbers of a column, in row order. *)
Fixpoint numbers (s : Series) : list num :=
  match s with
  | [] => []
  | Num x :: r => x :: numbers r
  | _ :: r => numbers r
  end.

(** ** Exceptions *)

Inductive exn : Type :=
| FileNotFoundError
| ValueError
| KeyError (k : string)
| TypeError
| StoreError.

Inductive result (A : Type) : Type :=
| Ret (a : A)
| Raise (e : exn).

Arguments Ret {A} a.
Arguments Raise {A} e.

Definition rbind {A B} (r : result A) (f : A -> result B) : result B :=
  match r with
  | Ret a => f a
  | Raise e => Raise e
  end.

Declare Scope result_scope.
Delimit Scope result_scope with result.
Notation "'let!' x ':=' r 'in' k" := (rbind r (fun x => k))
  (at level 10, x name, r at level 100, k at level 200) : result_scope.

(** ** Data frames *)

Record DataFrame : Type := mkFrame {
  nrows : nat;
  columns : list (string * Series)
}.

Definition column_names (df : DataFrame) : list string :=
  map fst (columns df).

Fixpoint lookup (c : string) (cols : list (string * Series)) : option Series :=
  match cols with
  | [] => None
  | (k, s) :: r => if String.eqb c k then Some s else lookup c r
  end.

(** [c in df.columns] *)
Definition has_column (df : DataFrame) (c : string) : bool :=
  match lookup c (columns df) with Some _ => true | None => false end.

(** [df[c]] as a read *)
Definition get_column (df : DataFrame) (c : string) : result Series :=
  match lookup c (columns df) with
  | Some s => Ret s
  | None => Raise (KeyError c)
  end.

Fixpoint assign (c : string) (s : Series) (cols : list (string * Series))
  : list (string * Series) :=
  match cols with
  | [] => [(c, s)]
  | (k, old) :: r =>
      if String.eqb c k then (k, s) :: r else (k, old) :: assign c s r
  end.

(** [df[c] = s]: an existing column is replaced where it stands, a new one
    goes last. *)
Definition set_column (df : DataFrame) (c : string) (s : Series) : DataFrame :=
  mkFrame (nrows df) (assign c s (columns df)).

Definition mem (c : string) (l : list string) : bool :=
  existsb (String.eqb c) l.

(** [df.drop(cs, axis=1, errors="ignore")] *)
Definition drop (cs : list string) (df : DataFrame) : DataFrame :=
  mkFrame (nrows df) (filter (fun kv => negb (mem (fst kv) cs)) (columns df)).

(** A frame as [read_csv] builds it: column names are distinct and every
    column has one cell per row. *)
Definition well_formed (df : DataFrame) : Prop :=
  NoDup (column_names df) /\
  Forall (fun kv => length (snd kv) = nrows df) (columns df).

(** ** The pandas routines taken as an interface *)

Class Pandas : Type := {
  (** [pd.to_numeric] on one string; [None] when it does not parse (or
      parses to NaN) *)
  parse_float : string -> option num;
  (** [Series.median()] over the non-missing values; [None] is NaN *)
  median : list num -> option num;
  (** [str] of a number, as [astype(str)] gives it *)
  float_str : num -> string;
  (** whether [read_csv] gives a column of text the string dtype, as pandas
      does from 3.0 on, rather than object *)
  string_dtype : bool
}.

Definition of_option (o : option num) : cell :=
  match o with Some x => Num x | None => NA end.

(** ** Rows as they are sent to the store *)

(** A value of a record handed to the store client: Python's [None], the
    float NaN, a number or a string. *)
Inductive value : Type :=
| VNull
| VNaN
| VNum (x : num)
| VStr (s : string).

Definition Row := list (string * value).

(** [df.iloc[i:j]]: a slice of the rows, clamped to the frame as Python
    slices are. *)
Definition iloc (i j : nat) (df : DataFrame) : DataFrame :=
  mkFrame (Nat.min j (nrows df) - i)
          (map (fun kv => (fst kv, firstn (j - i) (skipn i (snd kv))))
               (columns df)).

(** One cell after [where(pd.notnull(_), None)], as [to_dict] hands it on.
    [as_none] tells whether the column of the cell takes [None] as it is;
    otherwise the [None] that [where] puts into a gap is stored as NaN
    again, and the gap stays the NaN it was. *)
Definition to_value (as_none : bool) (c : cell) : value :=
  match c with
  | NA => if as_none then VNull else VNaN
  | Num x => VNum x
  | Str s => VStr s
  end.

Section Records.
Context {pandas : Pandas}.

(** Whether a column takes [None] as it is.  [where] keeps the dtype of a
    column (pandas 1.3 and later): only a column of object dtype holds
    [None], and that is the dtype of a column of text unless text is read
    into the string dtype; a float64 or int64 column and a column of the
    string dtype have NaN for their missing value. *)
Definition none_kept (s : Series) : bool :=
  existsb is_str s && negb string_dtype.

(** For each column of a frame, whether it takes [None] as it is. *)
Definition dtypes (df : DataFrame) : list bool :=
  map (fun kv => none_kept (snd kv)) (columns df).

(** Row [r] of [df.where(pd.notnull(df), None)], for a frame whose columns
    have the dtypes [kinds]. *)
Definition row_as (kinds : list bool) (df : DataFrame) (r : nat) : Row :=
  map (fun p => (fst (snd p), to_value (fst p) (nth r (snd (snd p)) NA)))
      (combine kinds (columns df)).

(** [df.where(pd.notnull(df), None).to_dict('records')], for a frame whose
    columns have the dtypes [kinds]. *)
Definition records_as (kinds : list bool) (df : DataFrame) : list Row :=
  map (row_as kinds df) (seq 0 (nrows df)).

(** Row [r] of a frame as [read_csv] built it, after
    [where(pd.notnull(_), None)]. *)
Definition row_at (df : DataFrame) (r : nat) : Row :=
  row_as (dtypes df) df r.

(** [df.where(pd.notnull(df), None).to_dict('records')] *)
Definition to_records (df : DataFrame) : list Row :=
  map (row_at df) (seq 0 (nrows df)).

End Records.

(** [df[cs]] for a list of column names *)
Fixpoint select_columns (cs : list string) (df : DataFrame)
  : result (list (string * Series)) :=
  match cs with
  | [] => Ret []
  | c :: r =>
      rbind (get_column df c) (fun s =>
      rbind (select_columns r df) (fun rest => Ret ((c, s) :: rest)))
  end.

(** [range(start, stop, step)] for a positive step, as CPython computes it:
    its length first, then the items [start + k * step]. *)
Definition range_length (start stop step : nat) : nat :=
  if start <? stop then (stop - start - 1) / step + 1 else 0.

Definition py_range (start stop step : nat) : list nat :=
  map (fun k => start + k * step) (seq 0 (range_length start stop step)).

(** ** The remote store and the world the scripts run in *)

(** What [select("id", count="exact").limit(1).execute()] answers. *)
Record Response : Type := mkResponse {
  resp_count : option nat;
  resp_data : list Row
}.

(** The store behind the supabase client.  An operation that raises, or
    whose response carries an error, answers [false] (or [None]); a write
    may still have changed the store. *)
Class RemoteStore (St : Type) : Type := {
  (** [create_client(url, key)] *)
  connect : string -> string -> bool;
  (** [rpc('execute_sql', {'query': sql}).execute()] *)
  execute_sql : St -> bool * St;
  (** [table(t).insert(records).execute()] *)
  insert_rows : string -> list Row -> St -> bool * St;
  (** [table(t).select("id", count="exact").limit(1).execute()] *)
  select_exact : string -> St -> option Response
}.

Inductive file : Type := RawFile | StagedFile.

Record World (St : Type) : Type := mkWorld {
  env_url : option string;
  env_key : option string;
  raw_file : option DataFrame;
  staged_file : option DataFrame;
  remote : St
}.

Arguments mkWorld {St}.
Arguments env_url {St}.
Arguments env_key {St}.
Arguments raw_file {St}.
Arguments staged_file {St}.
Arguments remote {St}.

(** What the scripts print. *)
Inductive message : Type :=
| TableReady
| NoteCreatingTable
| ErrorCreatingTable
| LookingForFile
| FileNotFound (f : file)
| MissingColumns (cs : list string)
| LoadingRows (total : nat)
| BatchInserted (batch_number first last total : nat)
| BatchError (batch_number attempt : nat)
| MaxRetriesReached (batch_number : nat)
| Retrying (batch_number wait_time : nat)
| FinishedLoading
| ErrorLoading (e : exn)
| Transformed
| StartingValidation
| CheckLine (k : nat) (ok : bool)
| CountUnavailable (e : exn)
| SummaryLine (name : string) (ok : bool)
| AllPassed
| SomeFailed.

(** What a run does to the outside, in order. *)
Inductive event : Type :=
| Print (m : message)
| Makedirs
| ReadCsv (f : file)
| ToCsv (f : file)
| CreateClient
| Rpc
| Insert (table : string) (records : list Row)
| SelectCount (table : string)
| Sleep (seconds : nat).

(** A computation over the world: [None] when a loop ran out of fuel,
    otherwise the value or the exception, the world left behind and the
    events in the order they happened. *)
Definition M (St A : Type) : Type :=
  World St -> option (result A * World St * list event).

Section Effects.
Context {St : Type}.

Definition ret {A} (a : A) : M St A := fun w => Some (Ret a, w, []).

Definition raise {A} (e : exn) : M St A := fun w => Some (Raise e, w, []).

Definition out_of_fuel {A} : M St A := fun _ => None.

Definition bind {A B} (m : M St A) (f : A -> M St B) : M St B :=
  fun w =>
    match m w with
    | None => None
    | Some (Raise e, w1, t1) => Some (Raise e, w1, t1)
    | Some (Ret a, w1, t1) =>
        match f a w1 with
        | None => None
        | Some (r, w2, t2) => Some (r, w2, t1 ++ t2)
        end
    end.

(** [try: m  except Exception as e: h e] *)
Definition try_except {A} (m : M St A) (h : exn -> M St A) : M St A :=
  fun w =>
    match m w with
    | None => None
    | Some (Ret a, w1, t1) => Some (Ret a, w1, t1)
    | Some (Raise e, w1, t1) =>
        match h e w1 with
        | None => None
        | Some (r, w2, t2) => Some (r, w2, t1 ++ t2)
        end
    end.

Definition emit (e : event) : M St unit := fun w => Some (Ret tt, w, [e]).

Definition print (m : message) : M St unit := emit (Print m).

Definition lift {A} (r : result A) : M St A := fun w => Some (r, w, []).

Definition getenv (var : World St -> option string) : M St (option string) :=
  fun w => Some (Ret (var w), w, []).

Definition file_of (f : file) (w : World St) : option DataFrame :=
  match f with RawFile => raw_file w | StagedFile => staged_file w end.

(** [os.path.exists(path)] *)
Definition path_exists (f : file) : M St bool :=
  fun w =>
    Some (Ret (match file_of f w with Some _ => true | None => false end),
          w, []).

(** [pd.read_csv(path)] *)
Definition read_csv (f : file) : M St DataFrame :=
  fun w =>
    match file_of f w with
    | Some df => Some (Ret df, w, [ReadCsv f])
    | None => Some (Raise FileNotFoundError, w, [ReadCsv f])
    end.

(** [df.to_csv(path, index=False)]: the file is written whole. *)
Definition to_csv (f : file) (df : DataFrame) : M St unit :=
  fun w =>
    let w' := match f with
              | RawFile =>
                  mkWorld (env_url w) (env_key w) (Some df) (staged_file w)
                          (remote w)
              | StagedFile =>
                  mkWorld (env_url w) (env_key w) (raw_file w) (Some df)
                          (remote w)
              end in
    Some (Ret tt, w', [ToCsv f]).

Definition with_remote (w : World St) (s : St) : World St :=
  mkWorld (env_url w) (env_key w) (raw_file w) (staged_file w) s.

Fixpoint for_each {A} (l : list A) (body : A -> M St unit) : M St unit :=
  match l with
  | [] => ret tt
  | x :: r => bind (body x) (fun _ => for_each r body)
  end.

Context {store : RemoteStore St}.

Definition create_client (url key : string) : M St unit :=
  fun w =>
    if connect (St := St) url key then Some (Ret tt, w, [CreateClient])
    else Some (Raise StoreError, w, [CreateClient]).

Definition rpc_execute_sql : M St unit :=
  fun w =>
    let '(ok, s) := execute_sql (remote w) in
    Some (if ok then Ret tt else Raise StoreError, with_remote w s, [Rpc]).

Definition insert (table : string) (records : list Row) : M St unit :=
  fun w =>
    let '(ok, s) := insert_rows table records (remote w) in
    Some (if ok then Ret tt else Raise StoreError, with_remote w s,
          [Insert table records]).

Definition select_count (table : string) : M St Response :=
  fun w =>
    match select_exact table (remote w) with
    | Some r => Some (Ret r, w, [SelectCount table])
    | None => Some (Raise StoreError, w, [SelectCount table])
    end.

(** Python's truth value of [os.getenv(..)]: unset and empty are false. *)
Definition truthy (o : option string) : bool :=
  match o with
  | Some s => negb (String.eqb s "")
  | None => false
  end.

Definition text (o : option string) : string :=
  match o with Some s => s | None => "" end.

End Effects.

Declare Scope world_scope.
Delimit Scope world_scope with world.
Notation "x <- m ;; k" := (bind m (fun x => k))
  (at level 61, m at next level, right associativity) : world_scope.
Notation "m ;; k" := (bind m (fun _ => k))
  (at level 61, right associativity) : world_scope.

(** ** Feature transformer ([transform.py]) *)

Module Transform.
Section Transformer.
Context {pandas : Pandas} {St : Type}.

Local Open Scope result_scope.

(** [pd.to_numeric(s, errors="coerce")], cell by cell *)
Definition coerce (c : cell) : cell :=
  match c with
  | Str s => of_option (parse_float s)
  | _ => c
  end.

Definition to_numeric (s : Series) : Series := map coerce s.

(** [s.median()]: an object column (one holding a string) is refused. *)
Definition series_median (s : Series) : result cell :=
  if existsb is_str s then Raise TypeError
  else Ret (of_option (median (numbers s))).

Definition numeric_cols : list string :=
  ["tenure"; "MonthlyCharges"; "TotalCharges"].

(** [for col in numeric_cols: if col in df.columns:
       df[col] = df[col].fillna(df[col].median())] *)
Fixpoint fill_numeric (cols : list string) (df : DataFrame) : result DataFrame :=
  match cols with
  | [] => Ret df
  | col :: rest =>
      match lookup col (columns df) with
      | Some s =>
          let! m := series_median s in
          fill_numeric rest (set_column df col (fillna m s))
      | None => fill_numeric rest df
      end
  end.

(** [cat_cols = df.select_dtypes(include=["object"]).columns;
     df[cat_cols] = df[cat_cols].fillna("Unknown")] *)
Definition fill_categorical (df : DataFrame) : DataFrame :=
  mkFrame (nrows df)
    (map (fun kv =>
            if existsb is_str (snd kv)
            then (fst kv, fillna (Str "Unknown") (snd kv))
            else kv)
         (columns df)).

(** [bins.searchsorted(x, side="left")] on increasing [bins] *)
Fixpoint searchsorted_left (bins : list num) (x : num) : nat :=
  match bins with
  | [] => 0
  | b :: r => if num_leb x b then 0 else S (searchsorted_left r x)
  end.

(** [pd.cut(x, bins, labels, include_lowest=True, right=True)] on one cell *)
Definition cut (bins : list num) (labels : list string) (c : cell) : cell :=
  match c with
  | Num x =>
      let ids := searchsorted_left bins x in
      let ids := match bins with
                 | b0 :: _ => if num_eqb x b0 then 1 else ids
                 | [] => ids
                 end in
      if (ids =? length bins) || (ids =? 0) then NA
      else match nth_error labels (ids - 1) with
           | Some l => Str l
           | None => NA
           end
  | _ => NA
  end.

(** The float64 nearest to -0.1 *)
Definition bin_lowest : Q := (-3602879701896397 # 36028797018963968)%Q.

Definition tenure_bins : list num :=
  [Fin bin_lowest; of_nat 12; of_nat 36; of_nat 60; PInf].

Definition tenure_labels : list string :=
  ["New"; "Regular"; "Loyal"; "Champion"].

Definition tenure_group (c : cell) : cell := cut tenure_bins tenure_labels c.

(** [np.select([mc < 30, (mc >= 30) & (mc <= 70), mc > 70],
               ["Low", "Medium", "High"], default="Unknown")] *)
Definition monthly_charge_segment (c : cell) : cell :=
  match c with
  | Num mc =>
      if num_ltb mc (of_nat 30) then Str "Low"
      else if num_leb (of_nat 30) mc && num_leb mc (of_nat 70) then Str "Medium"
      else if num_ltb (of_nat 70) mc then Str "High"
      else Str "Unknown"
  | _ => Str "Unknown"
  end.

(** [.map({"DSL": 1, "Fiber optic": 1, "No": 0}).fillna(0).astype(int)] *)
Definition has_internet_service (c : cell) : cell :=
  match c with
  | Str "DSL" => Num (of_nat 1)
  | Str "Fiber optic" => Num (of_nat 1)
  | Str "No" => Num (of_nat 0)
  | _ => Num (of_nat 0)
  end.

(** [(df["MultipleLines"] == "Yes").astype(int)] *)
Definition is_multi_line_user (c : cell) : cell :=
  match c with
  | Str "Yes" => Num (of_nat 1)
  | _ => Num (of_nat 0)
  end.

(** [.map({"Month-to-month": 0, "One year": 1, "Two year": 2})
      .astype("Int64")] *)
Definition contract_type_code (c : cell) : cell :=
  match c with
  | Str "Month-to-month" => Num (of_nat 0)
  | Str "One year" => Num (of_nat 1)
  | Str "Two year" => Num (of_nat 2)
  | _ => NA
  end.

Definition derived_cols : list string :=
  ["tenure_group"; "monthly_charge_segment"; "has_internet_service";
   "is_multi_line_user"; "contract_type_code"].

Definition dropped_cols : list string := ["customerID"; "gender"].

(** The body of [transform_data] between [read_csv] and [to_csv]. *)
Definition transform_frame (df : DataFrame) : result DataFrame :=
  let! total := get_column df "TotalCharges" in
  let df := set_column df "TotalCharges" (to_numeric total) in
  let! df := fill_numeric numeric_cols df in
  let df := fill_categorical df in
  let! tenure := get_column df "tenure" in
  let df := set_column df "tenure_group" (map tenure_group tenure) in
  let! mc := get_column df "MonthlyCharges" in
  let df := set_column df "monthly_charge_segment"
              (map monthly_charge_segment mc) in
  let! internet := get_column df "InternetService" in
  let df := set_column df "has_internet_service"
              (map has_internet_service internet) in
  let! lines := get_column df "MultipleLines" in
  let df := set_column df "is_multi_line_user"
              (map is_multi_line_user lines) in
  let! contract := get_column df "Contract" in
  let df := set_column df "contract_type_code"
              (map contract_type_code contract) in
  Ret (drop dropped_cols df).

Local Open Scope world_scope.

Definition transform_data : M St unit :=
  emit Makedirs ;;
  found <- path_exists RawFile ;;
  if negb found then raise FileNotFoundError
  else
    df <- read_csv RawFile ;;
    out <- lift (transform_frame df) ;;
    to_csv StagedFile out ;;
    print Transformed.

End Transformer.
End Transform.

(** ** Batch loader ([load.py]) *)

Module Load.
Section Loader.
Context {pandas : Pandas} {St : Type} {store : RemoteStore St}.

Local Open Scope world_scope.

Definition BATCH_SIZE : nat := 200.
Definition MAX_RETRIES : nat := 3.

Definition get_supabase_client : M St unit :=
  url <- getenv env_url ;;
  key <- getenv env_key ;;
  if negb (truthy url) || negb (truthy key) then raise ValueError
  else create_client (text url) (text key).

Definition create_table_if_not_exists : M St unit :=
  try_except
    (get_supabase_client ;;
     try_except
       (rpc_execute_sql ;; print TableReady)
       (fun _ => print NoteCreatingTable))
    (fun _ => print ErrorCreatingTable).

Definition required_cols : list string :=
  ["tenure"; "MonthlyCharges"; "TotalCharges"; "Churn"; "InternetService";
   "Contract"; "PaymentMethod"; "tenure_group"; "monthly_charge_segment";
   "has_internet_service"; "is_multi_line_user"; "contract_type_code"].

(** The [while attempt <= MAX_RETRIES] loop for one batch.  [fuel] bounds the
    iterations; one unit is spent per pass through the loop head. *)
Fixpoint retry_loop (fuel : nat) (table : string) (records : list Row)
    (batch_number i total_rows attempt : nat) : M St unit :=
  match fuel with
  | 0 => out_of_fuel
  | S fuel' =>
      if attempt <=? MAX_RETRIES then
        try_except
          (insert table records ;;
           print (BatchInserted batch_number (i + 1)
                    (Nat.min (i + BATCH_SIZE) total_rows) total_rows))
          (fun _ =>
             print (BatchError batch_number attempt) ;;
             if attempt =? MAX_RETRIES then
               print (MaxRetriesReached batch_number)
             else
               let wait_time := 2 * attempt in
               print (Retrying batch_number wait_time) ;;
               emit (Sleep wait_time) ;;
               retry_loop fuel' table records batch_number i total_rows
                 (attempt + 1))
      else ret tt
  end.

(** The records of the batch that starts at row [i]: the slice is cut from
    [df] and keeps the dtypes of its columns. *)
Definition batch_records (df : DataFrame) (i : nat) : list Row :=
  records_as (dtypes df) (iloc i (i + BATCH_SIZE) df).

(** One pass of [for i in range(0, total_rows, BATCH_SIZE)]. *)
Definition load_batch (table : string) (df : DataFrame) (total_rows i : nat)
  : M St unit :=
  retry_loop MAX_RETRIES table (batch_records df i)
    (i / BATCH_SIZE + 1) i total_rows 1.

Definition load_batches (table : string) (df : DataFrame) : M St unit :=
  for_each (py_range 0 (nrows df) BATCH_SIZE)
           (load_batch table df (nrows df)).

Definition load_to_supabase (table : string) : M St unit :=
  print LookingForFile ;;
  found <- path_exists StagedFile ;;
  if negb found then print (FileNotFound StagedFile)
  else
    try_except
      (get_supabase_client ;;
       df <- read_csv StagedFile ;;
       let missing := filter (fun c => negb (has_column df c)) required_cols in
       match missing with
       | _ :: _ => print (MissingColumns missing)
       | [] =>
           cols <- lift (select_columns required_cols df) ;;
           let df := mkFrame (nrows df) cols in
           print (LoadingRows (nrows df)) ;;
           load_batches table df ;;
           print FinishedLoading
       end)
      (fun e => print (ErrorLoading e)).

(** The script run standalone. *)
Definition main : M St unit :=
  create_table_if_not_exists ;;
  load_to_supabase "telco_churn".

End Loader.
End Load.

(** ** Consistency validator ([validation.py]) *)

Module Validation.
Section Validator.
Context {St : Type} {store : RemoteStore St} {pandas : Pandas}.

Local Open Scope world_scope.

Definition get_supabase_client : M St unit :=
  url <- getenv env_url ;;
  key <- getenv env_key ;;
  if negb (truthy url) || negb (truthy key) then raise ValueError
  else create_client (text url) (text key).

Definition get_supabase_row_count (table : string) : M St nat :=
  get_supabase_client ;;
  response <- select_count table ;;
  match resp_count response with
  | Some n => ret n
  | None => ret (length (resp_data response))
  end.

Definition cell_eqb (a b : cell) : bool :=
  match a, b with
  | NA, NA => true
  | Num x, Num y => num_eqb x y
  | Str s, Str t => String.eqb s t
  | _, _ => false
  end.

(** [s.dropna().unique()]: the distinct non-missing values, by first
    occurrence. *)
Fixpoint unique (s : Series) : list cell :=
  match s with
  | [] => []
  | c :: r =>
      let u := unique r in
      if isna c then u
      else c :: filter (fun d => negb (cell_eqb c d)) u
  end.

(** [s.nunique()] *)
Definition nunique (s : Series) : nat := length (unique s).

(** [set(s.dropna().astype(str).unique())] *)
Definition str_values (s : Series) : list string :=
  map (fun c => match c with
                | Str t => t
                | Num x => float_str x
                | NA => ""
                end)
      (unique s).

(** [expected.issubset(actual)] *)
Definition issubset (expected actual : list string) : bool :=
  forallb (fun e => mem e actual) expected.

Definition numeric_cols : list string :=
  ["tenure"; "MonthlyCharges"; "TotalCharges"].

Definition count_na (s : Series) : nat := length (filter isna s).

(** Check 1 *)
Definition no_missing_numeric (df : DataFrame) : bool :=
  forallb (fun col => match lookup col (columns df) with
                      | Some s => count_na s =? 0
                      | None => true
                      end)
          numeric_cols.

(** Check 2 *)
Definition raw_unique (raw_df : DataFrame) : nat :=
  match lookup "customerID" (columns raw_df) with
  | Some ids => nunique ids
  | None => nrows raw_df
  end.

Definition unique_match (raw_df df : DataFrame) : bool :=
  nrows df =? raw_unique raw_df.

(** Checks 4 and 5 *)
Definition segments_ok (col : string) (expected : list string)
    (df : DataFrame) : bool :=
  let actual := match lookup col (columns df) with
                | Some s => str_values s
                | None => []
                end in
  issubset expected actual.

Definition expected_tenure_groups : list string :=
  ["New"; "Regular"; "Loyal"; "Champion"].

Definition expected_charge_segments : list string :=
  ["Low"; "Medium"; "High"].

(** Check 6 *)
Definition allowed_code (c : cell) : bool :=
  match c with
  | Num x => num_eqb x (of_nat 0) || num_eqb x (of_nat 1)
             || num_eqb x (of_nat 2)
  | _ => false
  end.

Definition contract_codes_ok (df : DataFrame) : bool :=
  let actual := match lookup "contract_type_code" (columns df) with
                | Some s => unique s
                | None => []
                end in
  forallb allowed_code actual && (0 <? length actual).

Definition Checks := list (string * bool).

(** The summary loop: one line per check, then the verdict. *)
Definition summary (checks : Checks) : M St unit :=
  for_each checks (fun c => print (SummaryLine (fst c) (snd c))) ;;
  if forallb snd checks then print AllPassed else print SomeFailed.

(** [validate] prints its findings; the list of checks it has built is
    returned here as well ([None] when it left before running any). *)
Definition validate : M St (option Checks) :=
  raw_found <- path_exists RawFile ;;
  if negb raw_found then
    print (FileNotFound RawFile) ;; ret None
  else
    staged_found <- path_exists StagedFile ;;
    if negb staged_found then
      print (FileNotFound StagedFile) ;; ret None
    else
      raw_df <- read_csv RawFile ;;
      df <- read_csv StagedFile ;;
      print StartingValidation ;;
      let checks := [] in
      let c1 := no_missing_numeric df in
      let checks := checks ++
        [("No missing values in tenure, MonthlyCharges, TotalCharges", c1)] in
      print (CheckLine 1 c1) ;;
      let transformed_rows := nrows df in
      let c2 := unique_match raw_df df in
      let checks := checks ++
        [("Unique count of rows matches original dataset", c2)] in
      print (CheckLine 2 c2) ;;
      supabase_ok <-
        try_except
          (supabase_count <- get_supabase_row_count "telco_churn" ;;
           ret (supabase_count =? transformed_rows))
          (fun e => print (CountUnavailable e) ;; ret false) ;;
      let checks := checks ++
        [("Row count matches Supabase table", supabase_ok)] in
      print (CheckLine 3 supabase_ok) ;;
      let c4 := segments_ok "tenure_group" expected_tenure_groups df in
      let checks := checks ++ [("All tenure_group segments exist", c4)] in
      print (CheckLine 4 c4) ;;
      let c5 := segments_ok "monthly_charge_segment"
                  expected_charge_segments df in
      let checks := checks ++
        [("All monthly_charge_segment segments exist", c5)] in
      print (CheckLine 5 c5) ;;
      let c6 := contract_codes_ok df in
      let checks := checks ++ [("Contract codes are only {0,1,2}", c6)] in
      print (CheckLine 6 c6) ;;
      summary checks ;;
      ret (Some checks).

End Validator.
End Validation.

(** ** A store and a pandas to run the model on *)

(** A table in memory with a script of insert faults: the head of [faults]
    tells whether the next insert call fails ([true]) or appends its rows;
    an exhausted script means no more faults.  [reachable] tells whether the
    count query answers. *)
Record ScriptedStore : Type := mkStore {
  table_rows : list Row;
  faults : list bool;
  reachable : bool
}.

#[export] Instance scripted_store : RemoteStore ScriptedStore := {
  connect := fun _ _ => true;
  execute_sql := fun s => (true, s);
  insert_rows := fun _ records s =>
    match faults s with
    | true :: r => (false, mkStore (table_rows s) r (reachable s))
    | false :: r => (true, mkStore (table_rows s ++ records) r (reachable s))
    | [] => (true, mkStore (table_rows s ++ records) [] (reachable s))
    end;
  select_exact := fun _ s =>
    if reachable s
    then Some (mkResponse (Some (length (table_rows s)))
                          (firstn 1 (table_rows s)))
    else None
}.

Module Exact.

(** Plain decimal text: digits with at most one point. *)
Fixpoint parse_digits (s : string) (acc : Z) (scale : positive)
    (after_point seen_digit : bool) : option Q :=
  match s with
  | EmptyString => if seen_digit then Some (Qred (acc # scale)) else None
  | String c r =>
      if Ascii.eqb c "." then
        if after_point then None
        else parse_digits r acc scale true seen_digit
      else
        let n := nat_of_ascii c in
        if (48 <=? n) && (n <=? 57) then
          parse_digits r (acc * 10 + Z.of_nat (n - 48))
            (if after_point then scale * 10 else scale) after_point true
        else None
  end.

Definition parse (s : string) : option num :=
  match parse_digits s 0 1 false false with
  | Some q => Some (Fin q)
  | None => None
  end.

Fixpoint insert_sorted (x : num) (l : list num) : list num :=
  match l with
  | [] => [x]
  | y :: r => if num_leb x y then x :: l else y :: insert_sorted x r
  end.

Definition sort (l : list num) : list num := fold_right insert_sorted [] l.

Definition mean2 (a b : num) : option num :=
  match a, b with
  | Fin x, Fin y => Some (Fin (Qred ((x + y) / 2)))
  | NInf, PInf | PInf, NInf => None
  | NInf, _ | _, NInf => Some NInf
  | PInf, _ | _, PInf => Some PInf
  end.

(** The median in exact arithmetic: the middle value, or the mean of the
    two middle values. *)
Definition median (l : list num) : option num :=
  let s := sort l in
  let n := length s in
  if n =? 0 then None
  else if Nat.odd n then nth_error s (n / 2)
  else match nth_error s (n / 2 - 1), nth_error s (n / 2) with
       | Some a, Some b => mean2 a b
       | _, _ => None
       end.

Definition show (x : num) : string :=
  match x with
  | NInf => "-inf"
  | PInf => "inf"
  | Fin q =>
      DecimalString.NilZero.string_of_int (Z.to_int (Qnum q)) ++ "/" ++
      DecimalString.NilZero.string_of_int (Z.to_int (Zpos (Qden q)))
  end.

End Exact.

(** An idealised pandas for the examples: it reads plain unsigned decimals
    (not the signs, exponents and surrounding blanks [pd.to_numeric] reads
    as well), takes the median in exact rational arithmetic (where float64
    rounds), shows numbers as fractions and reads text into the string
    dtype.  On numbers that float64 holds exactly, as the examples have
    them, parsing and median are those of pandas. *)
#[export] Instance exact_pandas : Pandas := {
  parse_float := Exact.parse;
  median := Exact.median;
  float_str := Exact.show;
  string_dtype := true
}.

Definition nums (l : list Z) : Series := map (fun z => Num (Fin (inject_Z z))) l.
Definition strs (l : list string) : Series := map Str l.

Definition raw_example : DataFrame :=
  mkFrame 4
    [("customerID", strs ["A"; "B"; "C"; "D"]);
     ("gender", strs ["F"; "M"; "F"; "M"]);
     ("tenure", nums [1; 24; 48; 72]%Z);
     ("MonthlyCharges", nums [20; 50; 80; 100]%Z);
     ("TotalCharges", strs ["20"; " "; "3840.5"; "7200"]);
     ("InternetService", strs ["DSL"; "No"; "Fiber optic"; "DSL"]);
     ("MultipleLines", strs ["Yes"; "No"; "No phone service"; "Yes"]);
     ("Contract", strs ["Month-to-month"; "One year"; "Two year"; "Other"])].

(** ** Terms the properties are stated in *)

Section TransformTerms.
Context {pandas : Pandas}.

Import Transform.

(** The column [s] with its gaps filled by its own median. *)
Definition imputed (s : Series) : Series :=
  fillna (of_option (median (numbers s))) s.

Definition fill_unknown (s : Series) : Series :=
  if existsb is_str s then fillna (Str "Unknown") s else s.

(** The frame [transform_frame] returns, from the frame [df3] it has after
    the cleaning steps and the five columns it reads there. *)
Definition enrich (df3 : DataFrame) (tenure mc internet lines contract : Series)
  : DataFrame :=
  let df := set_column df3 "tenure_group" (map tenure_group tenure) in
  let df := set_column df "monthly_charge_segment"
              (map monthly_charge_segment mc) in
  let df := set_column df "has_internet_service"
              (map has_internet_service internet) in
  let df := set_column df "is_multi_line_user"
              (map is_multi_line_user lines) in
  let df := set_column df "contract_type_code"
              (map contract_type_code contract) in
  drop dropped_cols df.

(** What a frame needs for [transform_frame] to go through: the columns it
    reads, and numbers (or gaps) only in the two numeric columns it does not
    coerce. *)
Definition numeric_column (df : DataFrame) (c : string) : bool :=
  match lookup c (columns df) with
  | Some s => negb (existsb is_str s)
  | None => false
  end.

Definition accepted (df : DataFrame) : bool :=
  forallb (has_column df)
    ["TotalCharges"; "InternetService"; "MultipleLines"; "Contract"]
  && numeric_column df "tenure" && numeric_column df "MonthlyCharges".

(** Every gap of [before] holds the median of [before] in [after]; the other
    cells are as they were. *)
Definition gaps_filled (before after : Series) : Prop :=
  length after = length before /\
  forall i c, nth_error before i = Some c ->
              nth_error after i
              = Some (if isna c then of_option (median (numbers before))
                      else c).

End TransformTerms.

(** [ceil(n / d)] *)
Definition ceil_div (n d : nat) : nat := (n + d - 1) / d.

(** The insertion calls of a run, in order. *)
Fixpoint inserts (t : list event) : list (string * list Row) :=
  match t with
  | [] => []
  | Insert table records :: r => (table, records) :: inserts r
  | _ :: r => inserts r
  end.

(** The waits of a run, in order. *)
Fixpoint sleeps (t : list event) : list nat :=
  match t with
  | [] => []
  | Sleep n :: r => n :: sleeps r
  | _ :: r => sleeps r
  end.

(** The batches a run is through with, by their numbers in the order their
    last message is printed: inserted, or given up after the last attempt. *)
Fixpoint batches_done (t : list event) : list nat :=
  match t with
  | [] => []
  | Print (BatchInserted batch_number _ _ _) :: r =>
      batch_number :: batches_done r
  | Print (MaxRetriesReached batch_number) :: r =>
      batch_number :: batches_done r
  | _ :: r => batches_done r
  end.

(** The rows [i, min (i + b) n) *)
Definition chunk (b n i : nat) : list nat := seq i (Nat.min (i + b) n - i).

Section LoadTerms.
Context {pandas : Pandas} {St : Type} {store : RemoteStore St}.

Import Load.

(** What one batch does, by the outcomes of its (at most three) insertion
    calls. *)
Definition batch_run (table : string) (records : list Row)
    (batch_number i total_rows : nat) (w : World St)
  : World St * list event :=
  let inserted :=
    Print (BatchInserted batch_number (i + 1)
             (Nat.min (i + BATCH_SIZE) total_rows) total_rows) in
  let '(ok1, s1) := insert_rows table records (remote w) in
  if ok1 then (with_remote w s1, [Insert table records; inserted])
  else
    let '(ok2, s2) := insert_rows table records s1 in
    if ok2 then
      (with_remote w s2,
       [Insert table records; Print (BatchError batch_number 1);
        Print (Retrying batch_number 2); Sleep 2;
        Insert table records; inserted])
    else
      let '(ok3, s3) := insert_rows table records s2 in
      (with_remote w s3,
       [Insert table records; Print (BatchError batch_number 1);
        Print (Retrying batch_number 2); Sleep 2;
        Insert table records; Print (BatchError batch_number 2);
        Print (Retrying batch_number 4); Sleep 4;
        Insert table records;
        if ok3 then inserted else Print (BatchError batch_number 3)]
       ++ if ok3 then [] else [Print (MaxRetriesReached batch_number)]).

(** The attempts of a run over the batches starting at [starts]: batch [i]
    sent [k] times, for each pair [(i, k)]. *)
Definition attempts_of (table : string) (df : DataFrame)
    (pairs : list (nat * nat)) : list (string * list Row) :=
  concat (map (fun ik => repeat (table, batch_records df (fst ik)) (snd ik))
              pairs).

Definition has_config (w : World St) : bool :=
  truthy (env_url w) && truthy (env_key w).

(** Whether [create_client] goes through with the settings of [w]. *)
Definition connects (w : World St) : bool :=
  connect (St := St) (text (env_url w)) (text (env_key w)).

Definition missing_columns (df : DataFrame) : list string :=
  filter (fun c => negb (has_column df c)) required_cols.

(** The frame the loader batches: the required columns of the staged
    frame. *)
Definition projected (df : DataFrame) : DataFrame :=
  mkFrame (nrows df)
    (match select_columns required_cols df with
     | Ret cols => cols
     | Raise _ => []
     end).

(** Whether [load_to_supabase] gets as far as the batches. *)
Definition ready (w : World St) : bool :=
  match staged_file w with
  | Some df =>
      has_config w && connects w
      && match missing_columns df with [] => true | _ => false end
  | None => false
  end.

Definition staged_rows (w : World St) : nat :=
  match staged_file w with
  | Some df => nrows df
  | None => 0
  end.

End LoadTerms.

Section ValidationTerms.
Context {St : Type} {store : RemoteStore St} {pandas : Pandas}.

Import Validation.

(** The six checks in the order [validate] appends them, for a given outcome
    of the third. *)
Definition report (raw_df df : DataFrame) (supabase_ok : bool) : Checks :=
  [("No missing values in tenure, MonthlyCharges, TotalCharges",
    no_missing_numeric df);
   ("Unique count of rows matches original dataset", unique_match raw_df df);
   ("Row count matches Supabase table", supabase_ok);
   ("All tenure_group segments exist",
    segments_ok "tenure_group" expected_tenure_groups df);
   ("All monthly_charge_segment segments exist",
    segments_ok "monthly_charge_segment" expected_charge_segments df);
   ("Contract codes are only {0,1,2}", contract_codes_ok df)].

(** The count [get_supabase_row_count] takes from a response. *)
Definition count_of (r : Response) : nat :=
  match resp_count r with
  | Some n => n
  | None => length (resp_data r)
  end.

(** The third check and what it does to the outside. *)
Definition count_check (w : World St) (df : DataFrame) : bool * list event :=
  match get_supabase_row_count "telco_churn" w with
  | Some (Ret n, _, t) => (n =? nrows df, t)
  | Some (Raise e, _, t) => (false, t ++ [Print (CountUnavailable e)])
  | None => (false, [])
  end.

Definition verdict (checks : Checks) : message :=
  if forallb snd checks then AllPassed else SomeFailed.

(** Events that change nothing outside: output, reading a file, building
    the client, the count query. *)
Definition only_reads (e : event) : bool :=
  match e with
  | Print _ | ReadCsv _ | CreateClient | SelectCount _ => true
  | _ => false
  end.

End ValidationTerms.

(** ** A store that appends and counts *)

(** The remote table as a list of rows: every insertion appends its records
    and succeeds, the count query answers the number of rows. *)
Record Table : Type := mkTable { stored : list Row }.

#[export] Instance table_store : RemoteStore Table := {
  connect := fun _ _ => true;
  execute_sql := fun s => (true, s);
  insert_rows := fun _ records s => (true, mkTable (stored s ++ records));
  select_exact := fun _ s =>
    Some (mkResponse (Some (length (stored s))) (firstn 1 (stored s)))
}.

(** ** A store whose answers carry no count *)

(** The remote table as a list of rows behind a client whose response has no
    [count], the case the fallback of [get_supabase_row_count] is written
    for: the select answers the rows its [limit(1)] lets through. *)
Record Uncounted : Type := mkUncounted { held : list Row }.

#[export] Instance uncounted_store : RemoteStore Uncounted := {
  connect := fun _ _ => true;
  execute_sql := fun s => (true, s);
  insert_rows := fun _ records s => (true, mkUncounted (held s ++ records));
  select_exact := fun _ s => Some (mkResponse None (firstn 1 (held s)))
}.

(** The cell of column [c] in row [r] of a frame (NaN out of range). *)
Definition cell_at (df : DataFrame) (c : string) (r : nat) : cell :=
  match lookup c (columns df) with
  | Some s => nth r s NA
  | None => NA
  end.

(** The column [c] of a frame (empty when the frame has none). *)
Definition column_of (df : DataFrame) (c : string) : Series :=
  match lookup c (columns df) with
  | Some s => s
  | None => []
  end.

(** What a record holds for the cell of column [c] in row [r]. *)
Definition sent {pandas : Pandas} (df : DataFrame) (c : string) (r : nat)
  : value :=
  to_value (none_kept (column_of df c)) (cell_at df c r).

(** What the loader does outside: output, building the client, reading the
    staged file, insertions and waits. *)
Definition loader_event (e : event) : bool :=
  match e with
  | Print _ | CreateClient | ReadCsv StagedFile | Insert _ _ | Sleep _ => true
  | _ => false
  end.

(** The columns [transform_frame] reads, in the order it reads them. *)
Definition read_columns : list string :=
  ["TotalCharges"; "tenure"; "MonthlyCharges"; "InternetService";
   "MultipleLines"; "Contract"].

(** A column without numbers: text and gaps only. *)
Definition text_column (s : Series) : Prop :=
  forall c, In c s -> c = NA \/ exists t, c = Str t.

(** ** Frames and worlds for the examples *)

(** A frame with a tenure below the lowest bin edge. *)
Definition negative_tenure_example : DataFrame :=
  set_column raw_example "tenure" (nums [-1; 24; 48; 72]%Z).

Definition enriched_example : DataFrame :=
  Eval vm_compute in
    match Transform.transform_frame raw_example with
    | Ret out => out
    | Raise _ => raw_example
    end.

(** 450 staged rows with the twelve required columns; row [k] holds [k] in
    every column. *)
Definition staged_450 : DataFrame :=
  mkFrame 450
    (map (fun c => (c, map (fun k => Num (of_nat k)) (seq 0 450)))
         Load.required_cols).

Definition world_with (df : DataFrame) (faults : list bool)
  : World ScriptedStore :=
  mkWorld (Some "https://store.example") (Some "key")
          (Some raw_example) (Some df) (mkStore [] faults true).

(** The staged example loaded in full, and the same files without a store
    URL. *)
Definition loaded_world : World ScriptedStore :=
  mkWorld (Some "https://store.example") (Some "key")
          (Some raw_example) (Some enriched_example)
          (mkStore (to_records enriched_example) [] true).

Definition no_url_world : World ScriptedStore :=
  mkWorld None (Some "key") (Some raw_example) (Some enriched_example)
          (mkStore [] [] true).

(** The raw example with the two columns the loader needs besides. *)
Definition full_raw_example : DataFrame :=
  set_column
    (set_column raw_example "Churn" (strs ["No"; "Yes"; "No"; "No"]))
    "PaymentMethod"
    (strs ["Mailed check"; "Electronic check"; "Mailed check";
           "Bank transfer (automatic)"]).

(** The raw example with gaps: a missing InternetService, and a numeric
    column the transformer does not know with a gap of its own. *)
Definition gappy_raw_example : DataFrame :=
  set_column
    (set_column raw_example "InternetService"
       [Str "DSL"; NA; Str "Fiber optic"; Str "DSL"])
    "SeniorCitizen" [Num (of_nat 0); NA; Num (of_nat 1); Num (of_nat 0)].

Definition enriched_full_example : DataFrame :=
  Eval vm_compute in
    match Transform.transform_frame full_raw_example with
    | Ret out => out
    | Raise _ => full_raw_example
    end.

Definition enriched_gappy_example : DataFrame :=
  Eval vm_compute in
    match Transform.transform_frame gappy_raw_example with
    | Ret out => out
    | Raise _ => gappy_raw_example
    end.

(** A world on the appending table, with the settings in place. *)
Definition table_world (raw staged : option DataFrame) (rows : list Row)
  : World Table :=
  mkWorld (Some "https://store.example") (Some "key") raw staged
          (mkTable rows).

(** A world on the table that reports no count, with the settings in
    place. *)
Definition uncounted_world (raw staged : option DataFrame) (rows : list Row)
  : World Uncounted :=
  mkWorld (Some "https://store.example") (Some "key") raw staged
          (mkUncounted rows).

(** One staged row, and a table of five rows. *)
Definition one_row_example : DataFrame := iloc 0 1 enriched_example.

Definition five_rows_example : list Row :=
  to_records enriched_example ++ to_records one_row_example.

(** * Properties *)

(** ** Columns of a frame *)

Section FrameFacts.

Lemma lookup_assign_eq c s cols : lookup c (assign c s cols) = Some s.
Proof.
  induction cols as [|[k old] r IH]; simpl.
  - now rewrite String.eqb_refl.
  - destruct (String.eqb c k) eqn:E; simpl; rewrite E; auto.
Qed.

Lemma lookup_assign_neq c k s cols :
  String.eqb k c = false -> lookup k (assign c s cols) = lookup k cols.
Proof.
  intros N. induction cols as [|[k' old] r IH]; simpl.
  - now rewrite N.
  - destruct (String.eqb c k') eqn:E; simpl.
    + apply String.eqb_eq in E. subst k'. now rewrite N.
    + destruct (String.eqb k k'); auto.
Qed.

Lemma lookup_drop k cs (cols : list (string * Series)) :
  mem k cs = false ->
  lookup k (filter (fun kv => negb (mem (fst kv) cs)) cols) = lookup k cols.
Proof.
  intros N. induction cols as [|[k' s] r IH]; simpl; auto.
  destruct (String.eqb k k') eqn:E.
  - apply String.eqb_eq in E. subst k'. rewrite N. simpl.
    now rewrite String.eqb_refl.
  - destruct (mem k' cs); simpl; auto. now rewrite E.
Qed.

Lemma lookup_map_values (f : Series -> Series) k cols :
  lookup k (map (fun kv => (fst kv, f (snd kv))) cols)
  = option_map f (lookup k cols).
Proof.
  induction cols as [|[k' s] r IH]; simpl; auto.
  destruct (String.eqb k k'); auto.
Qed.

Lemma lookup_In k cols : In k (map fst cols) <-> lookup k cols <> None.
Proof.
  induction cols as [|[k' s] r IH]; simpl.
  - intuition congruence.
  - destruct (String.eqb k k') eqn:E.
    + apply String.eqb_eq in E. subst. intuition congruence.
    + apply String.eqb_neq in E. rewrite <- IH. intuition congruence.
Qed.

Lemma lookup_length k s cols n :
  Forall (fun kv => length (snd kv) = n) cols ->
  lookup k cols = Some s -> length s = n.
Proof.
  induction 1 as [|[k' s'] r H _ IH]; simpl; [discriminate|].
  destruct (String.eqb k k'); auto. intros [= <-]. exact H.
Qed.

Lemma names_assign_known c s cols :
  In c (map fst cols) -> map fst (assign c s cols) = map fst cols.
Proof.
  induction cols as [|[k old] r IH]; simpl; [tauto|].
  destruct (String.eqb c k) eqn:E; simpl; auto.
  apply String.eqb_neq in E. intros [H|H]; [congruence|]. now rewrite IH.
Qed.

Lemma names_assign_new c s cols :
  ~ In c (map fst cols) -> map fst (assign c s cols) = map fst cols ++ [c].
Proof.
  induction cols as [|[k old] r IH]; simpl; auto.
  intros N. destruct (String.eqb c k) eqn:E.
  - apply String.eqb_eq in E. subst. tauto.
  - simpl. rewrite IH; auto.
Qed.

Lemma In_names_assign k c s cols :
  In k (map fst (assign c s cols)) <-> k = c \/ In k (map fst cols).
Proof.
  destruct (in_dec string_dec c (map fst cols)) as [H|H].
  - rewrite names_assign_known by assumption.
    split; [tauto|]. intros [->|?]; assumption.
  - rewrite names_assign_new by assumption.
    rewrite in_app_iff. simpl. intuition congruence.
Qed.

Lemma NoDup_names_assign c s cols :
  NoDup (map fst cols) -> NoDup (map fst (assign c s cols)).
Proof.
  intros N. destruct (in_dec string_dec c (map fst cols)) as [H|H].
  - now rewrite names_assign_known.
  - rewrite names_assign_new by assumption.
    apply NoDup_app; auto.
    + constructor; [simpl; tauto | constructor].
    + intros x Hx [<-|[]]. contradiction.
Qed.

Lemma lengths_assign n c s cols :
  length s = n ->
  Forall (fun kv => length (snd kv) = n) cols ->
  Forall (fun kv => length (snd kv) = n) (assign c s cols).
Proof.
  intros L F. induction F as [|[k old] r H F IH]; simpl.
  - constructor; auto.
  - destruct (String.eqb c k); constructor; auto.
Qed.

Lemma mem_In c l : mem c l = true <-> In c l.
Proof.
  unfold mem. rewrite existsb_exists. split.
  - intros (x & Hx & E). apply String.eqb_eq in E. now subst.
  - intros H. exists c. split; auto. apply String.eqb_refl.
Qed.

Lemma mem_not_In c l : mem c l = false <-> ~ In c l.
Proof.
  rewrite <- mem_In. destruct (mem c l); intuition congruence.
Qed.

Lemma In_names_drop k cs (cols : list (string * Series)) :
  In k (map fst (filter (fun kv => negb (mem (fst kv) cs)) cols))
  <-> In k (map fst cols) /\ ~ In k cs.
Proof.
  rewrite !in_map_iff. split.
  - intros ([k' s] & <- & H). apply filter_In in H as [H1 H2]. simpl in *.
    split; [exists (k', s); auto|].
    apply mem_not_In. now destruct (mem k' cs).
  - intros [([k' s] & <- & H) N]. exists (k', s). split; auto.
    apply filter_In. split; auto. simpl in *.
    apply mem_not_In in N. now rewrite N.
Qed.

Lemma NoDup_names_filter (f : string * Series -> bool) cols :
  NoDup (map fst cols) -> NoDup (map fst (filter f cols)).
Proof.
  induction cols as [|[k s] r IH]; simpl; auto.
  intros N. inversion N; subst. destruct (f (k, s)); simpl; auto.
  constructor; auto. intros H. apply H1.
  apply in_map_iff in H as (x & <- & Hx). apply filter_In in Hx as [Hx _].
  now apply in_map.
Qed.

End FrameFacts.

(** ** The transformer *)

Section TransformFacts.
Context {pandas : Pandas} {St : Type}.

Import Transform.

Lemma no_str_fillna v s :
  is_str v = false -> existsb is_str s = false ->
  existsb is_str (fillna v s) = false.
Proof.
  intros Hv. induction s as [|c r IH]; simpl; auto.
  intros H. apply orb_false_iff in H as [Hc Hr].
  rewrite (IH Hr), orb_false_r. now destruct c.
Qed.

Lemma no_str_of_option o : is_str (of_option o) = false.
Proof. now destruct o. Qed.

Lemma no_str_to_numeric s : existsb is_str (to_numeric s) = false.
Proof.
  induction s as [|c r IH]; simpl; auto. rewrite IH, orb_false_r.
  destruct c; simpl; auto. apply no_str_of_option.
Qed.

Lemma no_str_imputed s :
  existsb is_str s = false -> existsb is_str (imputed s) = false.
Proof. apply no_str_fillna, no_str_of_option. Qed.

Lemma series_median_ret s m :
  series_median s = Ret m ->
  existsb is_str s = false /\ m = of_option (median (numbers s)).
Proof.
  unfold series_median. destruct (existsb is_str s); [discriminate|].
  intros [= <-]. auto.
Qed.

Lemma fill_numeric_spec cols : forall df df',
  NoDup cols -> fill_numeric cols df = Ret df' ->
  nrows df' = nrows df /\
  column_names df' = column_names df /\
  forall k, lookup k (columns df')
            = if mem k cols then option_map imputed (lookup k (columns df))
              else lookup k (columns df).
Proof.
  induction cols as [|col rest IH]; simpl; intros df df' N H.
  - injection H as <-. auto.
  - inversion N as [|? ? Hnotin N']; subst.
    destruct (lookup col (columns df)) as [s|] eqn:L.
    + destruct (series_median s) as [m|e] eqn:Em; simpl in H; [|discriminate].
      apply series_median_ret in Em as [_ ->].
      apply IH in H as (R & C & K); auto. simpl in *.
      split; [exact R|]. split.
      * rewrite C. unfold column_names. simpl. apply names_assign_known.
        apply lookup_In. congruence.
      * intros k. rewrite K. destruct (String.eqb k col) eqn:E; simpl.
        -- apply String.eqb_eq in E. subst k.
           apply mem_not_In in Hnotin. rewrite Hnotin.
           now rewrite lookup_assign_eq, L.
        -- now rewrite lookup_assign_neq.
    + apply IH in H as (R & C & K); auto.
      split; [exact R|]. split; [exact C|].
      intros k. rewrite K. destruct (String.eqb k col) eqn:E; simpl; auto.
      apply String.eqb_eq in E. subst k.
      apply mem_not_In in Hnotin. rewrite Hnotin. now rewrite L.
Qed.

Lemma fill_numeric_total cols : forall df,
  (forall c s, In c cols -> lookup c (columns df) = Some s ->
               existsb is_str s = false) ->
  exists df', fill_numeric cols df = Ret df'.
Proof.
  induction cols as [|col rest IH]; simpl; intros df H.
  - eauto.
  - destruct (lookup col (columns df)) as [s|] eqn:L.
    + unfold series_median. rewrite (H col s) by auto. simpl.
      apply IH. intros c s' Hc. simpl.
      destruct (String.eqb c col) eqn:E.
      * apply String.eqb_eq in E. subst c. rewrite lookup_assign_eq.
        intros [= <-]. apply no_str_fillna; [apply no_str_of_option|].
        apply (H col); auto.
      * rewrite lookup_assign_neq by assumption. apply H. auto.
    + apply IH. intros c s' Hc. apply H. auto.
Qed.

Lemma lookup_fill_categorical k df :
  lookup k (columns (fill_categorical df))
  = option_map fill_unknown (lookup k (columns df)).
Proof.
  unfold fill_categorical, fill_unknown. simpl.
  induction (columns df) as [|[k' s] r IH]; simpl; auto.
  destruct (existsb is_str s) eqn:E; simpl; destruct (String.eqb k k');
    simpl; auto; now rewrite E.
Qed.

Lemma names_fill_categorical df :
  column_names (fill_categorical df) = column_names df.
Proof.
  unfold column_names, fill_categorical. simpl. rewrite map_map.
  apply map_ext. intros [k s]. simpl. now destruct (existsb is_str s).
Qed.

Lemma length_fillna v s : length (fillna v s) = length s.
Proof. apply length_map. Qed.

Lemma lookup_set_eq df c s : lookup c (columns (set_column df c s)) = Some s.
Proof. apply lookup_assign_eq. Qed.

Lemma lookup_set_neq df c k s :
  String.eqb k c = false ->
  lookup k (columns (set_column df c s)) = lookup k (columns df).
Proof. apply lookup_assign_neq. Qed.

Lemma lookup_dropped df k cs :
  mem k cs = false -> lookup k (columns (drop cs df)) = lookup k (columns df).
Proof. apply lookup_drop. Qed.

Ltac through_columns :=
  repeat (rewrite lookup_set_neq by reflexivity).

Lemma transform_frame_ret df out :
  transform_frame df = Ret out ->
  exists total df2 tenure mc internet lines contract,
    lookup "TotalCharges" (columns df) = Some total /\
    fill_numeric numeric_cols
      (set_column df "TotalCharges" (to_numeric total)) = Ret df2 /\
    lookup "tenure" (columns (fill_categorical df2)) = Some tenure /\
    lookup "MonthlyCharges" (columns (fill_categorical df2)) = Some mc /\
    lookup "InternetService" (columns (fill_categorical df2)) = Some internet /\
    lookup "MultipleLines" (columns (fill_categorical df2)) = Some lines /\
    lookup "Contract" (columns (fill_categorical df2)) = Some contract /\
    out = enrich (fill_categorical df2) tenure mc internet lines contract.
Proof.
  unfold transform_frame, get_column.
  destruct (lookup "TotalCharges" (columns df)) as [total|] eqn:L0;
    [|discriminate].
  cbn [rbind].
  destruct (fill_numeric _ _) as [df2|] eqn:F; [|discriminate].
  cbn [rbind]. through_columns.
  destruct (lookup "tenure" _) as [tenure|] eqn:L1; [|discriminate].
  cbn [rbind]. through_columns.
  destruct (lookup "MonthlyCharges" _) as [mc|] eqn:L2; [|discriminate].
  cbn [rbind]. through_columns.
  destruct (lookup "InternetService" _) as [internet|] eqn:L3; [|discriminate].
  cbn [rbind]. through_columns.
  destruct (lookup "MultipleLines" _) as [lines|] eqn:L4; [|discriminate].
  cbn [rbind]. through_columns.
  destruct (lookup "Contract" _) as [contract|] eqn:L5; [|discriminate].
  cbn [rbind]. intros [= <-].
  exists total, df2, tenure, mc, internet, lines, contract.
  repeat split; auto.
Qed.

Lemma fill_numeric_numeric cols : forall df df',
  NoDup cols -> fill_numeric cols df = Ret df' ->
  forall c s, In c cols -> lookup c (columns df) = Some s ->
              existsb is_str s = false.
Proof.
  induction cols as [|col rest IH]; simpl; intros df df' N H c s Hc L;
    [tauto|].
  inversion N as [|? ? Hnotin N']; subst.
  destruct (lookup col (columns df)) as [s0|] eqn:L0.
  - destruct (series_median s0) as [m|e] eqn:Em; simpl in H; [|discriminate].
    apply series_median_ret in Em as [Hs0 ->].
    destruct Hc as [<-|Hc]; [congruence|].
    apply (IH _ _ N' H c s Hc).
    rewrite lookup_set_neq; auto.
    apply String.eqb_neq. intros ->. contradiction.
  - destruct Hc as [<-|Hc]; [congruence|]. eauto.
Qed.

Lemma wf_set_column df c s :
  well_formed df -> length s = nrows df -> well_formed (set_column df c s).
Proof.
  intros [N F] L. split; simpl.
  - now apply NoDup_names_assign.
  - now apply lengths_assign.
Qed.

Lemma wf_drop df cs : well_formed df -> well_formed (drop cs df).
Proof.
  intros [N F]. split; simpl.
  - now apply NoDup_names_filter.
  - apply Forall_forall. intros x Hx. apply filter_In in Hx as [Hx _].
    revert x Hx. now apply Forall_forall.
Qed.

Lemma wf_fill_categorical df :
  well_formed df -> well_formed (fill_categorical df).
Proof.
  intros [N F]. split.
  - now rewrite names_fill_categorical.
  - simpl. apply Forall_map. revert F. apply Forall_impl.
    intros [k s] H. simpl in *. destruct (existsb is_str s); simpl; auto.
    now rewrite length_fillna.
Qed.

Lemma wf_fill_numeric cols : forall df df',
  fill_numeric cols df = Ret df' -> well_formed df -> well_formed df'.
Proof.
  induction cols as [|col rest IH]; simpl; intros df df' H W.
  - now injection H as <-.
  - destruct (lookup col (columns df)) as [s|] eqn:L; [|eauto].
    destruct (series_median s) as [m|e]; simpl in H; [|discriminate].
    apply IH in H; auto. apply wf_set_column; auto.
    rewrite length_fillna. destruct W as [_ F].
    eapply lookup_length; eauto.
Qed.

Lemma wf_lookup df k s :
  well_formed df -> lookup k (columns df) = Some s -> length s = nrows df.
Proof. intros [_ F]. now apply lookup_length. Qed.

Lemma wf_enrich df3 tenure mc internet lines contract :
  well_formed df3 ->
  lookup "tenure" (columns df3) = Some tenure ->
  lookup "MonthlyCharges" (columns df3) = Some mc ->
  lookup "InternetService" (columns df3) = Some internet ->
  lookup "MultipleLines" (columns df3) = Some lines ->
  lookup "Contract" (columns df3) = Some contract ->
  well_formed (enrich df3 tenure mc internet lines contract) /\
  nrows (enrich df3 tenure mc internet lines contract) = nrows df3.
Proof.
  intros W L1 L2 L3 L4 L5. split; [|reflexivity].
  unfold enrich. apply wf_drop.
  repeat (apply wf_set_column; [|rewrite length_map; simpl;
                                  eapply wf_lookup; eassumption]).
  exact W.
Qed.

Lemma names_enrich df3 tenure mc internet lines contract c :
  In c (column_names (enrich df3 tenure mc internet lines contract))
  <-> (In c (column_names df3) /\ ~ In c dropped_cols) \/ In c derived_cols.
Proof.
  unfold enrich, column_names, drop, set_column. cbn [columns nrows].
  rewrite In_names_drop, !In_names_assign.
  unfold dropped_cols, derived_cols. cbn [In].
  split.
  - intros [H N]. intuition (subst; auto).
  - intros [[H N]|H]; [tauto|].
    repeat (destruct H as [<-|H];
            [split; [tauto | intros [E|[E|[]]]; discriminate E] |]).
    destruct H.
Qed.

(** [transform_frame] returns a frame exactly on the frames [accepted]. *)
Lemma transform_frame_accepts df :
  accepted df = true <-> exists out, transform_frame df = Ret out.
Proof.
  unfold accepted, numeric_column, has_column. cbn [forallb].
  split.
  - intros H. rewrite !andb_true_iff in H.
    destruct H as [[(H0 & H3 & H4 & H5 & _) H1] H2].
    destruct (lookup "TotalCharges" (columns df)) as [total|] eqn:L0;
      [|discriminate].
    destruct (lookup "tenure" (columns df)) as [tenure|] eqn:L1;
      [|discriminate].
    destruct (lookup "MonthlyCharges" (columns df)) as [mc|] eqn:L2;
      [|discriminate].
    destruct (lookup "InternetService" (columns df)) as [internet|] eqn:L3;
      [|discriminate].
    destruct (lookup "MultipleLines" (columns df)) as [lines|] eqn:L4;
      [|discriminate].
    destruct (lookup "Contract" (columns df)) as [contract|] eqn:L5;
      [|discriminate].
    apply negb_true_iff in H1, H2.
    destruct (fill_numeric_total numeric_cols
                (set_column df "TotalCharges" (to_numeric total)))
      as [df2 F].
    { intros c s [<-|[<-|[<-|[]]]].
      - rewrite lookup_set_neq by reflexivity. congruence.
      - rewrite lookup_set_neq by reflexivity. congruence.
      - rewrite lookup_set_eq. intros [= <-]. apply no_str_to_numeric. }
    pose proof F as F'.
    apply fill_numeric_spec in F' as (_ & _ & K);
      [|repeat constructor; simpl; intuition discriminate].
    assert (G : forall k,
               String.eqb k "TotalCharges" = false ->
               lookup k (columns df) <> None ->
               lookup k (columns (fill_categorical df2)) <> None).
    { intros k Hk Hdf. rewrite lookup_fill_categorical, K.
      rewrite lookup_set_neq by assumption.
      destruct (lookup k (columns df)); [|congruence].
      destruct (mem k numeric_cols); discriminate. }
    unfold transform_frame, get_column. rewrite L0. cbn [rbind].
    rewrite F. cbn [rbind].
    destruct (lookup "tenure" (columns (fill_categorical df2))) eqn:G1;
      [|apply G in G1; [tauto|reflexivity|congruence]].
    cbn [rbind]. through_columns.
    destruct (lookup "MonthlyCharges" (columns (fill_categorical df2))) eqn:G2;
      [|apply G in G2; [tauto|reflexivity|congruence]].
    cbn [rbind]. through_columns.
    destruct (lookup "InternetService" (columns (fill_categorical df2)))
      eqn:G3; [|apply G in G3; [tauto|reflexivity|congruence]].
    cbn [rbind]. through_columns.
    destruct (lookup "MultipleLines" (columns (fill_categorical df2)))
      eqn:G4; [|apply G in G4; [tauto|reflexivity|congruence]].
    cbn [rbind]. through_columns.
    destruct (lookup "Contract" (columns (fill_categorical df2)))
      eqn:G5; [|apply G in G5; [tauto|reflexivity|congruence]].
    cbn [rbind]. eauto.
  - intros [out H]. apply transform_frame_ret in H
      as (total & df2 & tenure & mc & internet & lines & contract
          & L0 & F & L1 & L2 & L3 & L4 & L5 & _).
    assert (N : NoDup numeric_cols)
      by (repeat constructor; simpl; intuition discriminate).
    pose proof (fill_numeric_numeric _ _ _ N F) as Hnum.
    apply fill_numeric_spec in F as (_ & _ & K); auto.
    rewrite lookup_fill_categorical, K in L1, L2, L3, L4, L5.
    simpl in L1, L2, L3, L4, L5.
    rewrite lookup_assign_neq in L1, L2, L3, L4, L5 by reflexivity.
    rewrite L0.
    destruct (lookup "tenure" (columns df)) as [t|] eqn:E1; [|discriminate].
    destruct (lookup "MonthlyCharges" (columns df)) as [m|] eqn:E2;
      [|discriminate].
    destruct (lookup "InternetService" (columns df)); [|discriminate].
    destruct (lookup "MultipleLines" (columns df)); [|discriminate].
    destruct (lookup "Contract" (columns df)); [|discriminate].
    rewrite (Hnum "tenure" t), (Hnum "MonthlyCharges" m);
      try reflexivity; try (simpl; tauto);
      rewrite lookup_set_neq by reflexivity; assumption.
Qed.

Lemma Qle_bool_false x y : Qle_bool x y = false -> (y < x)%Q.
Proof. intros H. apply Qnot_le_lt. rewrite <- Qle_bool_iff. congruence. Qed.

Lemma Qeq_bool_false x y : Qeq_bool x y = false -> ~ (x == y)%Q.
Proof. intros H E. apply Qeq_bool_iff in E. congruence. Qed.

Ltac order_facts :=
  repeat match goal with
         | H : Qle_bool _ _ = true |- _ => apply Qle_bool_iff in H
         | H : Qle_bool _ _ = false |- _ => apply Qle_bool_false in H
         | H : Qeq_bool _ _ = true |- _ => apply Qeq_bool_iff in H
         | H : Qeq_bool _ _ = false |- _ => apply Qeq_bool_false in H
         end;
  unfold bin_lowest, inject_Z in *; simpl in *.

(** The bucket of a tenure, by comparisons alone. *)
Lemma tenure_group_spec (x : num) :
  tenure_group (Num x) =
    if num_ltb x (Fin bin_lowest) then NA
    else if num_leb x (of_nat 12) then Str "New"
    else if num_leb x (of_nat 36) then Str "Regular"
    else if num_leb x (of_nat 60) then Str "Loyal"
    else Str "Champion".
Proof.
  destruct x as [|q|]; try reflexivity.
  unfold tenure_group, cut, tenure_bins, num_ltb, of_nat.
  cbn [searchsorted_left num_leb num_eqb length negb].
  destruct (Qle_bool q bin_lowest) eqn:E0;
    destruct (Qeq_bool q bin_lowest) eqn:Eq;
    destruct (Qle_bool bin_lowest q) eqn:E0';
    destruct (Qle_bool q (inject_Z (Z.of_nat 12))) eqn:E1;
    destruct (Qle_bool q (inject_Z (Z.of_nat 36))) eqn:E2;
    destruct (Qle_bool q (inject_Z (Z.of_nat 60))) eqn:E3;
    try reflexivity; exfalso; order_facts; lra.
Qed.

(** What [transform_frame] leaves in the three numeric columns and in
    [tenure_group]. *)
Lemma transform_frame_numeric df out :
  transform_frame df = Ret out ->
  exists total tenure mc,
    lookup "TotalCharges" (columns df) = Some total /\
    lookup "tenure" (columns df) = Some tenure /\
    lookup "MonthlyCharges" (columns df) = Some mc /\
    lookup "TotalCharges" (columns out) = Some (imputed (to_numeric total)) /\
    lookup "tenure" (columns out) = Some (imputed tenure) /\
    lookup "MonthlyCharges" (columns out) = Some (imputed mc) /\
    lookup "tenure_group" (columns out)
      = Some (map tenure_group (imputed tenure)).
Proof.
  intros H. apply transform_frame_ret in H
    as (total & df2 & tenure & mc & internet & lines & contract
        & L0 & F & L1 & L2 & L3 & L4 & L5 & ->).
  assert (N : NoDup numeric_cols)
    by (repeat constructor; simpl; intuition discriminate).
  pose proof (fill_numeric_numeric _ _ _ N F) as Hnum.
  apply fill_numeric_spec in F as (_ & _ & K); auto.
  assert (G : forall k v,
             mem k numeric_cols = true ->
             lookup k (columns (set_column df "TotalCharges"
                                  (to_numeric total))) = Some v ->
             lookup k (columns (fill_categorical df2)) = Some (imputed v)).
  { intros k v Hk Hv. rewrite lookup_fill_categorical, K, Hk, Hv. simpl.
    unfold fill_unknown. rewrite no_str_imputed; auto.
    apply (Hnum k); auto. now apply mem_In. }
  rewrite lookup_fill_categorical, K in L1, L2.
  cbn [mem existsb String.eqb Ascii.eqb Bool.eqb orb] in L1, L2.
  rewrite lookup_set_neq in L1, L2 by reflexivity.
  destruct (lookup "tenure" (columns df)) as [t0|] eqn:E1; [|discriminate].
  destruct (lookup "MonthlyCharges" (columns df)) as [m0|] eqn:E2;
    [|discriminate].
  assert (T : lookup "tenure" (columns (fill_categorical df2))
              = Some (imputed t0))
    by (apply G; [reflexivity | now rewrite lookup_set_neq by reflexivity]).
  assert (M : lookup "MonthlyCharges" (columns (fill_categorical df2))
              = Some (imputed m0))
    by (apply G; [reflexivity | now rewrite lookup_set_neq by reflexivity]).
  assert (C : lookup "TotalCharges" (columns (fill_categorical df2))
              = Some (imputed (to_numeric total)))
    by (apply G; [reflexivity | apply lookup_set_eq]).
  assert (tenure = imputed t0).
  { rewrite lookup_fill_categorical, K in T.
    cbn [mem existsb String.eqb Ascii.eqb Bool.eqb orb] in T.
    rewrite lookup_set_neq, E1 in T by reflexivity. congruence. }
  subst tenure.
  exists total, t0, m0. unfold enrich.
  repeat split; auto;
    rewrite lookup_dropped by reflexivity; through_columns; auto.
  apply lookup_set_eq.
Qed.

(** ** Claims about the transformer *)

Ltac bucket x :=
  rewrite tenure_group_spec; unfold num_lt, num_le, num_ltb, of_nat;
  destruct x as [|q|]; cbn [num_leb negb]; intros;
  try discriminate; try reflexivity;
  repeat match goal with
         | H : negb _ = true |- _ => apply negb_true_iff in H
         end;
  repeat match goal with
         | |- context [Qle_bool ?a ?b] => destruct (Qle_bool a b) eqn:?
         end;
  cbn [negb]; try discriminate; try reflexivity;
  exfalso; order_facts; lra.

(** C3 (amended): after numeric imputation the [tenure_group] column is the
    bucket of the [tenure] column, row by row; the bucket is "New" for a
    tenure from the lowest bin edge (the float -0.1) up to 12, "Regular" in
    (12, 36], "Loyal" in (36, 60], "Champion" above 60, and missing below
    the lowest edge or for a missing tenure; 12, 13, 36, 37, 60, 61 give
    New, Regular, Regular, Loyal, Loyal, Champion. *)
Theorem tenure_group_buckets df out :
  transform_frame df = Ret out ->
  (exists tenure,
      lookup "tenure" (columns df) = Some tenure /\
      lookup "tenure" (columns out) = Some (imputed tenure) /\
      lookup "tenure_group" (columns out)
        = Some (map tenure_group (imputed tenure))) /\
  tenure_group NA = NA /\
  (forall x,
      (num_lt x (Fin bin_lowest) -> tenure_group (Num x) = NA) /\
      (num_le (Fin bin_lowest) x -> num_le x (of_nat 12) ->
       tenure_group (Num x) = Str "New") /\
      (num_lt (of_nat 12) x -> num_le x (of_nat 36) ->
       tenure_group (Num x) = Str "Regular") /\
      (num_lt (of_nat 36) x -> num_le x (of_nat 60) ->
       tenure_group (Num x) = Str "Loyal") /\
      (num_lt (of_nat 60) x -> tenure_group (Num x) = Str "Champion")) /\
  map tenure_group (nums [12; 13; 36; 37; 60; 61]%Z)
    = strs ["New"; "Regular"; "Regular"; "Loyal"; "Loyal"; "Champion"].
Proof.
  intros H. split; [|split; [reflexivity|split; [|reflexivity]]].
  - apply transform_frame_numeric in H
      as (total & tenure & mc & _ & L & _ & _ & T & _ & G).
    exists tenure. auto.
  - intros x. repeat split.
    + bucket x.
    + bucket x.
    + bucket x.
    + bucket x.
    + bucket x.
Qed.

Lemma gaps_filled_imputed s : gaps_filled s (imputed s).
Proof.
  split; [apply length_fillna|].
  intros i c H. unfold imputed, fillna. rewrite nth_error_map, H.
  reflexivity.
Qed.

(** C4: in each of tenure, MonthlyCharges and TotalCharges every missing
    value is replaced by the median of that column of the frame being
    transformed (for TotalCharges the column after numeric coercion, so a
    value that failed to parse is filled as well); the other values stay. *)
Theorem median_imputation df out :
  transform_frame df = Ret out ->
  exists total tenure mc,
    lookup "TotalCharges" (columns df) = Some total /\
    lookup "tenure" (columns df) = Some tenure /\
    lookup "MonthlyCharges" (columns df) = Some mc /\
    (exists after, lookup "tenure" (columns out) = Some after /\
                   gaps_filled tenure after) /\
    (exists after, lookup "MonthlyCharges" (columns out) = Some after /\
                   gaps_filled mc after) /\
    (exists after, lookup "TotalCharges" (columns out) = Some after /\
                   gaps_filled (to_numeric total) after /\
                   forall i t,
                     nth_error total i = Some (Str t) ->
                     parse_float t = None ->
                     nth_error after i
                     = Some (of_option
                               (median (numbers (to_numeric total))))).
Proof.
  intros H. apply transform_frame_numeric in H
    as (total & tenure & mc & L0 & L1 & L2 & C & T & M & _).
  exists total, tenure, mc. repeat split; auto.
  - exists (imputed tenure). split; [exact T | apply gaps_filled_imputed].
  - exists (imputed mc). split; [exact M | apply gaps_filled_imputed].
  - exists (imputed (to_numeric total)).
    split; [exact C|]. split; [apply gaps_filled_imputed|].
    intros i t Hi Hp.
    destruct (gaps_filled_imputed (to_numeric total)) as [_ G].
    rewrite (G i NA); [reflexivity|].
    unfold to_numeric. rewrite nth_error_map, Hi. simpl. now rewrite Hp.
Qed.

(** C8: a raw frame holding the columns the transformer reads, with numbers
    in tenure and MonthlyCharges, is transformed to a frame with the same
    number of rows, every column as long as that, and as columns those of
    the input without customerID and gender, together with the five derived
    ones; [transform_data] writes that frame to the staged file. *)
Theorem transform_shape df :
  well_formed df -> accepted df = true ->
  exists out,
    transform_frame df = Ret out /\
    nrows out = nrows df /\
    well_formed out /\
    (forall c, In c (column_names out)
               <-> (In c (column_names df) /\ ~ In c dropped_cols)
                   \/ In c derived_cols) /\
    forall (w : World St),
      raw_file w = Some df ->
      transform_data w
      = Some (Ret tt,
              mkWorld (env_url w) (env_key w) (raw_file w) (Some out)
                      (remote w),
              [Makedirs; ReadCsv RawFile; ToCsv StagedFile;
               Print Transformed]).
Proof.
  intros W A. apply transform_frame_accepts in A as [out H].
  exists out. split; [exact H|].
  pose proof H as H'.
  apply transform_frame_ret in H'
    as (total & df2 & tenure & mc & internet & lines & contract
        & L0 & F & L1 & L2 & L3 & L4 & L5 & ->).
  assert (W1 : well_formed (set_column df "TotalCharges" (to_numeric total))).
  { apply wf_set_column; auto. unfold to_numeric. rewrite length_map.
    eapply wf_lookup; eauto. }
  assert (W3 : well_formed (fill_categorical df2)).
  { apply wf_fill_categorical. eapply wf_fill_numeric; eauto. }
  assert (N : NoDup numeric_cols)
    by (repeat constructor; simpl; intuition discriminate).
  apply fill_numeric_spec in F as (R & C & _); auto.
  destruct (wf_enrich _ _ _ _ _ _ W3 L1 L2 L3 L4 L5) as [Wout Rout].
  split; [|split; [exact Wout|split]].
  - rewrite Rout. simpl. exact R.
  - intros c. rewrite names_enrich, names_fill_categorical, C.
    unfold column_names at 1. simpl. rewrite names_assign_known; [tauto|].
    apply lookup_In. congruence.
  - intros w Hraw. unfold transform_data, bind, emit, path_exists, read_csv,
      lift, to_csv, print, emit, raise. simpl.
    repeat (rewrite Hraw; simpl). rewrite H. reflexivity.
Qed.

End TransformFacts.

Lemma transform_example :
  Transform.transform_frame raw_example = Ret enriched_example.
Proof. vm_compute. reflexivity. Qed.

Lemma raw_example_well_formed : well_formed raw_example.
Proof.
  split.
  - repeat constructor; simpl; intuition discriminate.
  - repeat constructor.
Qed.

(** C3, as stated, fails: a tenure of -1 is at most 12, yet the row gets no
    tenure_group at all. *)
Lemma tenure_group_negative_counterexample :
  num_le (Fin (-1)) (of_nat 12) /\
  Transform.tenure_group (Num (Fin (-1))) <> Str "New" /\
  exists out,
    Transform.transform_frame negative_tenure_example = Ret out /\
    lookup "tenure" (columns out) = Some (nums [-1; 24; 48; 72]%Z) /\
    lookup "tenure_group" (columns out)
      = Some [NA; Str "Regular"; Str "Loyal"; Str "Champion"].
Proof.
  split; [reflexivity|]. split; [discriminate|].
  eexists. split; [vm_compute; reflexivity|]. split; reflexivity.
Qed.

Lemma tenure_group_buckets_witness :
  exists tenure,
    lookup "tenure" (columns raw_example) = Some tenure /\
    lookup "tenure" (columns enriched_example) = Some (imputed tenure) /\
    lookup "tenure_group" (columns enriched_example)
      = Some (map Transform.tenure_group (imputed tenure)).
Proof.
  exact (proj1 (tenure_group_buckets
                  raw_example enriched_example transform_example)).
Defined.

Lemma median_imputation_witness :
  exists after,
    lookup "TotalCharges" (columns enriched_example) = Some after /\
    nth_error after 1 = Some (Num (Fin (7681 # 2))).
Proof.
  destruct (median_imputation
              raw_example enriched_example transform_example)
    as (total & tenure & mc & L0 & _ & _ & _ & _ & after & La & _ & G).
  exists after. split; [exact La|].
  injection L0 as <-.
  exact (G 1 " "%string eq_refl eq_refl).
Defined.

Lemma transform_shape_witness :
  exists out,
    Transform.transform_frame raw_example = Ret out /\
    nrows out = 4 /\
    column_names out
    = ["tenure"; "MonthlyCharges"; "TotalCharges"; "InternetService";
       "MultipleLines"; "Contract"; "tenure_group";
       "monthly_charge_segment"; "has_internet_service";
       "is_multi_line_user"; "contract_type_code"].
Proof.
  destruct (transform_shape (St := ScriptedStore) raw_example
              raw_example_well_formed eq_refl)
    as (out & H & R & _).
  exists out. split; [exact H|]. split; [exact R|].
  rewrite transform_example in H. injection H as <-. reflexivity.
Defined.

(** ** The batch loader *)

Lemma inserts_app t1 t2 : inserts (t1 ++ t2) = inserts t1 ++ inserts t2.
Proof.
  induction t1 as [|e r IH]; simpl; auto.
  destruct e; simpl; auto. now rewrite IH.
Qed.

Section RangeFacts.

Lemma ceil_div_bounds n d : 0 < d -> n <= d * ceil_div n d < n + d.
Proof.
  intros Hd. unfold ceil_div.
  pose proof (Nat.div_mod_eq (n + d - 1) d) as E.
  pose proof (Nat.mod_upper_bound (n + d - 1) d ltac:(lia)) as U.
  lia.
Qed.

Lemma range_length_ceil n d : 0 < d -> range_length 0 n d = ceil_div n d.
Proof.
  intros Hd. unfold range_length, ceil_div.
  destruct (Nat.ltb_spec 0 n) as [H|H].
  - replace (n + d - 1) with (n - 0 - 1 + 1 * d) by lia.
    rewrite Nat.div_add by lia. reflexivity.
  - replace (n + d - 1) with (d - 1) by lia.
    symmetry. apply Nat.div_small. lia.
Qed.

Lemma length_py_range n d : 0 < d -> length (py_range 0 n d) = ceil_div n d.
Proof.
  intros Hd. unfold py_range. rewrite length_map, length_seq.
  now apply range_length_ceil.
Qed.

Lemma full_chunks b n m :
  m * b <= n ->
  concat (map (fun k => chunk b n (0 + k * b)) (seq 0 m)) = seq 0 (m * b).
Proof.
  induction m as [|m IH]; intros H; [reflexivity|].
  rewrite seq_S, map_app, concat_app, IH by lia. simpl.
  rewrite app_nil_r. unfold chunk.
  replace (Nat.min (m * b + b) n - m * b) with b by lia.
  replace (b + m * b) with (m * b + b) by lia.
  now rewrite seq_app.
Qed.

Lemma chunks_cover b n :
  0 < b -> concat (map (chunk b n) (py_range 0 n b)) = seq 0 n.
Proof.
  intros Hb. unfold py_range, range_length. rewrite map_map.
  destruct (Nat.ltb_spec 0 n) as [H|H].
  - set (m := (n - 0 - 1) / b).
    assert (Hm : m * b <= n - 1 /\ n - 1 < m * b + b).
    { pose proof (Nat.div_mod_eq (n - 0 - 1) b) as E.
      pose proof (Nat.mod_upper_bound (n - 0 - 1) b ltac:(lia)) as U.
      fold m in E. nia. }
    replace (m + 1) with (S m) by lia.
    rewrite seq_S, map_app, concat_app, full_chunks by lia. simpl.
    rewrite app_nil_r. unfold chunk.
    replace (Nat.min (m * b + b) n - m * b) with (n - m * b) by lia.
    rewrite <- seq_app. f_equal. lia.
  - replace n with 0 by lia. reflexivity.
Qed.

Lemma In_py_range i n b :
  In i (py_range 0 n b) -> exists k, i = k * b /\ k < range_length 0 n b.
Proof.
  unfold py_range. intros H. apply in_map_iff in H as (k & <- & Hk).
  apply in_seq in Hk. exists k. split; [reflexivity | lia].
Qed.

End RangeFacts.

Section BatchFacts.
Context {pandas : Pandas}.

Lemma nth_firstn_lt {A} (l : list A) n r d :
  r < n -> nth r (firstn n l) d = nth r l d.
Proof.
  revert n r. induction l as [|x l IH]; intros [|n] [|r] H; simpl; auto;
    try lia. apply IH. lia.
Qed.

Lemma nth_skipn {A} (l : list A) i r d : nth r (skipn i l) d = nth (i + r) l d.
Proof.
  revert l. induction i as [|i IH]; intros [|x l]; simpl; auto.
  now destruct r.
Qed.

Lemma combine_maps {A B C} (f : A -> B) (g : A -> C) (l : list A) :
  combine (map f l) (map g l) = map (fun x => (f x, g x)) l.
Proof. induction l as [|x l IH]; simpl; [reflexivity | now rewrite IH]. Qed.

(** A row after [where], column by column. *)
Lemma row_at_columns df r :
  row_at df r
  = map (fun kv => (fst kv, to_value (none_kept (snd kv)) (nth r (snd kv) NA)))
        (columns df).
Proof.
  unfold row_at, row_as, dtypes.
  rewrite <- (map_id (columns df)) at 2.
  rewrite combine_maps, map_map. reflexivity.
Qed.

(** A slice keeps the dtypes of the frame: its rows are rows of the frame. *)
Lemma row_as_iloc df i b r :
  r < b -> row_as (dtypes df) (iloc i (i + b) df) r = row_at df (i + r).
Proof.
  intros H. rewrite row_at_columns. unfold row_as, dtypes, iloc.
  cbn [columns]. rewrite combine_maps, map_map.
  apply map_ext. intros [k s]. cbn [fst snd].
  replace (i + b - i) with b by lia.
  now rewrite nth_firstn_lt, nth_skipn.
Qed.

(** A batch is the rows of its chunk, in order. *)
Lemma batch_records_chunk df i :
  Load.batch_records df i
  = map (row_at df) (chunk Load.BATCH_SIZE (nrows df) i).
Proof.
  unfold Load.batch_records, records_as, chunk.
  cbn [nrows iloc].
  set (len := Nat.min (i + Load.BATCH_SIZE) (nrows df) - i).
  assert (Hlen : len <= Load.BATCH_SIZE) by (unfold len; lia).
  clearbody len.
  assert (G : forall r0, r0 + len <= Load.BATCH_SIZE ->
              map (row_as (dtypes df) (iloc i (i + Load.BATCH_SIZE) df))
                  (seq r0 len)
              = map (row_at df) (seq (i + r0) len)).
  { induction len as [|len IH]; intros r0 Hr; [reflexivity|]. simpl.
    rewrite row_as_iloc by lia. f_equal.
    rewrite IH by lia. now rewrite Nat.add_succ_r. }
  rewrite (G 0) by lia. now rewrite Nat.add_0_r.
Qed.

Lemma length_batch_records df i :
  length (Load.batch_records df i)
  = Nat.min (i + Load.BATCH_SIZE) (nrows df) - i.
Proof.
  rewrite batch_records_chunk. unfold chunk.
  now rewrite length_map, length_seq.
Qed.

(** The batches, one after the other, are the rows of the frame. *)
Lemma batches_cover df :
  concat (map (Load.batch_records df)
              (py_range 0 (nrows df) Load.BATCH_SIZE))
  = to_records df.
Proof.
  unfold to_records.
  rewrite <- (chunks_cover Load.BATCH_SIZE (nrows df))
    by (unfold Load.BATCH_SIZE; lia).
  rewrite concat_map, map_map. f_equal.
  apply map_ext. intros i. apply batch_records_chunk.
Qed.

End BatchFacts.

Section LoadFacts.
Context {pandas : Pandas} {St : Type} {store : RemoteStore St}.

Import Load.

Lemma retry_loop_run table records bn i total (w : World St) :
  retry_loop MAX_RETRIES table records bn i total 1 w
  = Some (Ret tt, fst (batch_run table records bn i total w),
          snd (batch_run table records bn i total w)).
Proof.
  unfold batch_run, MAX_RETRIES, retry_loop, try_except, bind, insert, print,
    emit. simpl.
  destruct (insert_rows table records (remote w)) as [[|] s1]; simpl;
    [reflexivity|].
  destruct (insert_rows table records s1) as [[|] s2]; simpl; [reflexivity|].
  destruct (insert_rows table records s2) as [[|] s3]; reflexivity.
Qed.

Lemma load_batch_run table df total i (w : World St) :
  load_batch table df total i w
  = Some (Ret tt,
          fst (batch_run table (batch_records df i) (i / BATCH_SIZE + 1)
                 i total w),
          snd (batch_run table (batch_records df i) (i / BATCH_SIZE + 1)
                 i total w)).
Proof. apply retry_loop_run. Qed.

(** A batch is sent one to three times, with waits of 2 and 4 in between. *)
Lemma batch_run_attempts table records bn i total (w : World St) :
  exists k,
    1 <= k <= 3 /\
    inserts (snd (batch_run table records bn i total w))
    = repeat (table, records) k /\
    sleeps (snd (batch_run table records bn i total w))
    = map (fun attempt => 2 * attempt) (seq 1 (k - 1)).
Proof.
  unfold batch_run.
  destruct (insert_rows table records (remote w)) as [[|] s1];
    [exists 1; simpl; auto|].
  destruct (insert_rows table records s1) as [[|] s2];
    [exists 2; simpl; auto|].
  destruct (insert_rows table records s2) as [[|] s3];
    exists 3; simpl; auto.
Qed.

(** A batch touches nothing but the remote table. *)
Lemma batch_run_frame table records bn i total (w : World St) :
  let w' := fst (batch_run table records bn i total w) in
  env_url w' = env_url w /\ env_key w' = env_key w /\
  raw_file w' = raw_file w /\ staged_file w' = staged_file w.
Proof.
  unfold batch_run.
  destruct (insert_rows table records (remote w)) as [[|] s1]; simpl; auto.
  destruct (insert_rows table records s1) as [[|] s2]; simpl; auto.
  destruct (insert_rows table records s2) as [[|] s3]; simpl; auto.
Qed.

Lemma for_each_batches table df total starts : forall (w : World St),
  exists w' t ks,
    for_each starts (load_batch table df total) w = Some (Ret tt, w', t) /\
    length ks = length starts /\
    Forall (fun k => 1 <= k <= 3) ks /\
    inserts t = attempts_of table df (combine starts ks) /\
    env_url w' = env_url w /\ env_key w' = env_key w /\
    raw_file w' = raw_file w /\ staged_file w' = staged_file w.
Proof.
  induction starts as [|i rest IH]; intros w.
  - exists w, [], []. simpl. repeat split; auto.
  - cbn [for_each]. unfold bind. rewrite load_batch_run.
    set (b := batch_run table (batch_records df i) (i / BATCH_SIZE + 1)
                i total w).
    destruct (IH (fst b)) as (w' & t & ks & R & L & F & I & E1 & E2 & E3 & E4).
    destruct (batch_run_attempts table (batch_records df i)
                (i / BATCH_SIZE + 1) i total w) as (k & Hk & Ik & _).
    destruct (batch_run_frame table (batch_records df i)
                (i / BATCH_SIZE + 1) i total w) as (B1 & B2 & B3 & B4).
    fold b in Ik, B1, B2, B3, B4.
    exists w', (snd b ++ t), (k :: ks). rewrite R.
    split; [reflexivity|]. split; [simpl; lia|]. split; [auto|].
    split; [|repeat split; congruence].
    rewrite inserts_app, Ik, I. reflexivity.
Qed.

Lemma batches_done_app t1 t2 :
  batches_done (t1 ++ t2) = batches_done t1 ++ batches_done t2.
Proof.
  induction t1 as [|e r IH]; simpl; auto.
  destruct e as [[]| | | | | | | |]; simpl; auto; now rewrite IH.
Qed.

(** A batch ends once: with its insertion, or given up. *)
Lemma batch_run_done table records bn i total (w : World St) :
  batches_done (snd (batch_run table records bn i total w)) = [bn].
Proof.
  unfold batch_run.
  destruct (insert_rows table records (remote w)) as [[|] s1]; auto.
  destruct (insert_rows table records s1) as [[|] s2]; auto.
  destruct (insert_rows table records s2) as [[|] s3]; auto.
Qed.

Lemma for_each_batches_done table df total starts : forall (w : World St),
  forall r w' t,
    for_each starts (load_batch table df total) w = Some (r, w', t) ->
    batches_done t = map (fun i => i / BATCH_SIZE + 1) starts.
Proof.
  induction starts as [|i rest IH]; intros w r w' t.
  - simpl. unfold ret. now intros [= _ _ <-].
  - cbn [for_each]. unfold bind. rewrite load_batch_run.
    destruct (for_each rest _ _) as [[[r2 w2] t2]|] eqn:E; [|discriminate].
    intros [= _ _ <-]. rewrite batches_done_app, batch_run_done.
    apply IH in E. now rewrite E.
Qed.

(** The starts of the batches: batch [j] (from 0) starts at row
    [j * BATCH_SIZE], for [j] below [ceil(n / BATCH_SIZE)]. *)
Lemma batch_starts n :
  py_range 0 n BATCH_SIZE
  = map (fun j => j * BATCH_SIZE) (seq 0 (ceil_div n BATCH_SIZE)).
Proof.
  unfold py_range.
  rewrite range_length_ceil by (unfold BATCH_SIZE; lia). reflexivity.
Qed.

Lemma batch_numbers n :
  map (fun i => i / BATCH_SIZE + 1) (py_range 0 n BATCH_SIZE)
  = seq 1 (ceil_div n BATCH_SIZE).
Proof.
  rewrite batch_starts, map_map, <- seq_shift.
  apply map_ext. intros j.
  rewrite Nat.div_mul by (unfold BATCH_SIZE; lia). lia.
Qed.


Lemma get_supabase_client_run (w : World St) :
  get_supabase_client w
  = if has_config w then
      if connects w then Some (Ret tt, w, [CreateClient])
      else Some (Raise StoreError, w, [CreateClient])
    else Some (Raise ValueError, w, []).
Proof.
  unfold get_supabase_client, has_config, connects, bind, getenv,
    create_client, raise.
  destruct (truthy (env_url w)); simpl;
    [destruct (truthy (env_key w)); simpl|]; auto.
  destruct (connect _ _); reflexivity.
Qed.

Lemma select_columns_present cs df :
  (forall c, In c cs -> has_column df c = true) ->
  exists cols, select_columns cs df = Ret cols /\ map fst cols = cs.
Proof.
  induction cs as [|c r IH]; intros H; simpl.
  - eauto.
  - destruct IH as (cols & E & N); [intros; apply H; simpl; auto|].
    pose proof (H c (or_introl eq_refl)) as Hc.
    unfold has_column in Hc. unfold get_column.
    destruct (lookup c (columns df)) as [s|]; [|discriminate].
    simpl. rewrite E. simpl. eexists. split; [reflexivity|].
    simpl. now rewrite N.
Qed.

Lemma missing_columns_nil df :
  missing_columns df = [] ->
  forall c, In c required_cols -> has_column df c = true.
Proof.
  unfold missing_columns. intros H c Hc.
  destruct (has_column df c) eqn:E; auto.
  assert (In c (filter (fun c => negb (has_column df c)) required_cols))
    by (apply filter_In; rewrite E; auto).
  rewrite H in *. contradiction.
Qed.

Opaque filter select_columns for_each.

Lemma load_to_supabase_ready table (w : World St) df :
  staged_file w = Some df -> ready w = true ->
  exists w' t,
    load_batches table (projected df) w = Some (Ret tt, w', t) /\
    load_to_supabase table w
    = Some (Ret tt, w',
            [Print LookingForFile; CreateClient; ReadCsv StagedFile;
             Print (LoadingRows (nrows df))] ++ t ++ [Print FinishedLoading]).
Proof.
  intros Hf R. unfold ready in R. rewrite Hf in R.
  apply andb_true_iff in R as [R Hm]. apply andb_true_iff in R as [Hc Hk].
  destruct (missing_columns df) eqn:Em; [|discriminate].
  destruct (select_columns_present required_cols df
              (missing_columns_nil df Em)) as (cols & Ec & _).
  destruct (for_each_batches table (projected df) (nrows (projected df))
              (py_range 0 (nrows (projected df)) BATCH_SIZE) w)
    as (w' & t & ks & Run & _).
  exists w', t. split; [exact Run|].
  unfold load_to_supabase, bind, try_except, print, emit, path_exists,
    read_csv, lift. simpl. rewrite Hf. simpl.
  rewrite get_supabase_client_run, Hc, Hk. simpl. rewrite Hf.
  fold (missing_columns df). rewrite Em, Ec.
  unfold projected in Run. rewrite Ec in Run.
  unfold load_batches in *. simpl in *. rewrite Run. reflexivity.
Qed.

(** Without the batches no insertion is made and the world stays as it is. *)
Lemma load_to_supabase_not_ready table (w : World St) :
  ready w = false ->
  exists t,
    load_to_supabase table w = Some (Ret tt, w, t) /\
    inserts t = [] /\
    (has_config w = false ->
     t = [Print LookingForFile;
          match staged_file w with
          | Some _ => Print (ErrorLoading ValueError)
          | None => Print (FileNotFound StagedFile)
          end]).
Proof.
  intros R. unfold ready in R.
  unfold load_to_supabase, bind, try_except, print, emit, path_exists,
    read_csv, lift. simpl.
  destruct (staged_file w) as [df|] eqn:Hf; simpl.
  - rewrite get_supabase_client_run.
    destruct (has_config w); simpl.
    + destruct (connects w); simpl.
      * rewrite Hf. fold (missing_columns df).
        destruct (missing_columns df) eqn:Em; [discriminate|].
        eexists. split; [reflexivity|]. split; [reflexivity|discriminate].
      * eexists. split; [reflexivity|]. split; [reflexivity|discriminate].
    + eexists. split; [reflexivity|]. split; reflexivity.
  - eexists. split; [reflexivity|]. split; reflexivity.
Qed.

(** Without the batches no batch is gone through. *)
Lemma load_to_supabase_not_ready_done table (w : World St) :
  ready w = false ->
  forall r w' t,
    load_to_supabase table w = Some (r, w', t) -> batches_done t = [].
Proof.
  intros R r w' t. unfold ready in R.
  unfold load_to_supabase, bind, try_except, print, emit, path_exists,
    read_csv, lift. simpl.
  destruct (staged_file w) as [df|] eqn:Hf; simpl.
  - rewrite get_supabase_client_run.
    destruct (has_config w); simpl.
    + destruct (connects w); simpl.
      * rewrite Hf. fold (missing_columns df).
        destruct (missing_columns df) eqn:Em; [discriminate|].
        now intros [= _ _ <-].
      * now intros [= _ _ <-].
    + now intros [= _ _ <-].
  - now intros [= _ _ <-].
Qed.

Transparent filter select_columns for_each.

Lemma length_attempts_of table df pairs :
  Forall (fun ik => snd ik <= 3) pairs ->
  length (attempts_of table df pairs) <= 3 * length pairs.
Proof.
  unfold attempts_of. induction 1 as [|[i k] r H _ IH]; simpl; [lia|].
  rewrite length_app, repeat_length. simpl in H. lia.
Qed.

Lemma Forall_combine_snd (P : nat -> Prop) (starts ks : list nat) :
  Forall P ks -> Forall (fun ik => P (snd ik)) (combine starts ks).
Proof.
  intros F. revert starts. induction F as [|k ks H F IH]; intros [|i r];
    simpl; constructor; auto.
Qed.

Lemma create_table_run (w : World St) :
  exists w' t,
    create_table_if_not_exists w = Some (Ret tt, w', t) /\
    inserts t = [] /\
    env_url w' = env_url w /\ env_key w' = env_key w /\
    raw_file w' = raw_file w /\ staged_file w' = staged_file w /\
    (has_config w = false -> w' = w /\ t = [Print ErrorCreatingTable]).
Proof.
  unfold create_table_if_not_exists, try_except, bind.
  rewrite get_supabase_client_run.
  destruct (has_config w); [destruct (connects w)|].
  - unfold rpc_execute_sql, print, emit.
    destruct (execute_sql (remote w)) as [[|] s]; simpl;
      eexists; eexists; (split; [reflexivity|]); repeat split; auto;
      discriminate.
  - simpl. eexists; eexists; (split; [reflexivity|]); repeat split; auto;
      discriminate.
  - simpl. eexists; eexists; (split; [reflexivity|]); repeat split; auto.
Qed.

Lemma not_ready_missing (w : World St) df c :
  staged_file w = Some df -> In c required_cols -> has_column df c = false ->
  ready w = false.
Proof.
  intros Hf Hc Hm. unfold ready. rewrite Hf.
  assert (In c (missing_columns df))
    by (apply filter_In; rewrite Hm; auto).
  destruct (missing_columns df); [contradiction|].
  now rewrite andb_false_r.
Qed.

(** ** Claims about the loader *)


(** C2: the batches are consecutive slices of the records, in order, of at
    most 200 records each; there are ceil(n / 200) of them; 450 records make
    batches of 200, 200 and 50; the loader sends each batch, in this order,
    at least once. *)
Theorem batches_partition df :
  let starts := py_range 0 (nrows df) BATCH_SIZE in
  let batches := map (batch_records df) starts in
  concat batches = to_records df /\
  Forall (fun b => 1 <= length b <= BATCH_SIZE) batches /\
  length batches = ceil_div (nrows df) BATCH_SIZE /\
  nrows df <= BATCH_SIZE * ceil_div (nrows df) BATCH_SIZE
           < nrows df + BATCH_SIZE /\
  (forall cols,
      map (fun i => length (batch_records (mkFrame 450 cols) i))
          (py_range 0 450 BATCH_SIZE) = [200; 200; 50]) /\
  forall table (w : World St),
    exists w' t ks,
      load_batches table df w = Some (Ret tt, w', t) /\
      length ks = length starts /\
      Forall (fun k => 1 <= k <= MAX_RETRIES) ks /\
      inserts t = attempts_of table df (combine starts ks).
Proof.
  intros starts batches.
  assert (Hb : 0 < BATCH_SIZE) by (unfold BATCH_SIZE; lia).
  split; [apply batches_cover|]. split; [|split; [|split; [|split]]].
  - unfold batches. apply Forall_map, Forall_forall. intros i Hi.
    rewrite length_batch_records.
    apply In_py_range in Hi as (k & -> & Hk).
    unfold range_length in Hk.
    destruct (Nat.ltb_spec 0 (nrows df)) as [Hn|Hn]; [|lia].
    assert (k * BATCH_SIZE <= nrows df - 1).
    { pose proof (Nat.div_mod_eq (nrows df - 0 - 1) BATCH_SIZE).
      assert (k <= (nrows df - 0 - 1) / BATCH_SIZE) by lia. nia. }
    lia.
  - unfold batches. rewrite length_map. now apply length_py_range.
  - now apply ceil_div_bounds.
  - intros cols. unfold py_range.
    replace (range_length 0 450 BATCH_SIZE) with 3 by (vm_compute; reflexivity).
    cbn [seq map]. rewrite !length_batch_records.
    vm_compute. reflexivity.
  - intros table w.
    destruct (for_each_batches table df (nrows df) starts w)
      as (w' & t & ks & R & L & F & I & _).
    exists w', t, ks. auto.
Qed.

(** C5: when a required column is absent from the staged frame the loader
    returns after its check without a single insertion call and leaves the
    world as it was; run as a script, after the table step, it makes no
    insertion call either. *)
Theorem missing_columns_abort table (w : World St) df c :
  staged_file w = Some df ->
  In c required_cols -> has_column df c = false ->
  length required_cols = 12 /\
  (exists t, load_to_supabase table w = Some (Ret tt, w, t) /\
             inserts t = []) /\
  (exists w' t, main w = Some (Ret tt, w', t) /\ inserts t = []).
Proof.
  intros Hf Hc Hm. split; [reflexivity|]. split.
  - destruct (load_to_supabase_not_ready table w) as (t & R & I & _).
    { eapply not_ready_missing; eauto. }
    eauto.
  - destruct (create_table_run w) as (w1 & t1 & R1 & I1 & _ & _ & _ & F1 & _).
    destruct (load_to_supabase_not_ready "telco_churn" w1) as (t & R & I & _).
    { eapply not_ready_missing; eauto. congruence. }
    exists w1, (t1 ++ t). unfold main, bind. rewrite R1, R.
    split; [reflexivity|]. now rewrite inserts_app, I1, I.
Qed.

(** C9: the loader always comes back, without an exception; when it gets to
    the batches it goes through exactly ceil(n / 200) of them, batch [j]
    (numbered from 1) on the rows from [(j - 1) * 200], each ended once and
    in order, with one to three insertion calls each; when it does not get
    to the batches it goes through none; in every case it makes at most
    3 * ceil(n / 200) insertion calls. *)
Theorem load_terminates table (w : World St) :
  exists w' t,
    load_to_supabase table w = Some (Ret tt, w', t) /\
    length (inserts t) <= MAX_RETRIES * ceil_div (staged_rows w) BATCH_SIZE /\
    (forall df,
        staged_file w = Some df -> ready w = true ->
        batches_done t = seq 1 (ceil_div (nrows df) BATCH_SIZE) /\
        exists ks,
          length ks = ceil_div (nrows df) BATCH_SIZE /\
          Forall (fun k => 1 <= k <= MAX_RETRIES) ks /\
          inserts t
          = attempts_of table (projected df)
              (combine (map (fun j => j * BATCH_SIZE)
                            (seq 0 (ceil_div (nrows df) BATCH_SIZE)))
                       ks)) /\
    (ready w = false -> batches_done t = [] /\ inserts t = []).
Proof.
  assert (Hb : 0 < BATCH_SIZE) by (unfold BATCH_SIZE; lia).
  destruct (ready w) eqn:R.
  - assert (exists df, staged_file w = Some df) as [df Hf].
    { unfold ready in R. destruct (staged_file w); [eauto|discriminate]. }
    destruct (load_to_supabase_ready table w df Hf R) as (w' & t & Run & E).
    destruct (for_each_batches table (projected df) (nrows (projected df))
                (py_range 0 (nrows (projected df)) BATCH_SIZE) w)
      as (w2 & t2 & ks & R2 & L & F & I & _).
    pose proof (for_each_batches_done _ _ _ _ _ _ _ _ R2) as D.
    unfold load_batches in Run. rewrite R2 in Run.
    injection Run as <- <-.
    exists w2. eexists. split; [exact E|].
    cbn [projected nrows] in L, I, D.
    rewrite batch_numbers in D. rewrite batch_starts in I.
    rewrite length_py_range in L by assumption.
    assert (Hi : inserts
                   ([Print LookingForFile; CreateClient; ReadCsv StagedFile;
                     Print (LoadingRows (nrows df))] ++
                    t2 ++ [Print FinishedLoading])
                 = attempts_of table (projected df)
                     (combine (map (fun j => j * BATCH_SIZE)
                                   (seq 0 (ceil_div (nrows df) BATCH_SIZE)))
                              ks)).
    { rewrite !inserts_app, I. simpl. now rewrite app_nil_r. }
    split; [|split; [|discriminate]].
    + rewrite Hi. unfold staged_rows. rewrite Hf.
      etransitivity.
      * apply length_attempts_of.
        apply (Forall_combine_snd (fun k => k <= 3)).
        revert F. apply Forall_impl. intros; lia.
      * rewrite length_combine, length_map, length_seq, L.
        unfold MAX_RETRIES. lia.
    + intros df' Hf' _. rewrite Hf in Hf'. injection Hf' as <-. split.
      * rewrite !batches_done_app, D. simpl. now rewrite app_nil_r.
      * exists ks. auto.
  - destruct (load_to_supabase_not_ready table w R) as (t & Run & I & _).
    exists w, t. split; [exact Run|]. split; [|split].
    + rewrite I. simpl. lia.
    + discriminate.
    + intros _. split; [|exact I].
      exact (load_to_supabase_not_ready_done table w R _ _ _ Run).
Qed.

End LoadFacts.

(** ** The validator *)

Section ValidationFacts.
Context {St : Type} {store : RemoteStore St} {pandas : Pandas}.

Import Validation.

Lemma validation_client_run (w : World St) :
  Validation.get_supabase_client w
  = if has_config w then
      if connects w then Some (Ret tt, w, [CreateClient])
      else Some (Raise StoreError, w, [CreateClient])
    else Some (Raise ValueError, w, []).
Proof.
  unfold Validation.get_supabase_client, has_config, connects, bind, getenv,
    create_client, raise.
  destruct (truthy (env_url w)); simpl;
    [destruct (truthy (env_key w)); simpl|]; auto.
  destruct (connect _ _); reflexivity.
Qed.

Lemma row_count_run table (w : World St) :
  get_supabase_row_count table w
  = if has_config w then
      if connects w then
        match select_exact table (remote w) with
        | Some r => Some (Ret (count_of r), w, [CreateClient; SelectCount table])
        | None => Some (Raise StoreError, w, [CreateClient; SelectCount table])
        end
      else Some (Raise StoreError, w, [CreateClient])
    else Some (Raise ValueError, w, []).
Proof.
  unfold get_supabase_row_count, bind. rewrite validation_client_run.
  destruct (has_config w); [destruct (connects w)|]; auto.
  unfold select_count, count_of.
  destruct (select_exact table (remote w)) as [r|]; auto.
  unfold ret. destruct (resp_count r); reflexivity.
Qed.

Opaque no_missing_numeric unique_match segments_ok contract_codes_ok forallb.

Lemma validate_run (w : World St) raw_df df :
  raw_file w = Some raw_df -> staged_file w = Some df ->
  let ok := fst (count_check w df) in
  validate w
  = Some (Ret (Some (report raw_df df ok)), w,
          [ReadCsv RawFile; ReadCsv StagedFile; Print StartingValidation;
           Print (CheckLine 1 (no_missing_numeric df));
           Print (CheckLine 2 (unique_match raw_df df))]
          ++ snd (count_check w df)
          ++ [Print (CheckLine 3 ok);
              Print (CheckLine 4
                       (segments_ok "tenure_group" expected_tenure_groups df));
              Print (CheckLine 5
                       (segments_ok "monthly_charge_segment"
                          expected_charge_segments df));
              Print (CheckLine 6 (contract_codes_ok df))]
          ++ map (fun c => Print (SummaryLine (fst c) (snd c)))
                 (report raw_df df ok)
          ++ [Print (verdict (report raw_df df ok))]).
Proof.
  intros Hr Hs ok. unfold ok, count_check.
  unfold validate, bind, try_except, path_exists, read_csv, print, emit, ret.
  simpl. rewrite Hr. simpl. rewrite Hs. simpl. rewrite Hr. simpl.
  rewrite Hs. simpl.
  destruct (get_supabase_row_count "telco_churn" w) as [[[[n|e] w1] t1]|] eqn:G.
  - rewrite row_count_run in G.
    assert (w1 = w).
    { destruct (has_config w); [destruct (connects w)|]; try discriminate.
      destruct (select_exact _ _); congruence. }
    subst w1. unfold summary, bind, verdict, report. simpl.
    destruct (forallb snd _); simpl; rewrite <- !app_assoc; reflexivity.
  - rewrite row_count_run in G.
    assert (w1 = w).
    { destruct (has_config w); [destruct (connects w)|]; try congruence.
      destruct (select_exact _ _); congruence. }
    subst w1. unfold summary, bind, verdict, report. simpl.
    destruct (forallb snd _); simpl; rewrite <- !app_assoc; reflexivity.
  - rewrite row_count_run in G.
    destruct (has_config w); [destruct (connects w)|]; try discriminate.
    destruct (select_exact _ _); discriminate.
Qed.

Transparent no_missing_numeric unique_match segments_ok contract_codes_ok
  forallb.

Lemma validate_no_raw (w : World St) :
  raw_file w = None ->
  validate w = Some (Ret None, w, [Print (FileNotFound RawFile)]).
Proof.
  intros H. unfold validate, bind, path_exists, print, emit, ret. simpl.
  rewrite H. reflexivity.
Qed.

Lemma validate_no_staged (w : World St) raw_df :
  raw_file w = Some raw_df -> staged_file w = None ->
  validate w = Some (Ret None, w, [Print (FileNotFound StagedFile)]).
Proof.
  intros Hr Hs. unfold validate, bind, path_exists, print, emit, ret. simpl.
  rewrite Hr. simpl. rewrite Hs. reflexivity.
Qed.

Lemma count_check_cases (w : World St) df :
  count_check w df
  = if has_config w then
      if connects w then
        match select_exact "telco_churn" (remote w) with
        | Some r => (count_of r =? nrows df,
                     [CreateClient; SelectCount "telco_churn"])
        | None => (false, [CreateClient; SelectCount "telco_churn";
                           Print (CountUnavailable StoreError)])
        end
      else (false, [CreateClient; Print (CountUnavailable StoreError)])
    else (false, [Print (CountUnavailable ValueError)]).
Proof.
  unfold count_check. rewrite row_count_run.
  destruct (has_config w); [destruct (connects w)|]; auto.
  destruct (select_exact _ _); reflexivity.
Qed.

Lemma count_check_reads (w : World St) df :
  forallb only_reads (snd (count_check w df)) = true.
Proof.
  rewrite count_check_cases.
  destruct (has_config w); [destruct (connects w)|]; auto.
  destruct (select_exact _ _); reflexivity.
Qed.

Lemma forallb_prints {A} (f : A -> message) l :
  forallb only_reads (map (fun c => Print (f c)) l) = true.
Proof. induction l; simpl; auto. Qed.

(** ** Claims about the validator *)

(** The third check passes exactly when the count query answers, with the
    number of rows of the staged frame; the count is the exact count where
    the response carries one; when the query raises (the settings, the
    client or the select), the check is recorded as failed, [validate] still
    returns normally and the report still holds checks 4 to 6, the summary
    lines and the verdict. *)
Theorem remote_count_check (w : World St) raw_df df :
  raw_file w = Some raw_df -> staged_file w = Some df ->
  exists ok before count after,
    validate w
    = Some (Ret (Some (report raw_df df ok)), w, before ++ count ++ after) /\
    after
    = [Print (CheckLine 3 ok);
       Print (CheckLine 4
                (segments_ok "tenure_group" expected_tenure_groups df));
       Print (CheckLine 5
                (segments_ok "monthly_charge_segment"
                   expected_charge_segments df));
       Print (CheckLine 6 (contract_codes_ok df))]
      ++ map (fun c => Print (SummaryLine (fst c) (snd c)))
             (report raw_df df ok)
      ++ [Print (verdict (report raw_df df ok))] /\
    (ok = true <->
     exists n w' t,
       get_supabase_row_count "telco_churn" w = Some (Ret n, w', t) /\
       n = nrows df) /\
    (forall r n,
        has_config w = true -> connects w = true ->
        select_exact "telco_churn" (remote w) = Some r ->
        resp_count r = Some n ->
        ok = (n =? nrows df)) /\
    (forall e w' t,
        get_supabase_row_count "telco_churn" w = Some (Raise e, w', t) ->
        ok = false /\ count = t ++ [Print (CountUnavailable e)]).
Proof.
  intros Hr Hs.
  exists (fst (count_check w df)).
  eexists. exists (snd (count_check w df)). eexists.
  split; [apply (validate_run w raw_df df Hr Hs)|].
  split; [reflexivity|].
  split; [|split].
  - unfold count_check.
    destruct (get_supabase_row_count "telco_churn" w)
      as [[[[n|e] w1] t1]|] eqn:G; simpl.
    + split.
      * intros H. apply Nat.eqb_eq in H. eauto 6.
      * intros (n' & w' & t' & [= -> _ _] & ->). apply Nat.eqb_refl.
    + split; [discriminate|]. intros (n' & w' & t' & E & _). discriminate.
    + split; [discriminate|]. intros (n' & w' & t' & E & _). discriminate.
  - intros r n C K Sel Hc. rewrite count_check_cases, C, K, Sel.
    unfold count_of. now rewrite Hc.
  - intros e w' t G. unfold count_check. rewrite G. auto.
Qed.

(** C10: whatever the checks find, and also when a file is missing,
    [validate] returns leaving the raw file, the staged file and the remote
    table as they were; all it does outside is print, read the two files,
    build the client and issue the count query. *)
Theorem validate_frame (w : World St) :
  exists r t,
    validate w = Some (Ret r, w, t) /\
    forallb only_reads t = true /\
    inserts t = [].
Proof.
  assert (I : forall t, forallb only_reads t = true -> inserts t = []).
  { induction t as [|e t IH]; simpl; auto.
    destruct e; simpl; try discriminate; auto. }
  destruct (raw_file w) as [raw_df|] eqn:Hr.
  - destruct (staged_file w) as [df|] eqn:Hs.
    + eexists; eexists. split; [apply (validate_run w raw_df df Hr Hs)|].
      assert (forallb only_reads
                ([ReadCsv RawFile; ReadCsv StagedFile;
                  Print StartingValidation;
                  Print (CheckLine 1 (no_missing_numeric df));
                  Print (CheckLine 2 (unique_match raw_df df))] ++
                 snd (count_check w df) ++
                 [Print (CheckLine 3 (fst (count_check w df)));
                  Print (CheckLine 4
                           (segments_ok "tenure_group"
                              expected_tenure_groups df));
                  Print (CheckLine 5
                           (segments_ok "monthly_charge_segment"
                              expected_charge_segments df));
                  Print (CheckLine 6 (contract_codes_ok df))] ++
                 map (fun c => Print (SummaryLine (fst c) (snd c)))
                   (report raw_df df (fst (count_check w df))) ++
                 [Print (verdict (report raw_df df (fst (count_check w df))))])
              = true).
      { rewrite !forallb_app, count_check_reads.
        rewrite (forallb_prints (fun c => SummaryLine (fst c) (snd c))).
        reflexivity. }
      auto.
    + rewrite (validate_no_staged w raw_df Hr Hs). eauto.
  - rewrite (validate_no_raw w Hr). eauto.
Qed.

(** C7 (amended): when the store URL or the key is unset or empty, no entry
    point reaches the remote store: the table step builds no client and
    sends no statement, the loader reads no staged file and inserts nothing,
    the validator issues no count query; each of them catches the
    configuration error and returns normally, the validator with check 3
    recorded as failed and its other checks carried out. *)
Theorem missing_config_no_remote_operation (w : World St) :
  has_config w = false ->
  Load.create_table_if_not_exists w
  = Some (Ret tt, w, [Print ErrorCreatingTable]) /\
  (forall table,
      Load.load_to_supabase table w
      = Some (Ret tt, w,
              [Print LookingForFile;
               match staged_file w with
               | Some _ => Print (ErrorLoading ValueError)
               | None => Print (FileNotFound StagedFile)
               end])) /\
  Load.main w
  = Some (Ret tt, w,
          [Print ErrorCreatingTable; Print LookingForFile;
           match staged_file w with
           | Some _ => Print (ErrorLoading ValueError)
           | None => Print (FileNotFound StagedFile)
           end]) /\
  (forall raw_df df,
      raw_file w = Some raw_df -> staged_file w = Some df ->
      validate w
      = Some (Ret (Some (report raw_df df false)), w,
              [ReadCsv RawFile; ReadCsv StagedFile; Print StartingValidation;
               Print (CheckLine 1 (no_missing_numeric df));
               Print (CheckLine 2 (unique_match raw_df df));
               Print (CountUnavailable ValueError);
               Print (CheckLine 3 false);
               Print (CheckLine 4
                        (segments_ok "tenure_group"
                           expected_tenure_groups df));
               Print (CheckLine 5
                        (segments_ok "monthly_charge_segment"
                           expected_charge_segments df));
               Print (CheckLine 6 (contract_codes_ok df))]
              ++ map (fun c => Print (SummaryLine (fst c) (snd c)))
                     (report raw_df df false)
              ++ [Print SomeFailed])).
Proof.
  intros C.
  assert (T : Load.create_table_if_not_exists w
              = Some (Ret tt, w, [Print ErrorCreatingTable])).
  { destruct (create_table_run w) as (w' & t & R & _ & _ & _ & _ & _ & E).
    destruct (E C) as [-> ->]. exact R. }
  assert (L : forall table,
             Load.load_to_supabase table w
             = Some (Ret tt, w,
                     [Print LookingForFile;
                      match staged_file w with
                      | Some _ => Print (ErrorLoading ValueError)
                      | None => Print (FileNotFound StagedFile)
                      end])).
  { intros table.
    destruct (load_to_supabase_not_ready table w) as (t & R & _ & E).
    - unfold ready. destruct (staged_file w); auto. now rewrite C.
    - rewrite (E C) in R. exact R. }
  split; [exact T|]. split; [exact L|]. split.
  - unfold Load.main, bind. rewrite T, L. reflexivity.
  - intros raw_df df Hr Hs. rewrite (validate_run w raw_df df Hr Hs).
    rewrite count_check_cases, C. cbn [fst snd].
    assert (V : verdict (report raw_df df false) = SomeFailed).
    { unfold verdict, report. cbn [forallb snd].
      now rewrite !andb_false_r. }
    rewrite V. reflexivity.
Qed.

End ValidationFacts.

Section CountFallback.
Context {pandas : Pandas}.

Import Validation.

(** C6: where the response to the count query carries no count,
    [get_supabase_row_count] answers the number of rows in the response,
    which [limit(1)] holds to one at most, and not the row count of the
    table: the third check passes exactly when the staged frame has that
    many rows, whatever the table holds.  With five rows in the table and
    one staged row the third check passes. *)
Theorem count_fallback_not_exact :
  (forall raw_df df rows,
      let w := uncounted_world (Some raw_df) (Some df) rows in
      get_supabase_row_count "telco_churn" w
      = Some (Ret (Nat.min 1 (length rows)), w,
              [CreateClient; SelectCount "telco_churn"]) /\
      exists t,
        validate w
        = Some (Ret (Some (report raw_df df
                             (Nat.min 1 (length rows) =? nrows df))),
                w, t)) /\
  length five_rows_example = 5 /\
  nrows one_row_example = 1 /\
  exists t,
    validate (uncounted_world (Some raw_example) (Some one_row_example)
                five_rows_example)
    = Some (Ret (Some (report raw_example one_row_example true)),
            uncounted_world (Some raw_example) (Some one_row_example)
              five_rows_example, t) /\
    In (Print (CheckLine 3 true)) t.
Proof.
  assert (G : forall raw_df df rows,
             count_check (uncounted_world (Some raw_df) (Some df) rows) df
             = (Nat.min 1 (length rows) =? nrows df,
                [CreateClient; SelectCount "telco_churn"])).
  { intros raw_df df rows. rewrite count_check_cases.
    cbn [has_config connects uncounted_world env_url env_key truthy text
         String.eqb Ascii.eqb Bool.eqb negb andb connect uncounted_store
         select_exact remote held].
    unfold count_of. cbn [resp_count resp_data].
    now rewrite length_firstn. }
  split; [|split; [reflexivity|split; [reflexivity|]]].
  - intros raw_df df rows w. split.
    + unfold w. rewrite row_count_run.
      cbn [has_config connects uncounted_world env_url env_key truthy text
           String.eqb Ascii.eqb Bool.eqb negb andb connect uncounted_store
           select_exact remote held].
      unfold count_of. cbn [resp_count resp_data].
      now rewrite length_firstn.
    + eexists. unfold w.
      rewrite (validate_run (uncounted_world (Some raw_df) (Some df) rows)
                 raw_df df eq_refl eq_refl), G.
      reflexivity.
  - eexists.
    rewrite (validate_run
               (uncounted_world (Some raw_example) (Some one_row_example)
                  five_rows_example)
               raw_example one_row_example eq_refl eq_refl), G.
    split; [reflexivity|].
    cbn [fst snd app]. simpl. auto 10.
Qed.

End CountFallback.

(** ** The models at work *)

(** The scenario of the specification: of 450 rows the second batch fails
    three times; batches one and three are in the table, 250 rows. *)
Example partial_load_450 :
  exists w' t,
    Load.load_to_supabase "telco_churn"
      (world_with staged_450 [false; true; true; true])
    = Some (Ret tt, w', t) /\
    map (fun call => length (snd call)) (inserts t)
    = [200; 200; 200; 200; 50] /\
    sleeps t = [2; 4] /\
    table_rows (remote w')
    = Load.batch_records staged_450 0 ++ Load.batch_records staged_450 400 /\
    select_exact "telco_churn" (remote w')
    = Some (mkResponse (Some 250) (firstn 1 (table_rows (remote w')))).
Proof.
  eexists; eexists. split; [vm_compute; reflexivity|].
  repeat split; vm_compute; reflexivity.
Qed.


Lemma missing_columns_abort_witness :
  exists t,
    Load.load_to_supabase "telco_churn" (world_with raw_example [])
    = Some (Ret tt, world_with raw_example [], t) /\
    inserts t = [].
Proof.
  exact (proj1 (proj2 (missing_columns_abort "telco_churn"
                         (world_with raw_example []) raw_example "Churn"
                         eq_refl
                         (or_intror (or_intror (or_intror (or_introl eq_refl))))
                         eq_refl))).
Defined.

Lemma load_terminates_witness :
  exists w' t ks,
    Load.load_to_supabase "telco_churn"
      (world_with staged_450 [false; true; true; true])
    = Some (Ret tt, w', t) /\
    length (inserts t) <= 9 /\
    batches_done t = [1; 2; 3] /\
    length ks = 3 /\
    Forall (fun k => 1 <= k <= 3) ks.
Proof.
  destruct (load_terminates "telco_churn"
              (world_with staged_450 [false; true; true; true]))
    as (w' & t & R & B & K & _).
  destruct (K staged_450 eq_refl eq_refl) as (D & ks & L & F & _).
  exists w', t, ks. split; [exact R|]. split; [exact B|].
  split; [exact D|]. split; [exact L | exact F].
Defined.

Lemma remote_count_check_witness :
  exists t,
    Validation.validate loaded_world
    = Some (Ret (Some (report raw_example enriched_example true)),
            loaded_world, t).
Proof.
  destruct (remote_count_check loaded_world raw_example enriched_example
              eq_refl eq_refl)
    as (ok & before & count & after & V & _ & Iff & _).
  assert (E : ok = true).
  { apply Iff. exists 4, loaded_world. eexists.
    split; [vm_compute; reflexivity | reflexivity]. }
  subst ok. eexists. exact V.
Defined.

(** C7, as stated, fails: without a store URL the validator does not halt
    with a configuration error; it reads both files, carries out its checks
    and returns its report of six, and the loader script returns normally as
    well. *)
Lemma missing_config_counterexample :
  has_config no_url_world = false /\
  (exists checks t,
      Validation.validate no_url_world
      = Some (Ret (Some checks), no_url_world, t) /\
      length checks = 6 /\
      In (ReadCsv RawFile) t /\
      In (ReadCsv StagedFile) t /\
      In (Print (CheckLine 1 true)) t /\
      In (Print (CheckLine 2 true)) t /\
      In (Print (CheckLine 3 false)) t /\
      In (Print (CheckLine 6 true)) t) /\
  exists t, Load.main no_url_world = Some (Ret tt, no_url_world, t).
Proof.
  split; [reflexivity|]. split.
  - eexists; eexists. split; [vm_compute; reflexivity|].
    split; [reflexivity|]. simpl. intuition.
  - eexists. vm_compute. reflexivity.
Qed.

Lemma missing_config_no_remote_operation_witness :
  Load.main no_url_world
  = Some (Ret tt, no_url_world,
          [Print ErrorCreatingTable; Print LookingForFile;
           Print (ErrorLoading ValueError)]).
Proof.
  exact (proj1 (proj2 (proj2 (missing_config_no_remote_operation
                                (pandas := exact_pandas)
                                no_url_world eq_refl)))).
Defined.

(** The fill value follows the frame at hand: the same gap is filled with
    3840.5 in one frame and with 30 in another. *)
Example median_follows_the_frame :
  let other :=
    set_column raw_example "TotalCharges" (strs ["10"; " "; "30"; "50"]) in
  (exists out after,
      Transform.transform_frame raw_example = Ret out /\
      lookup "TotalCharges" (columns out) = Some after /\
      nth_error after 1 = Some (Num (Fin (7681 # 2)))) /\
  (exists out after,
      Transform.transform_frame other = Ret out /\
      lookup "TotalCharges" (columns out) = Some after /\
      nth_error after 1 = Some (Num (Fin 30))).
Proof.
  split; eexists; eexists; (split; [vm_compute; reflexivity|]);
    split; reflexivity.
Qed.

(** * Further properties *)

(** ** The derived columns *)

Section DerivedColumns.
Context {pandas : Pandas}.

Import Transform.

Ltac past_columns :=
  repeat (rewrite lookup_set_neq by reflexivity).

(** A column that is neither imputed, derived nor dropped leaves
    [transform_frame] as the categorical step makes it. *)
Lemma transform_frame_passes df out k :
  transform_frame df = Ret out ->
  mem k numeric_cols = false -> mem k derived_cols = false ->
  mem k dropped_cols = false ->
  lookup k (columns out) = option_map fill_unknown (lookup k (columns df)).
Proof.
  intros H Kn Kd Kx. apply transform_frame_ret in H
    as (total & df2 & tenure & mc & internet & lines & contract
        & L0 & F & _ & _ & _ & _ & _ & ->).
  assert (N : NoDup numeric_cols)
    by (repeat constructor; simpl; intuition discriminate).
  apply fill_numeric_spec in F as (_ & _ & K); auto.
  unfold enrich. rewrite lookup_dropped by assumption.
  simpl in Kd. repeat (apply orb_false_iff in Kd as [? Kd]).
  rewrite !lookup_set_neq by assumption.
  rewrite lookup_fill_categorical, K, Kn.
  simpl in Kn. repeat (apply orb_false_iff in Kn as [? Kn]).
  now rewrite lookup_set_neq by assumption.
Qed.

(** The four derived columns that are not [tenure_group]. *)
Lemma transform_frame_derived df out :
  transform_frame df = Ret out ->
  exists mc internet lines contract,
    lookup "MonthlyCharges" (columns df) = Some mc /\
    lookup "InternetService" (columns df) = Some internet /\
    lookup "MultipleLines" (columns df) = Some lines /\
    lookup "Contract" (columns df) = Some contract /\
    lookup "monthly_charge_segment" (columns out)
      = Some (map monthly_charge_segment (imputed mc)) /\
    lookup "has_internet_service" (columns out)
      = Some (map has_internet_service (fill_unknown internet)) /\
    lookup "is_multi_line_user" (columns out)
      = Some (map is_multi_line_user (fill_unknown lines)) /\
    lookup "contract_type_code" (columns out)
      = Some (map contract_type_code (fill_unknown contract)).
Proof.
  intros H.
  pose proof (transform_frame_numeric df out H)
    as (total & tenure & mc & _ & _ & Lmc & _ & _ & Omc & _).
  pose proof (transform_frame_passes df out "InternetService" H
                eq_refl eq_refl eq_refl) as Pi.
  pose proof (transform_frame_passes df out "MultipleLines" H
                eq_refl eq_refl eq_refl) as Pl.
  pose proof (transform_frame_passes df out "Contract" H
                eq_refl eq_refl eq_refl) as Pc.
  apply transform_frame_ret in H
    as (total' & df2 & tenure' & mc' & internet & lines & contract
        & L0 & F & L1 & L2 & L3 & L4 & L5 & ->).
  unfold enrich in *. rewrite lookup_dropped in * by reflexivity.
  rewrite !lookup_set_neq in Pi, Pl, Pc, Omc by reflexivity.
  rewrite L3 in Pi. rewrite L4 in Pl. rewrite L5 in Pc. rewrite L2 in Omc.
  injection Omc as ->.
  destruct (lookup "InternetService" (columns df)) as [i0|];
    [|discriminate].
  destruct (lookup "MultipleLines" (columns df)) as [l0|]; [|discriminate].
  destruct (lookup "Contract" (columns df)) as [c0|]; [|discriminate].
  simpl in Pi, Pl, Pc. injection Pi as ->. injection Pl as ->.
  injection Pc as ->.
  exists mc, i0, l0, c0. repeat split; auto;
    rewrite ?lookup_dropped by reflexivity; past_columns;
    apply lookup_set_eq.
Qed.

Ltac by_characters s :=
  repeat (destruct s as [|[[|] [|] [|] [|] [|] [|] [|] [|]] s];
          try reflexivity).

Lemma has_internet_service_spec c :
  has_internet_service c
  = match c with
    | Str s => if String.eqb s "DSL" || String.eqb s "Fiber optic"
               then Num (of_nat 1) else Num (of_nat 0)
    | _ => Num (of_nat 0)
    end.
Proof. destruct c as [| |s]; try reflexivity. by_characters s. Qed.

Lemma is_multi_line_user_spec c :
  is_multi_line_user c
  = match c with
    | Str s => if String.eqb s "Yes" then Num (of_nat 1) else Num (of_nat 0)
    | _ => Num (of_nat 0)
    end.
Proof. destruct c as [| |s]; try reflexivity. by_characters s. Qed.

Lemma contract_type_code_spec c :
  contract_type_code c
  = match c with
    | Str s => if String.eqb s "Month-to-month" then Num (of_nat 0)
               else if String.eqb s "One year" then Num (of_nat 1)
               else if String.eqb s "Two year" then Num (of_nat 2)
               else NA
    | _ => NA
    end.
Proof. destruct c as [| |s]; try reflexivity. by_characters s. Qed.

Ltac charge_bucket x :=
  unfold monthly_charge_segment, num_lt, num_le, num_ltb, of_nat;
  destruct x as [|q|]; cbn [num_leb negb andb]; intros;
  try discriminate; try reflexivity;
  repeat match goal with
         | H : negb _ = true |- _ => apply negb_true_iff in H
         end;
  repeat match goal with
         | |- context [Qle_bool ?a ?b] => destruct (Qle_bool a b) eqn:?
         end;
  cbn [negb andb]; try discriminate; try reflexivity;
  exfalso;
  repeat match goal with
         | H : Qle_bool _ _ = true |- _ => apply Qle_bool_iff in H
         | H : Qle_bool _ _ = false |- _ => apply Qle_bool_false in H
         end;
  unfold inject_Z in *; simpl in *; lra.

(** X1: The charge segment of the imputed monthly charge: Low below 30, Medium
    from 30 to 70, High above 70; a number never gets "Unknown", a missing
    charge does; 29.99, 30, 70 and 70.01 (as floats) give Low, Medium,
    Medium, High. *)
Theorem charge_segments df out :
  transform_frame df = Ret out ->
  (exists mc,
      lookup "MonthlyCharges" (columns df) = Some mc /\
      lookup "monthly_charge_segment" (columns out)
        = Some (map monthly_charge_segment (imputed mc))) /\
  monthly_charge_segment NA = Str "Unknown" /\
  (forall x,
      (num_lt x (of_nat 30) -> monthly_charge_segment (Num x) = Str "Low") /\
      (num_le (of_nat 30) x -> num_le x (of_nat 70) ->
       monthly_charge_segment (Num x) = Str "Medium") /\
      (num_lt (of_nat 70) x ->
       monthly_charge_segment (Num x) = Str "High") /\
      monthly_charge_segment (Num x) <> Str "Unknown") /\
  map monthly_charge_segment
      [Num (Fin (8441434551552573 # 281474976710656)); Num (of_nat 30);
       Num (of_nat 70); Num (Fin (4926515779878257 # 70368744177664))]
    = strs ["Low"; "Medium"; "Medium"; "High"].
Proof.
  intros H. split; [|split; [reflexivity|split; [|reflexivity]]].
  - apply transform_frame_derived in H
      as (mc & i & l & c & Lmc & _ & _ & _ & O & _).
    eauto.
  - intros x. repeat split.
    + charge_bucket x.
    + charge_bucket x.
    + charge_bucket x.
    + unfold monthly_charge_segment, num_ltb, of_nat.
      destruct x as [|q|]; cbn [num_leb negb andb]; try discriminate.
      destruct (Qle_bool (inject_Z (Z.of_nat 30)) q) eqn:E1;
        destruct (Qle_bool q (inject_Z (Z.of_nat 70))) eqn:E2;
        cbn [negb andb]; try discriminate.
Qed.

(** X2: [has_internet_service] is 1 on the rows whose InternetService is "DSL"
    or "Fiber optic" and 0 on every other row, a missing value included. *)
Theorem internet_flag df out :
  transform_frame df = Ret out ->
  exists internet flags,
    lookup "InternetService" (columns df) = Some internet /\
    lookup "has_internet_service" (columns out) = Some flags /\
    length flags = length internet /\
    forall i c,
      nth_error internet i = Some c ->
      (nth_error flags i = Some (Num (of_nat 1)) /\
       (c = Str "DSL" \/ c = Str "Fiber optic")) \/
      (nth_error flags i = Some (Num (of_nat 0)) /\
       c <> Str "DSL" /\ c <> Str "Fiber optic").
Proof.
  intros H. apply transform_frame_derived in H
    as (mc & internet & l & c & _ & Li & _ & _ & _ & O & _).
  exists internet. eexists. split; [exact Li|]. split; [exact O|].
  assert (F : forall i c, nth_error internet i = Some c ->
              nth_error (fill_unknown internet) i
              = Some (if isna c then (if existsb is_str internet
                                      then Str "Unknown" else NA)
                      else c)).
  { intros i c0 Hi. unfold fill_unknown.
    destruct (existsb is_str internet).
    - unfold fillna. now rewrite nth_error_map, Hi.
    - rewrite Hi. now destruct c0. }
  split.
  - rewrite length_map. unfold fill_unknown.
    destruct (existsb is_str internet); [apply length_fillna|reflexivity].
  - intros i c0 Hi. rewrite nth_error_map, (F i c0 Hi). cbn [option_map].
    rewrite has_internet_service_spec.
    destruct c0 as [|x|s]; cbn [isna].
    + right. split; [|split; discriminate].
      now destruct (existsb is_str internet).
    + right. split; [reflexivity|split; discriminate].
    + destruct (String.eqb s "DSL") eqn:E1.
      * apply String.eqb_eq in E1. subst. left. auto.
      * destruct (String.eqb s "Fiber optic") eqn:E2.
        -- apply String.eqb_eq in E2. subst. left. auto.
        -- apply String.eqb_neq in E1, E2. right.
           split; [reflexivity|]. split; congruence.
Qed.

Lemma nth_error_fill_unknown s i c :
  nth_error s i = Some c ->
  nth_error (fill_unknown s) i
  = Some (if isna c then (if existsb is_str s then Str "Unknown" else NA)
          else c).
Proof.
  intros Hi. unfold fill_unknown. destruct (existsb is_str s).
  - unfold fillna. now rewrite nth_error_map, Hi.
  - rewrite Hi. now destruct c.
Qed.

Lemma length_fill_unknown s : length (fill_unknown s) = length s.
Proof.
  unfold fill_unknown.
  destruct (existsb is_str s); [apply length_fillna|reflexivity].
Qed.

(** X3: [is_multi_line_user] is 1 on the rows whose MultipleLines is exactly
    "Yes" and 0 on every other row. *)
Theorem multi_line_flag df out :
  transform_frame df = Ret out ->
  exists lines flags,
    lookup "MultipleLines" (columns df) = Some lines /\
    lookup "is_multi_line_user" (columns out) = Some flags /\
    length flags = length lines /\
    forall i c,
      nth_error lines i = Some c ->
      (nth_error flags i = Some (Num (of_nat 1)) /\ c = Str "Yes") \/
      (nth_error flags i = Some (Num (of_nat 0)) /\ c <> Str "Yes").
Proof.
  intros H. apply transform_frame_derived in H
    as (mc & internet & lines & c & _ & _ & Ll & _ & _ & _ & O & _).
  exists lines. eexists. split; [exact Ll|]. split; [exact O|].
  split; [now rewrite length_map, length_fill_unknown|].
  intros i c0 Hi.
  rewrite nth_error_map, (nth_error_fill_unknown lines i c0 Hi).
  cbn [option_map]. rewrite is_multi_line_user_spec.
  destruct c0 as [|x|s]; cbn [isna].
  - right. split; [|discriminate]. now destruct (existsb is_str lines).
  - right. split; [reflexivity|discriminate].
  - destruct (String.eqb s "Yes") eqn:E.
    + apply String.eqb_eq in E. subst. left. auto.
    + apply String.eqb_neq in E. right. split; [reflexivity|congruence].
Qed.

(** X4: [contract_type_code] is 0, 1, 2 on the rows whose Contract is
    "Month-to-month", "One year", "Two year" and missing (not 0) on every
    other row. *)
Theorem contract_codes df out :
  transform_frame df = Ret out ->
  exists contract codes,
    lookup "Contract" (columns df) = Some contract /\
    lookup "contract_type_code" (columns out) = Some codes /\
    length codes = length contract /\
    forall i c,
      nth_error contract i = Some c ->
      (c = Str "Month-to-month" /\ nth_error codes i = Some (Num (of_nat 0)))
      \/ (c = Str "One year" /\ nth_error codes i = Some (Num (of_nat 1)))
      \/ (c = Str "Two year" /\ nth_error codes i = Some (Num (of_nat 2)))
      \/ (c <> Str "Month-to-month" /\ c <> Str "One year" /\
          c <> Str "Two year" /\ nth_error codes i = Some NA).
Proof.
  intros H. apply transform_frame_derived in H
    as (mc & internet & lines & contract & _ & _ & _ & Lc & _ & _ & _ & O).
  exists contract. eexists. split; [exact Lc|]. split; [exact O|].
  split; [now rewrite length_map, length_fill_unknown|].
  intros i c0 Hi.
  rewrite nth_error_map, (nth_error_fill_unknown contract i c0 Hi).
  cbn [option_map]. rewrite contract_type_code_spec.
  destruct c0 as [|x|s]; cbn [isna].
  - do 3 right. repeat split; try discriminate.
    now destruct (existsb is_str contract).
  - do 3 right. repeat split; discriminate.
  - destruct (String.eqb s "Month-to-month") eqn:E0.
    { apply String.eqb_eq in E0. subst. left. auto. }
    destruct (String.eqb s "One year") eqn:E1.
    { apply String.eqb_eq in E1. subst. right. left. auto. }
    destruct (String.eqb s "Two year") eqn:E2.
    { apply String.eqb_eq in E2. subst. right. right. left. auto. }
    apply String.eqb_neq in E0, E1, E2. do 3 right.
    repeat split; congruence.
Qed.

(** X5: A column the transformer only passes on (neither imputed, derived nor
    dropped) keeps its values; its gaps become "Unknown" when the column
    holds text and stay gaps when it does not. *)
Theorem categorical_imputation df out k s :
  transform_frame df = Ret out ->
  mem k numeric_cols = false -> mem k derived_cols = false ->
  mem k dropped_cols = false ->
  lookup k (columns df) = Some s ->
  exists after,
    lookup k (columns out) = Some after /\
    length after = length s /\
    forall i c,
      nth_error s i = Some c ->
      nth_error after i
      = Some (if isna c
              then (if existsb is_str s then Str "Unknown" else NA)
              else c).
Proof.
  intros H Kn Kd Kx L.
  rewrite (transform_frame_passes df out k H Kn Kd Kx), L.
  eexists. split; [reflexivity|]. split; [apply length_fill_unknown|].
  intros i c. apply nth_error_fill_unknown.
Qed.

End DerivedColumns.

(** ** The transformer's output under the validator's checks *)

Section OutputChecks.
Context {pandas : Pandas}.

Import Transform.

Lemma In_unique c s :
  In c (Validation.unique s) -> In c s /\ isna c = false.
Proof.
  induction s as [|d r IH]; simpl; [tauto|].
  destruct (isna d) eqn:E.
  - intros H. apply IH in H. tauto.
  - intros [<-|H]; [auto|].
    apply filter_In in H as [H _]. apply IH in H. tauto.
Qed.

Lemma unique_nil s :
  Validation.unique s = [] <-> forall c, In c s -> isna c = true.
Proof.
  induction s as [|d r IH]; simpl; [intuition|].
  destruct (isna d) eqn:E.
  - rewrite IH. split.
    + intros H c [<-|Hc]; auto.
    + auto.
  - split; [discriminate|]. intros H.
    rewrite (H d (or_introl eq_refl)) in E. discriminate.
Qed.

Lemma count_na_zero s :
  Validation.count_na s = 0 <-> forall c, In c s -> isna c = false.
Proof.
  unfold Validation.count_na. induction s as [|d r IH]; simpl; [intuition|].
  destruct (isna d) eqn:E; simpl.
  - split; [discriminate|]. intros H.
    rewrite (H d (or_introl eq_refl)) in E. discriminate.
  - rewrite IH. split.
    + intros H c [<-|Hc]; auto.
    + auto.
Qed.

Lemma imputed_complete s m :
  median (numbers s) = Some m -> Validation.count_na (imputed s) = 0.
Proof.
  intros Hm. apply count_na_zero. intros c Hc.
  unfold imputed, fillna in Hc. rewrite Hm in Hc.
  apply in_map_iff in Hc as (d & <- & _). now destruct d.
Qed.

Lemma imputed_gap s :
  median (numbers s) = None -> In NA s ->
  Validation.count_na (imputed s) <> 0.
Proof.
  intros Hm Hin E. rewrite count_na_zero in E.
  assert (In NA (imputed s)).
  { unfold imputed, fillna. rewrite Hm. apply in_map_iff.
    exists NA. auto. }
  apply E in H. discriminate.
Qed.

(** X6: Check 1 of the validator on the transformer's output: it passes when
    each of the three numeric columns has a median (a number, not NaN); a
    column without one keeps its gaps and the check fails. *)
Theorem numeric_check_on_output df out total tenure mc :
  transform_frame df = Ret out ->
  lookup "TotalCharges" (columns df) = Some total ->
  lookup "tenure" (columns df) = Some tenure ->
  lookup "MonthlyCharges" (columns df) = Some mc ->
  (median (numbers (to_numeric total)) <> None ->
   median (numbers tenure) <> None ->
   median (numbers mc) <> None ->
   Validation.no_missing_numeric out = true) /\
  (median (numbers tenure) = None -> In NA tenure ->
   Validation.no_missing_numeric out = false).
Proof.
  intros H L0 L1 L2.
  apply transform_frame_numeric in H
    as (total' & tenure' & mc' & L0' & L1' & L2' & C & T & M & _).
  rewrite L0 in L0'. rewrite L1 in L1'. rewrite L2 in L2'.
  injection L0' as <-. injection L1' as <-. injection L2' as <-.
  unfold Validation.no_missing_numeric, Validation.numeric_cols.
  cbn [forallb]. rewrite C, T, M. split.
  - intros H0 H1 H2.
    destruct (median (numbers (to_numeric total))) as [m0|] eqn:E0;
      [|congruence].
    destruct (median (numbers tenure)) as [m1|] eqn:E1; [|congruence].
    destruct (median (numbers mc)) as [m2|] eqn:E2; [|congruence].
    rewrite (imputed_complete _ _ E0), (imputed_complete _ _ E1),
      (imputed_complete _ _ E2). reflexivity.
  - intros E Hin. pose proof (imputed_gap tenure E Hin) as G.
    apply Nat.eqb_neq in G. now rewrite G.
Qed.

(** X7: Check 6 of the validator on the transformer's output: every code there
    is 0, 1 or 2, so the check passes exactly when some row has one of the
    three known contract values. *)
Theorem contract_check_on_output df out :
  transform_frame df = Ret out ->
  exists contract,
    lookup "Contract" (columns df) = Some contract /\
    (Validation.contract_codes_ok out = true <->
     exists s, In (Str s) contract /\
               (s = "Month-to-month" \/ s = "One year" \/ s = "Two year")).
Proof.
  intros H. apply transform_frame_derived in H
    as (mc & internet & lines & contract & _ & _ & _ & Lc & _ & _ & _ & O).
  exists contract. split; [exact Lc|].
  unfold Validation.contract_codes_ok. rewrite O.
  set (codes := map contract_type_code (fill_unknown contract)).
  assert (A : forallb Validation.allowed_code (Validation.unique codes) = true).
  { apply forallb_forall. intros c Hc. apply In_unique in Hc as [Hc Hn].
    unfold codes in Hc. apply in_map_iff in Hc as (d & <- & _).
    rewrite contract_type_code_spec in *.
    destruct d as [|x|s]; try discriminate.
    destruct (String.eqb s "Month-to-month"); [reflexivity|].
    destruct (String.eqb s "One year"); [reflexivity|].
    destruct (String.eqb s "Two year"); [reflexivity|discriminate]. }
  rewrite A. cbn [andb]. rewrite Nat.ltb_lt.
  assert (K : forall d, isna (contract_type_code d) = false <->
              exists s, d = Str s /\
                (s = "Month-to-month" \/ s = "One year" \/ s = "Two year")).
  { intros d. rewrite contract_type_code_spec.
    destruct d as [|x|s].
    - split; [discriminate|]. intros (s & E & _). discriminate.
    - split; [discriminate|]. intros (s & E & _). discriminate.
    - destruct (String.eqb s "Month-to-month") eqn:E0.
      { apply String.eqb_eq in E0. split; eauto. }
      destruct (String.eqb s "One year") eqn:E1.
      { apply String.eqb_eq in E1. split; eauto 6. }
      destruct (String.eqb s "Two year") eqn:E2.
      { apply String.eqb_eq in E2. split; eauto 6. }
      apply String.eqb_neq in E0, E1, E2.
      split; [discriminate|].
      intros (s' & [= <-] & [?|[?|?]]); congruence. }
  split.
  - intros Hlen.
    destruct (Validation.unique codes) as [|c r] eqn:U; [simpl in Hlen; lia|].
    assert (Hc : In c (Validation.unique codes)) by (rewrite U; simpl; auto).
    apply In_unique in Hc as [Hc Hn].
    unfold codes in Hc. apply in_map_iff in Hc as (d & <- & Hd).
    apply K in Hn as (s & -> & Hs). exists s. split; [|exact Hs].
    unfold fill_unknown in Hd. destruct (existsb is_str contract); auto.
    unfold fillna in Hd. apply in_map_iff in Hd as (e & He & Hin).
    destruct e; simpl in He; try discriminate.
    + injection He as <-. destruct Hs as [?|[?|?]]; discriminate.
    + injection He as <-. exact Hin.
  - intros (s & Hin & Hs).
    destruct (Validation.unique codes) as [|c r] eqn:U; [|simpl; lia].
    exfalso. rewrite unique_nil in U.
    assert (Hd : In (Str s) (fill_unknown contract)).
    { unfold fill_unknown. destruct (existsb is_str contract); auto.
      unfold fillna. apply in_map_iff. exists (Str s). auto. }
    assert (Hc : In (contract_type_code (Str s)) codes)
      by (unfold codes; apply in_map; exact Hd).
    apply U in Hc.
    assert (isna (contract_type_code (Str s)) = false)
      by (apply K; eauto).
    congruence.
Qed.

End OutputChecks.

(** ** How the transformer fails, and what it hands to the loader *)

Section TransformOutcomes.
Context {pandas : Pandas} {St : Type}.

Import Transform.

Lemma fill_numeric_raise cols : forall df e,
  NoDup cols -> fill_numeric cols df = Raise e ->
  e = TypeError /\
  exists c s, In c cols /\ lookup c (columns df) = Some s /\
              existsb is_str s = true.
Proof.
  induction cols as [|col rest IH]; simpl; intros df e N H; [discriminate|].
  inversion N as [|? ? Hnotin N']; subst.
  destruct (lookup col (columns df)) as [s|] eqn:L.
  - unfold series_median in H. destruct (existsb is_str s) eqn:E.
    + simpl in H. injection H as <-. split; [reflexivity|].
      exists col, s. auto.
    + simpl in H. apply IH in H as (-> & c & s' & Hc & Ls & Es); auto.
      split; [reflexivity|]. exists c, s'. split; [auto|]. split; [|exact Es].
      rewrite lookup_set_neq in Ls; auto.
      apply String.eqb_neq. intros ->. contradiction.
  - apply IH in H as (-> & c & s' & Hc & Ls & Es); auto.
    split; [reflexivity|]. exists c, s'. auto.
Qed.

(** X8: When [transform_frame] fails it is with [KeyError] on a column it reads
    that the frame lacks, or with [TypeError] because tenure or
    MonthlyCharges holds text; a frame without TotalCharges always fails
    with [KeyError "TotalCharges"]. *)
Theorem transform_frame_errors df :
  (forall e,
      transform_frame df = Raise e ->
      (exists c, e = KeyError c /\ In c read_columns /\
                 has_column df c = false) \/
      (e = TypeError /\
       exists c s, (c = "tenure" \/ c = "MonthlyCharges") /\
                   lookup c (columns df) = Some s /\
                   existsb is_str s = true)) /\
  (has_column df "TotalCharges" = false ->
   transform_frame df = Raise (KeyError "TotalCharges")).
Proof.
  assert (N : NoDup numeric_cols)
    by (repeat constructor; simpl; intuition discriminate).
  split.
  - intros e. unfold transform_frame, get_column.
    destruct (lookup "TotalCharges" (columns df)) as [total|] eqn:L0.
    2:{ intros [= <-]. left. exists "TotalCharges".
        unfold has_column. rewrite L0. simpl. auto. }
    cbn [rbind].
    destruct (fill_numeric _ _) as [df2|e'] eqn:F.
    2:{ intros [= <-]. right.
        apply fill_numeric_raise in F as (-> & c & s & Hc & Ls & Es); auto.
        split; [reflexivity|]. exists c, s.
        destruct Hc as [<-|[<-|[<-|[]]]].
        - rewrite lookup_set_neq in Ls by reflexivity. auto.
        - rewrite lookup_set_neq in Ls by reflexivity. auto.
        - rewrite lookup_set_eq in Ls. injection Ls as <-.
          rewrite no_str_to_numeric in Es. discriminate. }
    apply fill_numeric_spec in F as (_ & _ & K); auto.
    assert (G : forall k,
               String.eqb k "TotalCharges" = false ->
               lookup k (columns (fill_categorical df2)) = None ->
               has_column df k = false).
    { intros k Hk Hn. rewrite lookup_fill_categorical, K in Hn.
      rewrite lookup_set_neq in Hn by assumption. unfold has_column.
      destruct (lookup k (columns df)); [|reflexivity].
      destruct (mem k numeric_cols); discriminate. }
    cbn [rbind].
    destruct (lookup "tenure" (columns (fill_categorical df2))) eqn:G1.
    2:{ intros [= <-]. left. exists "tenure". split; [reflexivity|].
        split; [simpl; auto|]. now apply G. }
    cbn [rbind]. rewrite !lookup_set_neq by reflexivity.
    destruct (lookup "MonthlyCharges" (columns (fill_categorical df2))) eqn:G2.
    2:{ intros [= <-]. left. exists "MonthlyCharges". split; [reflexivity|].
        split; [simpl; auto|]. now apply G. }
    cbn [rbind]. rewrite !lookup_set_neq by reflexivity.
    destruct (lookup "InternetService" (columns (fill_categorical df2)))
      eqn:G3.
    2:{ intros [= <-]. left. exists "InternetService". split; [reflexivity|].
        split; [simpl; auto|]. now apply G. }
    cbn [rbind]. rewrite !lookup_set_neq by reflexivity.
    destruct (lookup "MultipleLines" (columns (fill_categorical df2)))
      eqn:G4.
    2:{ intros [= <-]. left. exists "MultipleLines". split; [reflexivity|].
        split; [simpl; auto 6|]. now apply G. }
    cbn [rbind]. rewrite !lookup_set_neq by reflexivity.
    destruct (lookup "Contract" (columns (fill_categorical df2))) eqn:G5.
    2:{ intros [= <-]. left. exists "Contract". split; [reflexivity|].
        split; [simpl; auto 7|]. now apply G. }
    cbn [rbind]. discriminate.
  - unfold has_column, transform_frame, get_column.
    destruct (lookup "TotalCharges" (columns df)); [discriminate|reflexivity].
Qed.

(** X9: [transform_data] writes the staged file only when the whole
    transformation went through: with the raw file absent it raises
    [FileNotFoundError] having only made the directories, and whenever it
    raises the world is as it was and nothing has been written. It never
    touches the raw file, the settings or the remote store. *)
Theorem transform_data_outcome (w : World St) :
  exists r w' t,
    transform_data w = Some (r, w', t) /\
    raw_file w' = raw_file w /\ remote w' = remote w /\
    env_url w' = env_url w /\ env_key w' = env_key w /\
    (raw_file w = None -> r = Raise FileNotFoundError /\ t = [Makedirs]) /\
    (forall e, r = Raise e -> w' = w /\ ~ In (ToCsv StagedFile) t) /\
    (r = Ret tt ->
     exists df out,
       raw_file w = Some df /\ transform_frame df = Ret out /\
       staged_file w' = Some out).
Proof.
  unfold transform_data, bind, emit, path_exists, read_csv, lift, to_csv,
    print, emit, raise. simpl.
  destruct (raw_file w) as [df|] eqn:Hr; simpl.
  - rewrite Hr. simpl.
    destruct (transform_frame df) as [out|e] eqn:H; simpl.
    + eexists; eexists; eexists. split; [reflexivity|]. simpl.
      repeat split; auto; try discriminate. eauto.
    + eexists; eexists; eexists. split; [reflexivity|].
      repeat split; auto; try discriminate.
      simpl. intros [?|[?|[]]]; discriminate.
  - eexists; eexists; eexists. split; [reflexivity|].
    repeat split; auto; try discriminate.
    simpl. intros [?|[]]; discriminate.
Qed.

End TransformOutcomes.

Section StagedSchema.
Context {pandas : Pandas}.

Import Transform.

Lemma missing_columns_of_output df out :
  transform_frame df = Ret out ->
  missing_columns out
  = filter (fun c => negb (has_column df c)) ["Churn"; "PaymentMethod"].
Proof.
  intros H.
  pose proof (transform_frame_numeric df out H)
    as (total & tenure & mc & _ & _ & _ & C & T & M & G).
  pose proof (transform_frame_derived df out H)
    as (mc' & internet & lines & contract & _ & Li & _ & Lc
        & D1 & D2 & D3 & D4).
  pose proof (transform_frame_passes df out "InternetService" H
                eq_refl eq_refl eq_refl) as Pi.
  pose proof (transform_frame_passes df out "Contract" H
                eq_refl eq_refl eq_refl) as Pc.
  pose proof (transform_frame_passes df out "Churn" H
                eq_refl eq_refl eq_refl) as Pch.
  pose proof (transform_frame_passes df out "PaymentMethod" H
                eq_refl eq_refl eq_refl) as Pp.
  rewrite Li in Pi. rewrite Lc in Pc.
  unfold missing_columns, Load.required_cols, has_column. cbn [filter].
  rewrite C, T, M, G, D1, D2, D3, D4, Pi, Pc, Pch, Pp. cbn [negb option_map].
  destruct (lookup "Churn" (columns df));
    destruct (lookup "PaymentMethod" (columns df)); reflexivity.
Qed.

(** X10: The loader's column check on the transformer's output: ten of the
    twelve required columns are always there; Churn and PaymentMethod are
    missing exactly when the raw frame lacks them. *)
Theorem staged_schema df out :
  transform_frame df = Ret out ->
  missing_columns out
  = filter (fun c => negb (has_column df c)) ["Churn"; "PaymentMethod"].
Proof. apply missing_columns_of_output. Qed.

End StagedSchema.

(** ** More on the loader *)

Section LoaderMore.
Context {pandas : Pandas} {St : Type} {store : RemoteStore St}.

Import Load.

Lemma select_columns_lookup cs df : forall cols,
  select_columns cs df = Ret cols ->
  cols = map (fun c => (c, match lookup c (columns df) with
                           | Some s => s
                           | None => []
                           end)) cs.
Proof.
  induction cs as [|c r IH]; simpl; intros cols H.
  - now injection H as <-.
  - unfold get_column in H. destruct (lookup c (columns df)) as [s|];
      [|discriminate].
    simpl in H. destruct (select_columns r df) as [rest|]; [|discriminate].
    simpl in H. injection H as <-. now rewrite (IH rest eq_refl).
Qed.

(** X11: A record the loader sends is the twelve required columns in schema
    order, each with the staged value of its row; other staged columns are
    not sent, and the records of a frame are those of its rows in order.
    The step meant to turn NaN into [None] does so only in a column of text
    of object dtype: a gap in a column of numbers is sent as NaN, and so is
    every gap when text is read into the string dtype. *)
Theorem records_schema df :
  missing_columns df = [] ->
  (forall r,
      row_at (projected df) r
      = map (fun c => (c, sent df c r)) required_cols) /\
  to_records (projected df)
  = map (fun r => map (fun c => (c, sent df c r)) required_cols)
        (seq 0 (nrows df)) /\
  (forall c r,
      numeric_column df c = true -> cell_at df c r = NA ->
      sent df c r = VNaN) /\
  (forall c r,
      sent df c r = VNull <->
      cell_at df c r = NA /\ string_dtype = false /\
      exists t, In (Str t) (column_of df c)) /\
  (forall c r, cell_at df c r = NA -> string_dtype = true ->
               sent df c r = VNaN).
Proof.
  intros Hm.
  destruct (select_columns_present required_cols df
              (missing_columns_nil df Hm)) as (cols & Ec & _).
  assert (R : forall r,
             row_at (projected df) r
             = map (fun c => (c, sent df c r)) required_cols).
  { intros r. rewrite row_at_columns. unfold projected. cbn [columns].
    rewrite Ec. rewrite (select_columns_lookup _ _ _ Ec), map_map.
    apply map_ext_in. intros c Hc. cbn [fst snd].
    unfold sent, cell_at, column_of.
    pose proof (missing_columns_nil df Hm c Hc) as Hp.
    unfold has_column in Hp.
    now destruct (lookup c (columns df)). }
  split; [exact R|]. split; [|split; [|split]].
  - unfold to_records. cbn [projected nrows]. apply map_ext. exact R.
  - intros c r Hn Hg. unfold sent, none_kept, column_of. rewrite Hg.
    unfold numeric_column in Hn.
    destruct (lookup c (columns df)) as [s|]; [|discriminate].
    apply negb_true_iff in Hn. now rewrite Hn.
  - intros c r. unfold sent, none_kept. split.
    + intros H. destruct (cell_at df c r); try discriminate.
      destruct (existsb is_str (column_of df c)) eqn:E;
        [|discriminate].
      destruct string_dtype; [discriminate|].
      split; [reflexivity|]. split; [reflexivity|].
      apply existsb_exists in E as ([| |t] & Hi & Ht); try discriminate.
      eauto.
    + intros (-> & -> & t & Hi).
      assert (E : existsb is_str (column_of df c) = true)
        by (apply existsb_exists; exists (Str t); auto).
      now rewrite E.
  - intros c r Hg Hd. unfold sent, none_kept.
    now rewrite Hg, Hd, andb_false_r.
Qed.

Lemma batch_run_events table records bn i total (w : World St) :
  forallb loader_event (snd (batch_run table records bn i total w)) = true.
Proof.
  unfold batch_run.
  destruct (insert_rows table records (remote w)) as [[|] s1]; auto.
  destruct (insert_rows table records s1) as [[|] s2]; auto.
  destruct (insert_rows table records s2) as [[|] s3]; auto.
Qed.

Lemma for_each_batches_events table df total starts : forall (w : World St),
  forall r w' t,
    for_each starts (load_batch table df total) w = Some (r, w', t) ->
    forallb loader_event t = true.
Proof.
  induction starts as [|i rest IH]; intros w r w' t.
  - simpl. unfold ret. now intros [= _ _ <-].
  - cbn [for_each]. unfold bind. rewrite load_batch_run.
    destruct (for_each rest _ _) as [[[r2 w2] t2]|] eqn:E; [|discriminate].
    intros [= _ _ <-]. rewrite forallb_app, batch_run_events.
    now apply IH in E.
Qed.

Opaque filter select_columns for_each.

Lemma load_to_supabase_not_ready_trace table (w : World St) :
  ready w = false ->
  exists t,
    load_to_supabase table w = Some (Ret tt, w, t) /\
    forallb loader_event t = true /\
    (staged_file w = None ->
     t = [Print LookingForFile; Print (FileNotFound StagedFile)]).
Proof.
  intros R. unfold ready in R.
  unfold load_to_supabase, bind, try_except, print, emit, path_exists,
    read_csv, lift. simpl.
  destruct (staged_file w) as [df|] eqn:Hf; simpl.
  - rewrite get_supabase_client_run.
    destruct (has_config w); simpl.
    + destruct (connects w); simpl.
      * rewrite Hf. fold (missing_columns df).
        destruct (missing_columns df) eqn:Em; [discriminate|].
        eexists. split; [reflexivity|]. split; [reflexivity|discriminate].
      * eexists. split; [reflexivity|]. split; [reflexivity|discriminate].
    + eexists. split; [reflexivity|]. split; [reflexivity|discriminate].
  - eexists. split; [reflexivity|]. split; reflexivity.
Qed.

Transparent filter select_columns for_each.

(** X12: The loader never raises and never touches the files or the settings: it
    prints, builds the client, reads the staged file, inserts and waits, and
    nothing else; when it does not get to the batches the remote store is
    untouched as well. *)
Theorem load_frame table (w : World St) :
  exists w' t,
    load_to_supabase table w = Some (Ret tt, w', t) /\
    raw_file w' = raw_file w /\ staged_file w' = staged_file w /\
    env_url w' = env_url w /\ env_key w' = env_key w /\
    forallb loader_event t = true /\
    (ready w = false -> w' = w) /\
    (staged_file w = None ->
     t = [Print LookingForFile; Print (FileNotFound StagedFile)]).
Proof.
  destruct (ready w) eqn:R.
  - assert (exists df, staged_file w = Some df) as [df Hf].
    { unfold ready in R. destruct (staged_file w); [eauto|discriminate]. }
    destruct (load_to_supabase_ready table w df Hf R) as (w' & t & Run & E).
    destruct (for_each_batches table (projected df) (nrows (projected df))
                (py_range 0 (nrows (projected df)) BATCH_SIZE) w)
      as (w2 & t2 & ks & R2 & _ & _ & _ & E1 & E2 & E3 & E4).
    pose proof (for_each_batches_events _ _ _ _ _ _ _ _ R2) as Ev.
    unfold load_batches in Run. rewrite R2 in Run. injection Run as <- <-.
    exists w2. eexists. split; [exact E|].
    repeat split; auto; try discriminate.
    + rewrite !forallb_app, Ev. reflexivity.
    + rewrite Hf. discriminate.
  - destruct (load_to_supabase_not_ready_trace table w R)
      as (t & Run & Ev & Hn).
    exists w, t. split; [exact Run|]. repeat split; auto.
Qed.

Lemma load_returns table (w : World St) :
  exists w' t, load_to_supabase table w = Some (Ret tt, w', t).
Proof.
  destruct (ready w) eqn:R.
  - assert (exists df, staged_file w = Some df) as [df Hf].
    { unfold ready in R. destruct (staged_file w); [eauto|discriminate]. }
    destruct (load_to_supabase_ready table w df Hf R) as (w' & t & _ & E).
    eauto.
  - destruct (load_to_supabase_not_ready table w R) as (t & Run & _).
    eauto.
Qed.

(** X13: The table step never stops the script: whatever the store answers to the
    statement, and also when no client can be built, [main] goes on to the
    load and returns normally; the statement is sent at most once, and only
    with a client. *)
Theorem main_tolerates_table_step (w : World St) :
  exists w1 t1 w2 t2,
    create_table_if_not_exists w = Some (Ret tt, w1, t1) /\
    load_to_supabase "telco_churn" w1 = Some (Ret tt, w2, t2) /\
    main w = Some (Ret tt, w2, t1 ++ t2) /\
    staged_file w1 = staged_file w /\
    inserts t1 = [] /\
    (t1 = [Print ErrorCreatingTable] \/
     t1 = [CreateClient; Print ErrorCreatingTable] \/
     t1 = [CreateClient; Rpc; Print TableReady] \/
     t1 = [CreateClient; Rpc; Print NoteCreatingTable]) /\
    (In Rpc t1 <-> has_config w = true /\ connects w = true).
Proof.
  assert (T : exists w1 t1,
             create_table_if_not_exists w = Some (Ret tt, w1, t1) /\
             staged_file w1 = staged_file w /\ inserts t1 = [] /\
             (t1 = [Print ErrorCreatingTable] \/
              t1 = [CreateClient; Print ErrorCreatingTable] \/
              t1 = [CreateClient; Rpc; Print TableReady] \/
              t1 = [CreateClient; Rpc; Print NoteCreatingTable]) /\
             (In Rpc t1 <-> has_config w = true /\ connects w = true)).
  { unfold create_table_if_not_exists, try_except, bind.
    rewrite get_supabase_client_run.
    destruct (has_config w); [destruct (connects w)|].
    - unfold rpc_execute_sql, print, emit.
      destruct (execute_sql (remote w)) as [[|] s]; simpl;
        eexists; eexists; (split; [reflexivity|]);
        repeat split; auto 6; simpl; auto.
    - simpl. eexists; eexists. split; [reflexivity|].
      repeat split; auto; try (simpl in *; intuition discriminate).
    - simpl. eexists; eexists. split; [reflexivity|].
      repeat split; auto; try (simpl in *; intuition discriminate). }
  destruct T as (w1 & t1 & R1 & F1 & I1 & C1 & P1).
  destruct (load_returns "telco_churn" w1) as (w2 & t2 & R2).
  exists w1, t1, w2, t2. unfold main, bind. rewrite R1, R2.
  do 5 (split; [solve [auto]|]). split; [exact C1 | exact P1].
Qed.

(** X14: When no insertion fails each batch is sent exactly once, in order, with
    no wait, and logged with its number (from 1) and its row range; the
    records sent, put end to end, are the records of the frame. *)
Theorem fault_free_load table df (w : World St) :
  (forall records s, fst (insert_rows table records s) = true) ->
  exists w' t,
    load_batches table df w = Some (Ret tt, w', t) /\
    inserts t
    = map (fun i => (table, batch_records df i))
          (py_range 0 (nrows df) BATCH_SIZE) /\
    sleeps t = [] /\
    concat (map snd (inserts t)) = to_records df /\
    t = concat
          (map (fun k =>
                  [Insert table (batch_records df (k * BATCH_SIZE));
                   Print (BatchInserted (k + 1) (k * BATCH_SIZE + 1)
                            (Nat.min (k * BATCH_SIZE + BATCH_SIZE) (nrows df))
                            (nrows df))])
               (seq 0 (ceil_div (nrows df) BATCH_SIZE))).
Proof.
  intros Ok.
  assert (B : forall i (w0 : World St),
             exists w1,
               load_batch table df (nrows df) i w0
               = Some (Ret tt, w1,
                       [Insert table (batch_records df i);
                        Print (BatchInserted (i / BATCH_SIZE + 1) (i + 1)
                                 (Nat.min (i + BATCH_SIZE) (nrows df))
                                 (nrows df))])).
  { intros i w0. rewrite load_batch_run. unfold batch_run.
    pose proof (Ok (batch_records df i) (remote w0)) as H.
    destruct (insert_rows table (batch_records df i) (remote w0)) as [ok s].
    simpl in H. subst ok. eexists. reflexivity. }
  assert (L : forall starts (w0 : World St),
             exists w1,
               for_each starts (load_batch table df (nrows df)) w0
               = Some (Ret tt, w1,
                       concat
                         (map (fun i =>
                                 [Insert table (batch_records df i);
                                  Print (BatchInserted (i / BATCH_SIZE + 1)
                                           (i + 1)
                                           (Nat.min (i + BATCH_SIZE) (nrows df))
                                           (nrows df))])
                              starts))).
  { induction starts as [|i rest IH]; intros w0.
    - exists w0. reflexivity.
    - cbn [for_each]. unfold bind. destruct (B i w0) as (w1 & ->).
      destruct (IH w1) as (w2 & ->). exists w2. reflexivity. }
  destruct (L (py_range 0 (nrows df) BATCH_SIZE) w) as (w' & Run).
  exists w'. eexists. split; [exact Run|].
  assert (I : forall starts,
             inserts
               (concat
                  (map (fun i =>
                          [Insert table (batch_records df i);
                           Print (BatchInserted (i / BATCH_SIZE + 1) (i + 1)
                                    (Nat.min (i + BATCH_SIZE) (nrows df))
                                    (nrows df))])
                       starts))
             = map (fun i => (table, batch_records df i)) starts).
  { induction starts as [|i rest IH]; [reflexivity|].
    cbn [map concat app inserts]. now rewrite IH. }
  assert (S0 : forall starts,
             sleeps
               (concat
                  (map (fun i =>
                          [Insert table (batch_records df i);
                           Print (BatchInserted (i / BATCH_SIZE + 1) (i + 1)
                                    (Nat.min (i + BATCH_SIZE) (nrows df))
                                    (nrows df))])
                       starts)) = []).
  { induction starts as [|i rest IH]; [reflexivity|].
    cbn [map concat app sleeps]. exact IH. }
  split; [apply I|]. split; [apply S0|]. split.
  - rewrite I, map_map. cbn [snd]. apply batches_cover.
  - unfold py_range. rewrite map_map, range_length_ceil
      by (unfold BATCH_SIZE; lia).
    f_equal. apply map_ext. intros k. cbn [Nat.add].
    assert (Hb : BATCH_SIZE <> 0) by (unfold BATCH_SIZE; lia).
    now rewrite Nat.div_mul.
Qed.

End LoaderMore.

(** ** More on the validator *)

Section ClientFacts.
Context {St : Type} {store : RemoteStore St}.

(** X15: The two copies of [get_supabase_client] (loader and validator) behave
    alike: with the URL or the key unset or empty they raise [ValueError]
    without building a client, otherwise they build one and return it or
    pass on its failure. *)
Theorem clients_agree (w : World St) :
  Load.get_supabase_client w = Validation.get_supabase_client w /\
  (Load.get_supabase_client w = Some (Raise ValueError, w, []) <->
   (env_url w = None \/ env_url w = Some "" \/
    env_key w = None \/ env_key w = Some "")) /\
  (has_config w = true ->
   Load.get_supabase_client w
   = Some (if connects w then Ret tt else Raise StoreError, w,
           [CreateClient])).
Proof.
  rewrite get_supabase_client_run, validation_client_run.
  split; [reflexivity|]. split.
  - unfold has_config, truthy.
    destruct (env_url w) as [u|]; destruct (env_key w) as [k|]; simpl;
      try (split; [auto|reflexivity]).
    + destruct (String.eqb_spec u ""); simpl.
      * subst. split; auto.
      * destruct (String.eqb_spec k ""); simpl.
        -- subst. split; auto 6.
        -- split.
           ++ destruct (connects w); discriminate.
           ++ intros [?|[?|[?|?]]]; congruence.
    + destruct (String.eqb_spec u ""); simpl; split; auto.
  - intros C. rewrite C. now destruct (connects w).
Qed.

End ClientFacts.

Section ValidatorMore.
Context {St : Type} {store : RemoteStore St} {pandas : Pandas}.

Import Validation.

(** X16: With the raw or the staged file missing [validate] says which (the raw
    one first) and returns before any check: no file is read, no client
    built, no query sent, the world is as it was. *)
Theorem validate_missing_files (w : World St) :
  raw_file w = None \/ staged_file w = None ->
  validate w
  = Some (Ret None, w,
          [Print (FileNotFound (match raw_file w with
                                | None => RawFile
                                | Some _ => StagedFile
                                end))]).
Proof.
  intros H. destruct (raw_file w) as [raw_df|] eqn:Hr.
  - destruct H as [H|H]; [discriminate|].
    exact (validate_no_staged w raw_df Hr H).
  - exact (validate_no_raw w Hr).
Qed.

Lemma In_unique_str l s : In (Str l) s -> In (Str l) (unique s).
Proof.
  induction s as [|c r IH]; simpl; [tauto|].
  intros [->|H]; simpl; [auto|].
  destruct (isna c) eqn:E; [auto|]. simpl.
  destruct (cell_eqb c (Str l)) eqn:Ec.
  - left. destruct c; simpl in Ec; try discriminate.
    apply String.eqb_eq in Ec. now subst.
  - right. apply filter_In. split; [auto|]. now rewrite Ec.
Qed.

Lemma mem_str_values l s :
  text_column s -> (mem l (str_values s) = true <-> In (Str l) s).
Proof.
  intros T. rewrite mem_In. unfold str_values. rewrite in_map_iff. split.
  - intros (c & E & Hc). apply In_unique in Hc as [Hc Hn].
    destruct (T c Hc) as [->|(t & ->)]; [discriminate|]. now subst.
  - intros H. exists (Str l). split; [reflexivity|]. now apply In_unique_str.
Qed.

Lemma issubset_text expected s :
  text_column s ->
  (issubset expected (str_values s) = true <->
   forall l, In l expected -> In (Str l) s).
Proof.
  intros T. unfold issubset. rewrite forallb_forall. split.
  - intros H l Hl. apply (mem_str_values l s T). auto.
  - intros H l Hl. apply (mem_str_values l s T). auto.
Qed.

Lemma tenure_group_text s : text_column (map Transform.tenure_group s).
Proof.
  intros c Hc. apply in_map_iff in Hc as (d & <- & _).
  destruct d as [|x|t]; [left; reflexivity| |left; reflexivity].
  rewrite tenure_group_spec.
  destruct (num_ltb x _); [auto|]. right.
  destruct (num_leb x _); [eauto|].
  destruct (num_leb x _); [eauto|].
  destruct (num_leb x _); eauto.
Qed.

Lemma charge_segment_text s :
  text_column (map Transform.monthly_charge_segment s).
Proof.
  intros c Hc. apply in_map_iff in Hc as (d & <- & _). right.
  destruct d as [|x|t]; [eexists; reflexivity| |eexists; reflexivity].
  unfold Transform.monthly_charge_segment.
  destruct (num_ltb x _); [eauto|].
  destruct (_ && _); [eauto|].
  destruct (num_ltb _ x); eauto.
Qed.

(** X17: Checks 4 and 5 of the validator on the transformer's output: each
    passes exactly when every one of its labels is the bucket of some row;
    with no tenure above 60 there is no "Champion" and check 4 fails. *)
Theorem coverage_checks_on_output df out :
  Transform.transform_frame df = Ret out ->
  exists tenure mc,
    lookup "tenure" (columns df) = Some tenure /\
    lookup "MonthlyCharges" (columns df) = Some mc /\
    (segments_ok "tenure_group" expected_tenure_groups out = true <->
     forall l, In l expected_tenure_groups ->
               exists c, In c (imputed tenure) /\
                         Transform.tenure_group c = Str l) /\
    (segments_ok "monthly_charge_segment" expected_charge_segments out = true
     <-> forall l, In l expected_charge_segments ->
                   exists c, In c (imputed mc) /\
                             Transform.monthly_charge_segment c = Str l) /\
    ((forall x, In (Num x) (imputed tenure) -> num_le x (of_nat 60)) ->
     segments_ok "tenure_group" expected_tenure_groups out = false).
Proof.
  intros H.
  pose proof (transform_frame_numeric df out H)
    as (total & tenure & mc & _ & Lt & Lm & _ & _ & _ & G).
  pose proof (transform_frame_derived df out H)
    as (mc' & _ & _ & _ & Lm' & _ & _ & _ & D & _).
  rewrite Lm in Lm'. injection Lm' as <-.
  exists tenure, mc. split; [exact Lt|]. split; [exact Lm|].
  assert (T4 : segments_ok "tenure_group" expected_tenure_groups out = true <->
               forall l, In l expected_tenure_groups ->
                         exists c, In c (imputed tenure) /\
                                   Transform.tenure_group c = Str l).
  { unfold segments_ok. rewrite G.
    rewrite (issubset_text _ _ (tenure_group_text (imputed tenure))).
    split; intros K l Hl.
    - apply K in Hl. apply in_map_iff in Hl as (c & E & Hc). eauto.
    - destruct (K l Hl) as (c & Hc & E). rewrite <- E. now apply in_map. }
  split; [exact T4|]. split.
  - unfold segments_ok. rewrite D.
    rewrite (issubset_text _ _ (charge_segment_text (imputed mc))).
    split; intros K l Hl.
    + apply K in Hl. apply in_map_iff in Hl as (c & E & Hc). eauto.
    + destruct (K l Hl) as (c & Hc & E). rewrite <- E. now apply in_map.
  - intros Hmax.
    destruct (segments_ok "tenure_group" expected_tenure_groups out) eqn:E;
      [|reflexivity].
    exfalso. destruct T4 as [T4 _].
    destruct (T4 eq_refl "Champion") as (c & Hc & Ec).
    { simpl. auto. }
    destruct c as [|x|t]; try discriminate.
    apply Hmax in Hc. rewrite tenure_group_spec in Ec.
    unfold num_le in Hc.
    destruct (num_ltb x _); [discriminate|].
    destruct (num_leb x (of_nat 12)); [discriminate|].
    destruct (num_leb x (of_nat 36)); [discriminate|].
    rewrite Hc in Ec. discriminate.
Qed.

Lemma length_unique_le s : length (unique s) <= length s.
Proof.
  induction s as [|c r IH]; simpl; [lia|].
  destruct (isna c); simpl; [lia|].
  pose proof (filter_length_le (fun d => negb (cell_eqb c d)) (unique r)).
  lia.
Qed.

Lemma length_unique_na s : In NA s -> length (unique s) < length s.
Proof.
  induction s as [|c r IH]; simpl; [tauto|].
  intros [->|H]; simpl.
  - pose proof (length_unique_le r). lia.
  - apply IH in H. destruct (isna c); simpl; [lia|].
    pose proof (filter_length_le (fun d => negb (cell_eqb c d)) (unique r)).
    lia.
Qed.

Lemma filter_all {A} (f : A -> bool) l :
  length (filter f l) = length l -> forall x, In x l -> f x = true.
Proof.
  induction l as [|a l IH]; simpl; [tauto|].
  destruct (f a) eqn:E; simpl.
  - intros H x [<-|Hx]; auto.
  - intros H. pose proof (filter_length_le f l). lia.
Qed.

Lemma length_unique_text s :
  (forall c, In c s -> is_str c = true) ->
  (length (unique s) = length s <-> NoDup s).
Proof.
  induction s as [|c r IH]; intros T.
  - simpl. split; [constructor|reflexivity].
  - assert (Tr : forall d, In d r -> is_str d = true)
      by (intros; apply T; simpl; auto).
    pose proof (T c (or_introl eq_refl)) as Hc.
    destruct c as [| |l]; try discriminate. cbn [unique isna length].
    pose proof (filter_length_le (fun d => negb (cell_eqb (Str l) d))
                  (unique r)) as Fl.
    pose proof (length_unique_le r) as Ul.
    split.
    + intros E.
      assert (E1 : length (filter (fun d => negb (cell_eqb (Str l) d))
                             (unique r)) = length (unique r)) by lia.
      assert (E2 : length (unique r) = length r) by lia.
      constructor; [|now apply IH].
      intros Hin. apply In_unique_str in Hin.
      pose proof (filter_all _ _ E1 _ Hin) as K. simpl in K.
      now rewrite String.eqb_refl in K.
    + intros N. inversion N as [|? ? Hnotin N']; subst.
      apply (IH Tr) in N'. f_equal. rewrite <- N'.
      f_equal. apply forallb_filter_id. apply forallb_forall.
      intros d Hd. apply In_unique in Hd as [Hd _].
      pose proof (Tr d Hd) as Sd. destruct d as [| |l']; try discriminate.
      simpl. destruct (String.eqb_spec l l'); [|reflexivity].
      subst. contradiction.
Qed.

(** X18: Check 2 of the validator on the transformer's output: without a
    customerID column it always passes; with one it fails as soon as an id
    is missing, and for ids that are all text it passes exactly when they
    are pairwise distinct. *)
Theorem row_count_check_on_output df out :
  well_formed df -> Transform.transform_frame df = Ret out ->
  nrows out = nrows df /\
  (lookup "customerID" (columns df) = None -> unique_match df out = true) /\
  (forall ids,
      lookup "customerID" (columns df) = Some ids ->
      (In NA ids -> unique_match df out = false) /\
      ((forall c, In c ids -> is_str c = true) ->
       (unique_match df out = true <-> NoDup ids))).
Proof.
  intros W H.
  assert (R : nrows out = nrows df).
  { apply transform_frame_ret in H
      as (total & df2 & tenure & mc & internet & lines & contract
          & L0 & F & _ & _ & _ & _ & _ & ->).
    apply fill_numeric_spec in F as (R & _ & _);
      [|repeat constructor; simpl; intuition discriminate].
    simpl. exact R. }
  split; [exact R|]. unfold unique_match, raw_unique. rewrite R. split.
  - intros ->. apply Nat.eqb_refl.
  - intros ids L. rewrite L.
    pose proof (wf_lookup df _ _ W L) as Len. unfold nunique. split.
    + intros Hna. apply length_unique_na in Hna.
      apply Nat.eqb_neq. lia.
    + intros T. rewrite Nat.eqb_eq, <- (length_unique_text ids T). lia.
Qed.

End ValidatorMore.

(** ** Runs against the table that appends and counts *)

Section TableRuns.
Context {pandas : Pandas}.

Import Load.

Lemma table_batches table df total starts : forall (w : World Table),
  exists t,
    for_each starts (load_batch table df total) w
    = Some (Ret tt,
            with_remote w
              (mkTable (stored (remote w)
                        ++ concat (map (batch_records df) starts))),
            t) /\
    sleeps t = [].
Proof.
  induction starts as [|i rest IH]; intros w.
  - exists []. simpl. rewrite app_nil_r. now destruct w as [u k r s [rows]].
  - cbn [for_each]. unfold bind. rewrite load_batch_run.
    unfold batch_run. cbn [insert_rows table_store fst snd].
    destruct (IH (with_remote w
                    (mkTable (stored (remote w) ++ batch_records df i))))
      as (t & -> & S0).
    eexists. split.
    + cbn [remote with_remote stored map concat]. rewrite <- app_assoc.
      reflexivity.
    + cbn [app sleeps]. exact S0.
Qed.

Lemma table_ready_again (w : World Table) s :
  ready (with_remote w s) = ready w.
Proof. reflexivity. Qed.

Lemma table_load_run table (w : World Table) df :
  staged_file w = Some df -> ready w = true ->
  exists t,
    load_to_supabase table w
    = Some (Ret tt,
            with_remote w
              (mkTable (stored (remote w) ++ to_records (projected df))),
            t).
Proof.
  intros Hf R.
  destruct (load_to_supabase_ready table w df Hf R) as (w' & t & Run & E).
  destruct (table_batches table (projected df) (nrows (projected df))
              (py_range 0 (nrows (projected df)) BATCH_SIZE) w)
    as (t' & Run' & _).
  unfold load_batches in Run. rewrite Run' in Run.
  injection Run as <- <-.
  pose proof (batches_cover (projected df)) as Bc.
  change (nrows (projected df)) with (nrows df) in Bc.
  rewrite Bc in E. eauto.
Qed.

(** X19: Against such a table a load that gets to the batches appends the records
    of the staged frame, all of them and in order, to what the table held;
    nothing is replaced or skipped, so a second load of the same file leaves
    every record twice. *)
Theorem table_load_appends table (w : World Table) df :
  staged_file w = Some df -> ready w = true ->
  let records := to_records (projected df) in
  length records = nrows df /\
  (exists t,
      load_to_supabase table w
      = Some (Ret tt,
              with_remote w (mkTable (stored (remote w) ++ records)), t)) /\
  (exists t,
      load_to_supabase table
        (with_remote w (mkTable (stored (remote w) ++ records)))
      = Some (Ret tt,
              with_remote w
                (mkTable (stored (remote w) ++ records ++ records)), t)).
Proof.
  intros Hf R records.
  assert (A : forall (w0 : World Table),
             staged_file w0 = Some df -> ready w0 = true ->
             exists t,
               load_to_supabase table w0
               = Some (Ret tt,
                       with_remote w0
                         (mkTable (stored (remote w0) ++ records)), t))
    by (intros w0; apply table_load_run).
  split; [|split].
  - unfold records, to_records. now rewrite length_map, length_seq.
  - now apply A.
  - destruct (A (with_remote w (mkTable (stored (remote w) ++ records))))
      as (t & E); auto.
    exists t. rewrite E. cbn [with_remote remote stored env_url env_key
                              raw_file staged_file].
    now rewrite <- app_assoc.
Qed.

Lemma table_count_after_load (w : World Table) raw_df df :
  raw_file w = Some raw_df -> staged_file w = Some df -> ready w = true ->
  exists w' t t',
    load_to_supabase "telco_churn" w = Some (Ret tt, w', t) /\
    length (stored (remote w')) = length (stored (remote w)) + nrows df /\
    Validation.validate w'
    = Some (Ret (Some (report raw_df df
                         (length (stored (remote w)) =? 0))), w', t').
Proof.
  intros Hr Hf R.
  destruct (table_load_run "telco_churn" w df Hf R) as (t & E).
  assert (L : length (to_records (projected df)) = nrows df)
    by (unfold to_records; now rewrite length_map, length_seq).
  set (w' := with_remote w
               (mkTable (stored (remote w) ++ to_records (projected df))))
    in *.
  assert (Len : length (stored (remote w'))
                = length (stored (remote w)) + nrows df).
  { unfold w'. cbn [remote with_remote stored]. rewrite length_app. lia. }
  exists w', t. eexists. split; [exact E|]. split; [exact Len|].
  rewrite (validate_run w' raw_df df Hr Hf).
  assert (C : fst (count_check w' df) = (length (stored (remote w)) =? 0)).
  { rewrite count_check_cases.
    assert (Hc : has_config w' = true).
    { unfold ready in R. rewrite Hf in R.
      apply andb_true_iff in R as [R _].
      now apply andb_true_iff in R as [R _]. }
    rewrite Hc. cbn [connects connect table_store select_exact fst].
    unfold count_of. cbn [resp_count]. rewrite Len.
    destruct (length (stored (remote w))) as [|n]; cbn [Nat.add].
    - apply Nat.eqb_refl.
    - apply Nat.eqb_neq. lia. }
  rewrite C. reflexivity.
Qed.

(** X20: After such a load the validator's third check passes exactly when the
    table was empty before: the count it gets is what the table held plus
    the rows of the staged frame. *)
Theorem count_check_after_load (w : World Table) raw_df df :
  raw_file w = Some raw_df -> staged_file w = Some df -> ready w = true ->
  exists w' t t',
    load_to_supabase "telco_churn" w = Some (Ret tt, w', t) /\
    length (stored (remote w')) = length (stored (remote w)) + nrows df /\
    Validation.validate w'
    = Some (Ret (Some (report raw_df df
                         (length (stored (remote w)) =? 0))), w', t').
Proof. apply table_count_after_load. Qed.

(** X21: The three steps in a row on an empty table: for a raw frame the
    transformer accepts and that has Churn and PaymentMethod, with the
    settings in place, transforming, loading and validating ends with as
    many rows in the table as in the raw frame and with the third check
    passed. *)
Theorem pipeline_on_empty_table (w : World Table) df :
  raw_file w = Some df -> accepted df = true ->
  has_column df "Churn" = true -> has_column df "PaymentMethod" = true ->
  has_config w = true -> stored (remote w) = [] ->
  exists out w1 t1 w2 t2 t3,
    Transform.transform_frame df = Ret out /\
    Transform.transform_data w = Some (Ret tt, w1, t1) /\
    main w1 = Some (Ret tt, w2, t2) /\
    length (stored (remote w2)) = nrows df /\
    Validation.validate w2
    = Some (Ret (Some (report df out true)), w2, t3).
Proof.
  intros Hr A Hch Hpm Hc He.
  apply transform_frame_accepts in A as [out H].
  assert (Rn : nrows out = nrows df).
  { pose proof H as H'. apply transform_frame_ret in H'
      as (total & df2 & tenure & mc & internet & lines & contract
          & L0 & F & _ & _ & _ & _ & _ & ->).
    apply fill_numeric_spec in F as (R & _ & _);
      [|repeat constructor; simpl; intuition discriminate].
    simpl. exact R. }
  set (w1 := mkWorld (env_url w) (env_key w) (Some df) (Some out)
               (remote w)).
  assert (T : Transform.transform_data w
              = Some (Ret tt, w1,
                      [Makedirs; ReadCsv RawFile; ToCsv StagedFile;
                       Print Transformed])).
  { unfold Transform.transform_data, bind, emit, path_exists, read_csv,
      lift, to_csv, print, emit, raise. simpl.
    repeat (rewrite Hr; simpl). rewrite H. reflexivity. }
  assert (R1 : ready w1 = true).
  { unfold ready. cbn [w1 staged_file]. 
    assert (has_config w1 = true) as -> by exact Hc.
    rewrite (missing_columns_of_output df out H).
    cbn [filter]. rewrite Hch, Hpm. reflexivity. }
  assert (C1 : create_table_if_not_exists w1
               = Some (Ret tt, w1, [CreateClient; Rpc; Print TableReady])).
  { unfold create_table_if_not_exists, try_except, bind.
    rewrite get_supabase_client_run.
    assert (has_config w1 = true) as -> by exact Hc.
    reflexivity. }
  destruct (table_count_after_load w1 df out eq_refl eq_refl R1)
    as (w2 & t & t' & L & Len & V).
  exists out, w1. eexists. exists w2. eexists. eexists.
  split; [exact H|]. split; [exact T|]. split.
  - unfold main, bind. rewrite C1, L. reflexivity.
  - split.
    + rewrite Len. cbn [w1 remote]. rewrite He, Rn. reflexivity.
    + cbn [w1 remote] in V. rewrite He in V. exact V.
Qed.

End TableRuns.

(** ** The further properties at work *)

Lemma transform_full_example :
  Transform.transform_frame full_raw_example = Ret enriched_full_example.
Proof. vm_compute. reflexivity. Qed.

Lemma transform_gappy_example :
  Transform.transform_frame gappy_raw_example = Ret enriched_gappy_example.
Proof. vm_compute. reflexivity. Qed.

Lemma charge_segments_witness :
  exists mc,
    lookup "MonthlyCharges" (columns raw_example) = Some mc /\
    lookup "monthly_charge_segment" (columns enriched_example)
      = Some (map Transform.monthly_charge_segment (imputed mc)).
Proof.
  exact (proj1 (charge_segments raw_example enriched_example
                  transform_example)).
Defined.

Lemma internet_flag_witness :
  exists flags,
    lookup "has_internet_service" (columns enriched_gappy_example)
    = Some flags /\
    nth_error flags 1 = Some (Num (of_nat 0)).
Proof.
  destruct (internet_flag gappy_raw_example enriched_gappy_example
              transform_gappy_example)
    as (internet & flags & Li & O & _ & K).
  exists flags. split; [exact O|].
  injection Li as <-.
  destruct (K 1 NA eq_refl) as [[_ [E|E]]|[E _]];
    [discriminate E | discriminate E | exact E].
Defined.

Lemma multi_line_flag_witness :
  exists flags,
    lookup "is_multi_line_user" (columns enriched_example) = Some flags /\
    nth_error flags 0 = Some (Num (of_nat 1)).
Proof.
  destruct (multi_line_flag raw_example enriched_example transform_example)
    as (lines & flags & Ll & O & _ & K).
  exists flags. split; [exact O|].
  injection Ll as <-.
  destruct (K 0 (Str "Yes") eq_refl) as [[E _]|[_ E]];
    [exact E | exfalso; apply E; reflexivity].
Defined.

Lemma contract_codes_witness :
  exists codes,
    lookup "contract_type_code" (columns enriched_example) = Some codes /\
    nth_error codes 3 = Some NA.
Proof.
  destruct (contract_codes raw_example enriched_example transform_example)
    as (contract & codes & Lc & O & _ & K).
  exists codes. split; [exact O|].
  injection Lc as <-.
  destruct (K 3 (Str "Other") eq_refl)
    as [[E _]|[[E _]|[[E _]|(_ & _ & _ & E)]]];
    [discriminate E | discriminate E | discriminate E | exact E].
Defined.

Lemma categorical_imputation_witness :
  (exists after,
      lookup "InternetService" (columns enriched_gappy_example) = Some after /\
      nth_error after 1 = Some (Str "Unknown")) /\
  (exists after,
      lookup "SeniorCitizen" (columns enriched_gappy_example) = Some after /\
      nth_error after 1 = Some NA).
Proof.
  split.
  - destruct (categorical_imputation gappy_raw_example enriched_gappy_example
                "InternetService"
                [Str "DSL"; NA; Str "Fiber optic"; Str "DSL"]
                transform_gappy_example eq_refl eq_refl eq_refl eq_refl)
      as (after & L & _ & K).
    exists after. split; [exact L | exact (K 1 NA eq_refl)].
  - destruct (categorical_imputation gappy_raw_example enriched_gappy_example
                "SeniorCitizen"
                [Num (of_nat 0); NA; Num (of_nat 1); Num (of_nat 0)]
                transform_gappy_example eq_refl eq_refl eq_refl eq_refl)
      as (after & L & _ & K).
    exists after. split; [exact L | exact (K 1 NA eq_refl)].
Defined.

Lemma numeric_check_on_output_witness :
  Validation.no_missing_numeric enriched_example = true.
Proof.
  refine (proj1 (numeric_check_on_output raw_example enriched_example
                   _ _ _ transform_example eq_refl eq_refl eq_refl) _ _ _);
    vm_compute; discriminate.
Defined.

Lemma contract_check_on_output_witness :
  Validation.contract_codes_ok enriched_example = true.
Proof.
  destruct (contract_check_on_output raw_example enriched_example
              transform_example) as (contract & Lc & K).
  apply K. injection Lc as <-. exists "One year".
  split; [simpl; auto | auto].
Defined.

Lemma transform_frame_errors_witness :
  Transform.transform_frame (drop ["TotalCharges"] raw_example)
  = Raise (KeyError "TotalCharges").
Proof.
  exact (proj2 (transform_frame_errors (drop ["TotalCharges"] raw_example))
           eq_refl).
Defined.

Lemma transform_data_outcome_witness :
  exists w' t,
    Transform.transform_data (table_world None None [])
    = Some (Raise FileNotFoundError, w', t) /\
    t = [Makedirs].
Proof.
  destruct (transform_data_outcome (table_world None None []))
    as (r & w' & t & R & _ & _ & _ & _ & N & _).
  destruct (N eq_refl) as [-> ->]. eauto.
Defined.

Lemma staged_schema_witness :
  missing_columns enriched_example = ["Churn"; "PaymentMethod"] /\
  missing_columns enriched_full_example = [].
Proof.
  split.
  - exact (staged_schema raw_example enriched_example transform_example).
  - exact (staged_schema full_raw_example enriched_full_example
             transform_full_example).
Defined.

Lemma records_schema_witness :
  map fst (row_at (projected enriched_full_example) 3) = Load.required_cols /\
  In ("contract_type_code", VNaN) (row_at (projected enriched_full_example) 3).
Proof.
  destruct (records_schema (pandas := exact_pandas) enriched_full_example
              eq_refl) as (R & _ & N & _).
  rewrite (R 3). split; [reflexivity|].
  apply in_map_iff. exists "contract_type_code". split.
  - now rewrite (N "contract_type_code" 3 eq_refl eq_refl).
  - unfold Load.required_cols. simpl. tauto.
Defined.

Lemma load_frame_witness :
  exists t,
    Load.load_to_supabase "telco_churn"
      (table_world (Some raw_example) None [])
    = Some (Ret tt, table_world (Some raw_example) None [], t) /\
    t = [Print LookingForFile; Print (FileNotFound StagedFile)].
Proof.
  destruct (load_frame "telco_churn" (table_world (Some raw_example) None []))
    as (w' & t & R & _ & _ & _ & _ & _ & Same & Nf).
  rewrite (Same eq_refl) in R. exists t. split; [exact R | exact (Nf eq_refl)].
Defined.

Lemma main_tolerates_table_step_witness :
  exists w2 t,
    Load.main (world_with staged_450 [false; true; true; true])
    = Some (Ret tt, w2, t) /\
    In Rpc t.
Proof.
  destruct (main_tolerates_table_step
              (world_with staged_450 [false; true; true; true]))
    as (w1 & t1 & w2 & t2 & _ & _ & M & _ & _ & _ & P).
  exists w2, (t1 ++ t2). split; [exact M|].
  apply in_or_app. left. apply P. split; reflexivity.
Defined.

Lemma fault_free_load_witness :
  exists w' t,
    Load.load_batches "telco_churn" staged_450 (table_world None None [])
    = Some (Ret tt, w', t) /\
    sleeps t = [] /\
    length (inserts t) = 3.
Proof.
  destruct (fault_free_load (store := table_store) "telco_churn" staged_450
              (table_world None None []) (fun _ _ => eq_refl))
    as (w' & t & R & I & S0 & _).
  exists w', t. split; [exact R|]. split; [exact S0|].
  rewrite I. reflexivity.
Defined.

Lemma clients_agree_witness :
  Load.get_supabase_client no_url_world
  = Some (Raise ValueError, no_url_world, []).
Proof.
  exact (proj2 (proj1 (proj2 (clients_agree no_url_world)))
           (or_introl eq_refl)).
Defined.

Lemma validate_missing_files_witness :
  Validation.validate (table_world None (Some enriched_example) [])
  = Some (Ret None, table_world None (Some enriched_example) [],
          [Print (FileNotFound RawFile)]).
Proof.
  exact (validate_missing_files
           (table_world None (Some enriched_example) [])
           (or_introl eq_refl)).
Defined.

Lemma coverage_checks_on_output_witness :
  Validation.segments_ok "monthly_charge_segment"
    Validation.expected_charge_segments enriched_example = true.
Proof.
  destruct (coverage_checks_on_output raw_example enriched_example
              transform_example) as (tenure & mc & _ & Lm & _ & K & _).
  apply K. injection Lm as <-. intros l [<-|[<-|[<-|[]]]].
  - exists (Num (Fin (inject_Z 20))). split; [simpl; auto | reflexivity].
  - exists (Num (Fin (inject_Z 50))). split; [simpl; auto | reflexivity].
  - exists (Num (Fin (inject_Z 80))). split; [simpl; auto | reflexivity].
Defined.

Lemma row_count_check_on_output_witness :
  Validation.unique_match raw_example enriched_example = true.
Proof.
  destruct (row_count_check_on_output raw_example enriched_example
              raw_example_well_formed transform_example) as (_ & _ & K).
  destruct (K (strs ["A"; "B"; "C"; "D"]) eq_refl) as [_ T].
  apply T.
  - intros c [<-|[<-|[<-|[<-|[]]]]]; reflexivity.
  - repeat constructor; simpl; intuition discriminate.
Defined.

Lemma table_load_appends_witness :
  exists t,
    Load.load_to_supabase "telco_churn"
      (table_world None (Some enriched_full_example) [])
    = Some (Ret tt,
            table_world None (Some enriched_full_example)
              (to_records (projected enriched_full_example)), t).
Proof.
  exact (proj1 (proj2 (table_load_appends "telco_churn"
                         (table_world None (Some enriched_full_example) [])
                         enriched_full_example eq_refl eq_refl))).
Defined.

Lemma count_check_after_load_witness :
  exists w' t t',
    Load.load_to_supabase "telco_churn"
      (table_world (Some full_raw_example) (Some enriched_full_example) [])
    = Some (Ret tt, w', t) /\
    Validation.validate w'
    = Some (Ret (Some (report full_raw_example enriched_full_example true)),
            w', t').
Proof.
  destruct (count_check_after_load
              (table_world (Some full_raw_example)
                 (Some enriched_full_example) [])
              full_raw_example enriched_full_example
              eq_refl eq_refl eq_refl)
    as (w' & t & t' & L & _ & V).
  exists w', t, t'. split; [exact L | exact V].
Defined.

Lemma pipeline_on_empty_table_witness :
  exists w2 t3,
    length (stored (remote w2)) = 4 /\
    Validation.validate w2
    = Some (Ret (Some (report full_raw_example enriched_full_example true)),
            w2, t3).
Proof.
  destruct (pipeline_on_empty_table
              (table_world (Some full_raw_example) None [])
              full_raw_example eq_refl eq_refl eq_refl eq_refl eq_refl
              eq_refl)
    as (out & w1 & t1 & w2 & t2 & t3 & H & _ & _ & Len & V).
  rewrite transform_full_example in H. injection H as <-.
  exists w2, t3. split; [exact Len | exact V].
Defined.
